(** * Appointment management system: queue and slot policy, booking,
      status transitions

    A shallow embedding of
      - [utils/queueUtils.js]        (queue position, wait time, slot and
                                      working-hours checks, renumbering),
      - [models/Appointment.js]      (the appointment document and its
                                      pre-save hook),
      - [models/Organization.js]     (working hours, experts, the virtual
                                      [isCurrentlyOpen]),
      - [controllers/appointmentController.js]
                                     (bookAppointment, updateAppointmentStatus,
                                      cancelAppointment, getUserAppointments,
                                      getOrganizationAppointments,
                                      getAppointmentById),
      - [controllers/organizationController.js]
                                     (getOrganizationAnalytics).

    Conventions of the embedding.
      - A JavaScript [Date] is its number of milliseconds since the epoch
        (a [Z]), or [InvalidDate].  The host's time zone is a fixed offset
        from UTC, the section variable [utcOffset] (milliseconds east).
      - The document store is the list of its documents in insertion order.
        Every access to the store may fail: the world carries a schedule
        [faults] with one entry per access still to come ([true] = this
        access rejects).  [await] plus [try]/[catch] becomes a state and
        exception monad in which the world survives a throw, so a partly
        executed handler leaves its partial writes behind, as in the source.
      - Request fields are strings; an absent field and the empty string are
        both falsy and are both the empty string here.
      - Console output is not part of the state.
      - Requests are handled one after the other: a handler runs from its
        first to its last access without another request in between.
      - A sort of the store's answer keeps the documents that its keys rank
        equal in store order; the properties of the listings are stated so
        that they do not depend on it. *)

From Stdlib Require Import ZArith List String Ascii Bool Lia Permutation Sorted.
From Stdlib Require OrdersEx RelationClasses.
Import ListNotations.
Open Scope string_scope.
Open Scope Z_scope.

(* ================================================================== *)
(** ** Data model *)

Definition ObjectId := nat.

(** [status] of models/Appointment.js: the four values of the schema enum. *)
Inductive Status := pending | in_progress | completed | cancelled.

Definition Status_eqb (a b : Status) : bool :=
  match a, b with
  | pending, pending | in_progress, in_progress
  | completed, completed | cancelled, cancelled => true
  | _, _ => false
  end.

(** The enum validator of the schema, applied to a string assigned to
    [status] before the document is written. *)
Definition castStatus (s : string) : option Status :=
  if String.eqb s "pending" then Some pending
  else if String.eqb s "in-progress" then Some in_progress
  else if String.eqb s "completed" then Some completed
  else if String.eqb s "cancelled" then Some cancelled
  else None.

(** models/Appointment.js, [appointmentSchema]. *)
Record Appointment := mkAppointment {
  _id : ObjectId;
  userId : ObjectId;
  organizationId : ObjectId;
  expertName : string;
  serviceName : string;
  appointmentDate : Z;
  appointmentTime : string;
  status : Status;
  queuePosition : Z;
  estimatedWaitTime : Z;
  notes : string;
  createdAt : Z;
  updatedAt : Z
}.

(** models/Organization.js, the entries of [workingHours] and [experts]. *)
Record WorkingHours := mkWorkingHours {
  day : string;
  startTime : string;
  endTime : string;
  isOpen : bool
}.

Record Expert := mkExpert {
  name : string;
  specialization : string;
  available : bool
}.

(** models/Organization.js, the fields the booking logic reads. *)
Record Organization := mkOrganization {
  org_id : ObjectId;
  org_userId : ObjectId;
  organizationName : string;
  workingHours : list WorkingHours;
  experts : list Expert;
  appointmentDuration : Z
}.

(** A JavaScript [Date] value. *)
Inductive JsDate := InvalidDate | ValidDate (t : Z).

(** A JavaScript number as the time arithmetic meets it: an integer or NaN. *)
Inductive JsNum := NaN | Num (z : Z).

(** What a request may carry where an ObjectId is expected: nothing (falsy),
    a value that does not cast to an ObjectId, or an ObjectId. *)
Inductive ReqId := NoId | BadId | GoodId (n : ObjectId).

(** What a request may carry as [appointmentDate]: nothing (falsy), a value
    from which [new Date] builds an Invalid Date, or a value denoting an
    instant. *)
Inductive ReqDate := NoDate | BadDate | DateAt (t : Z).

Inductive Error := StoreError | CastError | ValidationError | TypeError.

Inductive Result (A : Type) :=
| Ok (a : A)
| Throw (e : Error).
Arguments Ok {A} a.
Arguments Throw {A} e.

(** The world a handler runs in. *)
Record World := mkWorld {
  appointments : list Appointment;
  organizations : list Organization;
  clock : Z;
  faults : list bool
}.

(** What [res.status(code).json({success, message, data})] sends. *)
Record Response := mkResponse {
  code : Z;
  success : bool;
  message : string;
  data : option Appointment
}.

(** [req.body] and [req.user.id] of POST /api/appointments. *)
Record BookRequest := mkBookRequest {
  req_user : ObjectId;
  req_organizationId : ReqId;
  req_expertName : string;
  req_serviceName : string;
  req_appointmentDate : ReqDate;
  req_appointmentTime : string;
  req_notes : string
}.

(* ================================================================== *)
(** ** Field updates *)

Definition set_queuePosition (a : Appointment) (q : Z) : Appointment :=
  mkAppointment (_id a) (userId a) (organizationId a) (expertName a)
    (serviceName a) (appointmentDate a) (appointmentTime a) (status a)
    q (estimatedWaitTime a) (notes a) (createdAt a) (updatedAt a).

Definition set_status (a : Appointment) (s : Status) : Appointment :=
  mkAppointment (_id a) (userId a) (organizationId a) (expertName a)
    (serviceName a) (appointmentDate a) (appointmentTime a) s
    (queuePosition a) (estimatedWaitTime a) (notes a) (createdAt a)
    (updatedAt a).

Definition set_updatedAt (a : Appointment) (t : Z) : Appointment :=
  mkAppointment (_id a) (userId a) (organizationId a) (expertName a)
    (serviceName a) (appointmentDate a) (appointmentTime a) (status a)
    (queuePosition a) (estimatedWaitTime a) (notes a) (createdAt a) t.

Definition set_appointments (w : World) (l : list Appointment) : World :=
  mkWorld l (organizations w) (clock w) (faults w).

Definition set_faults (w : World) (f : list bool) : World :=
  mkWorld (appointments w) (organizations w) (clock w) f.

(* ================================================================== *)
(** ** The state and exception monad of the handlers *)

Definition M (A : Type) : Type := World -> Result A * World.

Definition ret {A} (a : A) : M A := fun w => (Ok a, w).

Definition throw {A} (e : Error) : M A := fun w => (Throw e, w).

Definition bind {A B} (m : M A) (k : A -> M B) : M B :=
  fun w =>
    match m w with
    | (Ok a, w') => k a w'
    | (Throw e, w') => (Throw e, w')
    end.

(** [try { m } catch (error) { h error }] *)
Definition try_catch {A} (m : M A) (h : Error -> M A) : M A :=
  fun w =>
    match m w with
    | (Ok a, w') => (Ok a, w')
    | (Throw e, w') => h e w'
    end.

Declare Scope handler_scope.
Delimit Scope handler_scope with handler.
Notation "x <- m ;; k" := (bind m (fun x => k))
  (at level 100, m at next level, right associativity) : handler_scope.
Notation "m ;;; k" := (bind m (fun _ => k))
  (at level 100, right associativity) : handler_scope.
Open Scope handler_scope.

(** One access to the store: it consumes the next entry of the fault
    schedule and rejects when that entry is [true]. *)
Definition store_access : M unit :=
  fun w =>
    match faults w with
    | [] => (Ok tt, w)
    | false :: fs => (Ok tt, set_faults w fs)
    | true :: fs => (Throw StoreError, set_faults w fs)
    end.

(** [Date.now()] *)
Definition Date_now : M Z := fun w => (Ok (clock w), w).

(* ================================================================== *)
(** ** Strings and numbers of the host language *)

Definition is_digit (c : ascii) : bool :=
  let n := Z.of_nat (nat_of_ascii c) in (48 <=? n) && (n <=? 57).

Fixpoint digits_value (acc : Z) (s : string) : JsNum :=
  match s with
  | EmptyString => Num acc
  | String c s' =>
      if is_digit c
      then digits_value (10 * acc + (Z.of_nat (nat_of_ascii c) - 48)) s'
      else NaN
  end.

(** [Number(s)] on the strings the time fields are made of: a run of
    decimal digits denotes its value and the empty string denotes 0.  Every
    other string is NaN here; the builtin also reads signs, blanks,
    fractions, exponents and radix prefixes, none of which the schema's
    HH:MM pattern admits. *)
Definition Number (s : string) : JsNum := digits_value 0 s.

(** [s.split(':')] *)
Fixpoint split_colon (s : string) : list string :=
  match s with
  | EmptyString => [EmptyString]
  | String c s' =>
      if Ascii.eqb c ":"%char then EmptyString :: split_colon s'
      else
        match split_colon s' with
        | [] => [String c EmptyString]
        | p :: ps => String c p :: ps
        end
  end.

Definition num_add (a b : JsNum) : JsNum :=
  match a, b with Num x, Num y => Num (x + y) | _, _ => NaN end.

Definition num_mul (a b : JsNum) : JsNum :=
  match a, b with Num x, Num y => Num (x * y) | _, _ => NaN end.

(** [a <= b] on numbers: false as soon as one side is NaN. *)
Definition num_le (a b : JsNum) : bool :=
  match a, b with Num x, Num y => x <=? y | _, _ => false end.

(** [a >= b] on numbers. *)
Definition num_ge (a b : JsNum) : bool := num_le b a.

(** [String(n).padStart(2, '0')] for the hour and minute of a date,
    0 <= n <= 99. *)
Definition digit_char (d : Z) : ascii := ascii_of_nat (Z.to_nat (48 + d)).

Definition padStart2 (n : Z) : string :=
  String (digit_char (n / 10)) (String (digit_char (n mod 10)) EmptyString).

(** [s.trim()] of the schema option [trim: true], on ASCII white space. *)
Definition is_space (c : ascii) : bool :=
  let n := nat_of_ascii c in
  (Nat.eqb n 32 || (Nat.leb 9 n && Nat.leb n 13))%bool.

Fixpoint trim_start (s : string) : string :=
  match s with
  | EmptyString => EmptyString
  | String c s' => if is_space c then trim_start s' else s
  end.

Fixpoint trim_end (s : string) : string :=
  match s with
  | EmptyString => EmptyString
  | String c s' =>
      match trim_end s' with
      | EmptyString => if is_space c then EmptyString else String c EmptyString
      | r => String c r
      end
  end.

Definition trim (s : string) : string := trim_end (trim_start s).

(** The schema pattern [/^([0-1]?[0-9]|2[0-3]):[0-5][0-9]$/]. *)
Definition digit_between (lo hi : Z) (c : ascii) : bool :=
  let n := Z.of_nat (nat_of_ascii c) - 48 in (lo <=? n) && (n <=? hi).

Definition matches_HHMM (s : string) : bool :=
  match s with
  | String h (String c (String m1 (String m2 EmptyString))) =>
      digit_between 0 9 h && Ascii.eqb c ":"%char
      && digit_between 0 5 m1 && digit_between 0 9 m2
  | String h1 (String h2 (String c (String m1 (String m2 EmptyString)))) =>
      ((digit_between 0 1 h1 && digit_between 0 9 h2)
       || (Ascii.eqb h1 "2"%char && digit_between 0 3 h2))
      && Ascii.eqb c ":"%char
      && digit_between 0 5 m1 && digit_between 0 9 m2
  | _ => false
  end.

(* ================================================================== *)
(** ** A small clinic, used to run the model on concrete requests *)

(** 2024-01-08T00:00:00.000Z, a Monday. *)
Definition monday : Z := 1704672000000.

Definition clinic : Organization :=
  mkOrganization 1%nat 10%nat "Clinic"
    [mkWorkingHours "Monday" "09:00" "17:00" true]
    [mkExpert "Dr. A" "GP" true] 30.

(** The empty store, on the Thursday before [monday], no failing access. *)
Definition emptyWorld : World := mkWorld [] [clinic] 1704400000000 [].

(** A booking by user 7 with Dr. A on [monday] at [time]. *)
Definition booking (time : string) : BookRequest :=
  mkBookRequest 7%nat (GoodId 1%nat) "Dr. A" "checkup" (DateAt monday) time
    "".

(** An appointment of user 7 at the clinic on [monday]. *)
Definition appt (id : ObjectId) (time : string) (s : Status)
  (position wait created : Z) : Appointment :=
  mkAppointment id 7%nat 1%nat "Dr. A" "checkup" monday time s position wait
    "" created created.

(** Three appointments booked in this order; the second one has just been
    cancelled and the positions still show the gap. *)
Definition queueWithGap : World :=
  mkWorld
    [appt 1%nat "09:00" pending 1 0 100;
     appt 2%nat "09:30" cancelled 2 30 200;
     appt 3%nat "10:00" pending 3 60 300]
    [clinic] 1704400000000 [].

(** The same day with the second appointment completed. *)
Definition queueWithCompleted : World :=
  mkWorld
    [appt 1%nat "09:00" pending 1 0 100;
     appt 2%nat "09:30" completed 2 30 200;
     appt 3%nat "10:00" pending 2 60 300]
    [clinic] 1704400000000 [].

(** A clinic whose opening hour is written without a leading zero, as the
    schema's pattern allows. *)
Definition unpaddedHours : list WorkingHours :=
  [mkWorkingHours "Monday" "9:00" "17:00" true].

(** [monday] at 10:30 local time for a host on UTC. *)
Definition monday1030 : Z := monday + 37800000.

(* ================================================================== *)
(** ** Dates in the host's time zone *)

Section Host.

(** Offset of the host's local time from UTC, in milliseconds. *)
Variable utcOffset : Z.

Definition msPerDay : Z := 86400000.

(** [new Date(x)] on what a request carries. *)
Definition newDate (d : ReqDate) : JsDate :=
  match d with
  | DateAt t => ValidDate t
  | _ => InvalidDate
  end.

(** Local midnight of the day of [t]. *)
Definition startOfDay (t : Z) : Z := t - (t + utcOffset) mod msPerDay.

(** [d.setHours(0, 0, 0, 0)] *)
Definition setHours_midnight (d : JsDate) : JsDate :=
  match d with
  | ValidDate t => ValidDate (startOfDay t)
  | InvalidDate => InvalidDate
  end.

(** [d.setHours(23, 59, 59, 999)] *)
Definition setHours_lastMs (d : JsDate) : JsDate :=
  match d with
  | ValidDate t => ValidDate (startOfDay t + 86399999)
  | InvalidDate => InvalidDate
  end.

(** [d.getDay()]: 0 is Sunday; the epoch was a Thursday. *)
Definition getDay (d : JsDate) : JsNum :=
  match d with
  | ValidDate t => Num (((t + utcOffset) / msPerDay + 4) mod 7)
  | InvalidDate => NaN
  end.

Definition getHours (t : Z) : Z := ((t + utcOffset) mod msPerDay) / 3600000.

Definition getMinutes (t : Z) : Z := ((t + utcOffset) mod 3600000) / 60000.

(** [a < b] on dates: false as soon as one side is invalid. *)
Definition date_lt (a b : JsDate) : bool :=
  match a, b with
  | ValidDate x, ValidDate y => x <? y
  | _, _ => false
  end.

Definition dayNames : list string :=
  ["Sunday"; "Monday"; "Tuesday"; "Wednesday"; "Thursday"; "Friday";
   "Saturday"].

(** [dayNames[n]]; [None] is [undefined]. *)
Definition dayName_at (n : JsNum) : option string :=
  match n with
  | Num k => nth_error dayNames (Z.to_nat k)
  | NaN => None
  end.

(** [wh.day === dayName] *)
Definition day_is (wh : WorkingHours) (dayName : option string) : bool :=
  match dayName with
  | Some s => String.eqb (day wh) s
  | None => false
  end.

(* ================================================================== *)
(** ** The document store *)

(** [status: { $in: ['pending', 'in-progress'] }] *)
Definition status_in_pending_in_progress (a : Appointment) : bool :=
  match status a with
  | pending | in_progress => true
  | completed | cancelled => false
  end.

(** The filter
    [{ organizationId, appointmentDate: { $gte, $lte }, status: { $in } }]. *)
Definition sameDayActive (o : ObjectId) (lo hi : Z) (a : Appointment)
  : bool :=
  Nat.eqb (organizationId a) o
  && (lo <=? appointmentDate a) && (appointmentDate a <=? hi)
  && status_in_pending_in_progress a.

(** The filter of [isSlotAvailable], with [appointmentTime] and
    [expertName] added; the two strings are matched against the stored
    fields by equality. *)
Definition sameSlotActive (o : ObjectId) (lo hi : Z) (time expert : string)
  (a : Appointment) : bool :=
  Nat.eqb (organizationId a) o
  && (lo <=? appointmentDate a) && (appointmentDate a <=? hi)
  && String.eqb (appointmentTime a) time
  && String.eqb (expertName a) expert
  && status_in_pending_in_progress a.

(** Casting of the [$gte]/[$lte] bounds of a filter: an Invalid Date makes
    the query reject before the store is reached. *)
Definition cast_range (lo hi : JsDate) : M (Z * Z) :=
  match lo, hi with
  | ValidDate l, ValidDate h => ret (l, h)
  | _, _ => throw CastError
  end.

(** [.sort({ createdAt: 1 })]: ascending, documents with equal keys kept in
    store order. *)
Fixpoint insert_by_createdAt (a : Appointment) (l : list Appointment)
  : list Appointment :=
  match l with
  | [] => [a]
  | b :: l' =>
      if createdAt a <=? createdAt b then a :: b :: l'
      else b :: insert_by_createdAt a l'
  end.

Definition sort_by_createdAt (l : list Appointment) : list Appointment :=
  fold_right insert_by_createdAt [] l.

(** [Appointment.countDocuments(filter)] *)
Definition Appointment_countDocuments (q : Appointment -> bool) : M Z :=
  store_access ;;;
  fun w => (Ok (Z.of_nat (List.length (filter q (appointments w)))), w).

(** [Appointment.findOne(filter)] *)
Definition Appointment_findOne (q : Appointment -> bool)
  : M (option Appointment) :=
  store_access ;;;
  fun w => (Ok (find q (appointments w)), w).

(** [Appointment.find(filter).sort({ createdAt: 1 })] *)
Definition Appointment_find_sorted (q : Appointment -> bool)
  : M (list Appointment) :=
  store_access ;;;
  fun w => (Ok (sort_by_createdAt (filter q (appointments w))), w).

(** [Appointment.findById(id)]; a route parameter is never absent. *)
Definition Appointment_findById (id : ReqId) : M (option Appointment) :=
  match id with
  | NoId => ret None
  | BadId => throw CastError
  | GoodId n =>
      store_access ;;;
      fun w => (Ok (find (fun a => Nat.eqb (_id a) n) (appointments w)), w)
  end.

(** [Organization.findById(id)] *)
Definition Organization_findById (id : ReqId) : M (option Organization) :=
  match id with
  | NoId => ret None
  | BadId => throw CastError
  | GoodId n =>
      store_access ;;;
      fun w => (Ok (find (fun o => Nat.eqb (org_id o) n) (organizations w)), w)
  end.

(** The stored document with the identifier of [a] becomes [a]. *)
Definition replace_doc (a : Appointment) (l : list Appointment)
  : list Appointment :=
  map (fun d => if Nat.eqb (_id d) (_id a) then a else d) l.

(** [a.save()] on a loaded document: the pre-save hook stamps [updatedAt],
    then the document is written back under its identifier.  (The driver
    sends the modified paths only; a handler saves a document it loaded in
    the same request, so the stored document differs from [a] in those
    paths only.) *)
Definition Appointment_save (a : Appointment) : M Appointment :=
  now <- Date_now ;;
  let a' := set_updatedAt a now in
  store_access ;;;
  fun w => (Ok a', set_appointments w (replace_doc a' (appointments w))).

Definition fresh_id (l : list Appointment) : ObjectId :=
  S (fold_right Nat.max O (map _id l)).

(** [Appointment.create({...})]: schema validation ([required] after
    [trim], the HH:MM pattern, the date cast), the defaults ([status],
    [createdAt], [updatedAt]), the pre-save hook, then the insertion under a
    new identifier. *)
Definition Appointment_create (user org : ObjectId)
  (expert service : string) (date : ReqDate) (time : string)
  (position wait : Z) (note : string) : M Appointment :=
  match date with
  | DateAt t =>
      if String.eqb (trim expert) "" || String.eqb (trim service) ""
         || negb (matches_HHMM time)
      then throw ValidationError
      else
        now <- Date_now ;;
        store_access ;;;
        fun w =>
          let a := mkAppointment (fresh_id (appointments w)) user org
                     (trim expert) (trim service) t time pending position
                     wait (trim note) now now in
          (Ok a, set_appointments w (appointments w ++ [a])%list)
  | _ => throw ValidationError
  end.

(** [appointment.populate(path, fields)]: a read of the store that only
    decorates the response. *)
Definition populate : M unit := store_access.

(* ================================================================== *)
(** ** utils/queueUtils.js *)

Definition calculateQueuePosition (organizationId : ObjectId)
  (appointmentDate : JsDate) (appointmentTime : string) : M Z :=
  try_catch
    (let startOfDay := setHours_midnight appointmentDate in
     let endOfDay := setHours_lastMs appointmentDate in
     range <- cast_range startOfDay endOfDay ;;
     count <- Appointment_countDocuments
                (sameDayActive organizationId (fst range) (snd range)) ;;
     ret (count + 1))
    (fun _ => ret 1).

(** [appointmentDuration = 30] is the default of an absent argument. *)
Definition calculateEstimatedWaitTime (queuePosition : Z)
  (appointmentDuration : option Z) : Z :=
  let appointmentDuration :=
    match appointmentDuration with Some d => d | None => 30 end in
  Z.max 0 ((queuePosition - 1) * appointmentDuration).

Definition isSome {A} (o : option A) : bool :=
  match o with Some _ => true | None => false end.

Definition isSlotAvailable (organizationId : ObjectId)
  (appointmentDate : JsDate) (appointmentTime expertName : string) : M bool :=
  try_catch
    (let startOfDay := setHours_midnight appointmentDate in
     let endOfDay := setHours_lastMs appointmentDate in
     range <- cast_range startOfDay endOfDay ;;
     existingAppointment <-
       Appointment_findOne
         (sameSlotActive organizationId (fst range) (snd range)
            appointmentTime expertName) ;;
     ret (negb (isSome existingAppointment)))
    (fun _ => ret false).

(** [const [hours, minutes] = timeStr.split(':').map(Number);
     return hours * 60 + minutes;]
    With a single component [minutes] is [undefined] and the sum is NaN. *)
Definition timeToMinutes (timeStr : string) : JsNum :=
  match map Number (split_colon timeStr) with
  | hours :: minutes :: _ => num_add (num_mul hours (Num 60)) minutes
  | _ => NaN
  end.

Definition isWithinWorkingHours (workingHours : list WorkingHours)
  (appointmentDate : JsDate) (appointmentTime : string) : bool :=
  let dayName := dayName_at (getDay appointmentDate) in
  match find (fun wh => day_is wh dayName && isOpen wh) workingHours with
  | None => false
  | Some schedule =>
      let appointmentMinutes := timeToMinutes appointmentTime in
      let startMinutes := timeToMinutes (startTime schedule) in
      let endMinutes := timeToMinutes (endTime schedule) in
      num_ge appointmentMinutes startMinutes
      && num_le appointmentMinutes endMinutes
  end.

(** The loop of [updateQueuePositions]; [i] is the loop counter. *)
Fixpoint renumber (appointments : list Appointment) (i : Z) : M unit :=
  match appointments with
  | [] => ret tt
  | a :: rest =>
      Appointment_save (set_queuePosition a (i + 1)) ;;;
      renumber rest (i + 1)
  end.

(** The [try] block of [updateQueuePositions]. *)
Definition updateQueuePositions_try (organizationId : ObjectId)
  (appointmentDate : JsDate) : M unit :=
  let startOfDay := setHours_midnight appointmentDate in
  let endOfDay := setHours_lastMs appointmentDate in
  range <- cast_range startOfDay endOfDay ;;
  appointments <- Appointment_find_sorted
                    (sameDayActive organizationId (fst range) (snd range)) ;;
  renumber appointments 0.

Definition updateQueuePositions (organizationId : ObjectId)
  (appointmentDate : JsDate) : M unit :=
  try_catch (updateQueuePositions_try organizationId appointmentDate)
    (fun _ => ret tt).

(* ================================================================== *)
(** ** models/Organization.js: the virtual [isCurrentlyOpen]

    The getter reads [new Date()]; the instant is the argument [now].
    [>=] and [<=] are on strings here, code unit by code unit. *)

Definition currentTime (now : Z) : string :=
  (padStart2 (getHours now) ++ ":" ++ padStart2 (getMinutes now))%string.

Definition isCurrentlyOpen (now : Z) (workingHours : list WorkingHours)
  : bool :=
  let currentDay := dayName_at (getDay (ValidDate now)) in
  let currentTime := currentTime now in
  match find (fun wh => day_is wh currentDay && isOpen wh) workingHours with
  | None => false
  | Some todaySchedule =>
      String.leb (startTime todaySchedule) currentTime
      && String.leb currentTime (endTime todaySchedule)
  end.

(* ================================================================== *)
(** ** controllers/appointmentController.js *)

Definition fail (status : Z) (msg : string) : Response :=
  mkResponse status false msg None.

Definition serverError : Response := fail 500 "Server error".

Definition truthy_id (i : ReqId) : bool :=
  match i with NoId => false | _ => true end.

Definition truthy_date (d : ReqDate) : bool :=
  match d with NoDate => false | _ => true end.

Definition truthy (s : string) : bool := negb (String.eqb s "").

(** The [try] block of [bookAppointment].  Once the organization is loaded,
    the request's [organizationId] is the identifier of that document. *)
Definition bookAppointment_try (req : BookRequest) : M Response :=
  let organizationId := req_organizationId req in
  let expertName := req_expertName req in
  let serviceName := req_serviceName req in
  let appointmentDate := req_appointmentDate req in
  let appointmentTime := req_appointmentTime req in
  if negb (truthy_id organizationId) || negb (truthy expertName)
     || negb (truthy serviceName) || negb (truthy_date appointmentDate)
     || negb (truthy appointmentTime)
  then ret (fail 400 "Please provide all required fields")
  else
    organization <- Organization_findById organizationId ;;
    match organization with
    | None => ret (fail 404 "Organization not found")
    | Some organization =>
        let appointmentDateTime := newDate appointmentDate in
        today <- Date_now ;;
        let today := setHours_midnight (ValidDate today) in
        if date_lt appointmentDateTime today
        then ret (fail 400 "Cannot book appointment in the past")
        else if negb (isWithinWorkingHours (workingHours organization)
                        (newDate appointmentDate) appointmentTime)
        then ret (fail 400
          "Appointment time is outside working hours, on a day off, or organization is temporarily closed")
        else
          match find (fun e => String.eqb (name e) expertName)
                  (experts organization) with
          | None => ret (fail 404 "Expert not found")
          | Some expert =>
              if negb (available expert)
              then ret (fail 400 "Expert is not available")
              else
                slotAvailable <-
                  isSlotAvailable (org_id organization)
                    (newDate appointmentDate) appointmentTime expertName ;;
                if negb slotAvailable
                then ret (fail 400 "Slot is already taken")
                else
                  queuePosition <-
                    calculateQueuePosition (org_id organization)
                      (newDate appointmentDate) appointmentTime ;;
                  let estimatedWaitTime :=
                    calculateEstimatedWaitTime queuePosition
                      (Some (appointmentDuration organization)) in
                  appointment <-
                    Appointment_create (req_user req) (org_id organization)
                      expertName serviceName appointmentDate appointmentTime
                      queuePosition estimatedWaitTime (req_notes req) ;;
                  populate ;;;
                  populate ;;;
                  ret (mkResponse 201 true "Appointment booked successfully"
                         (Some appointment))
          end
    end.

Definition bookAppointment (req : BookRequest) : M Response :=
  try_catch (bookAppointment_try req) (fun _ => ret serverError).

(** The [try] block of [updateAppointmentStatus]; [user] is [req.user.id],
    [id] is [req.params.id], [newStatus] is [req.body.status].  Saving
    validates the assigned string against the schema enum. *)
Definition updateAppointmentStatus_try (user : ObjectId) (id : ReqId)
  (newStatus : string) : M Response :=
  if negb (truthy newStatus)
  then ret (fail 400 "Please provide status")
  else
    appointment <- Appointment_findById id ;;
    match appointment with
    | None => ret (fail 404 "Appointment not found")
    | Some appointment =>
        organization <-
          Organization_findById (GoodId (organizationId appointment)) ;;
        match organization with
        | None => throw TypeError
        | Some organization =>
            if negb (Nat.eqb (org_userId organization) user)
            then ret (fail 403 "Not authorized to update this appointment")
            else
              match castStatus newStatus with
              | None => throw ValidationError
              | Some s =>
                  appointment <- Appointment_save (set_status appointment s) ;;
                  (if String.eqb newStatus "completed"
                      || String.eqb newStatus "cancelled"
                   then updateQueuePositions (organizationId appointment)
                          (ValidDate (appointmentDate appointment))
                   else ret tt) ;;;
                  populate ;;;
                  populate ;;;
                  ret (mkResponse 200 true
                         "Appointment status updated successfully"
                         (Some appointment))
              end
        end
    end.

Definition updateAppointmentStatus (user : ObjectId) (id : ReqId)
  (newStatus : string) : M Response :=
  try_catch (updateAppointmentStatus_try user id newStatus)
    (fun _ => ret serverError).

(** The [try] block of [cancelAppointment]. *)
Definition cancelAppointment_try (user : ObjectId) (id : ReqId)
  : M Response :=
  appointment <- Appointment_findById id ;;
  match appointment with
  | None => ret (fail 404 "Appointment not found")
  | Some appointment =>
      if negb (Nat.eqb (userId appointment) user)
      then ret (fail 403 "Not authorized to cancel this appointment")
      else if Status_eqb (status appointment) completed
      then ret (fail 400 "Cannot cancel completed appointment")
      else if Status_eqb (status appointment) cancelled
      then ret (fail 400 "Appointment is already cancelled")
      else
        appointment <- Appointment_save (set_status appointment cancelled) ;;
        updateQueuePositions (organizationId appointment)
          (ValidDate (appointmentDate appointment)) ;;;
        ret (mkResponse 200 true "Appointment cancelled successfully"
               (Some appointment))
  end.

Definition cancelAppointment (user : ObjectId) (id : ReqId) : M Response :=
  try_catch (cancelAppointment_try user id) (fun _ => ret serverError).

(* ================================================================== *)
(** ** controllers/appointmentController.js: the read handlers *)

(** What the read handlers send: [res.status(code).json({success, message,
    ...})] with the payload of the handler; a response without [message] has
    the empty one. *)
Record Reply (A : Type) := mkReply {
  reply_code : Z;
  reply_success : bool;
  reply_message : string;
  reply_data : option A
}.
Arguments mkReply {A} _ _ _ _.
Arguments reply_code {A} _.
Arguments reply_success {A} _.
Arguments reply_message {A} _.
Arguments reply_data {A} _.

Definition refuse {A} (status : Z) (msg : string) : Reply A :=
  mkReply status false msg None.

(** [{ count: appointments.length, data: { appointments } }] *)
Definition listing (appointments : list Appointment)
  : Reply (Z * list Appointment) :=
  mkReply 200 true ""
    (Some (Z.of_nat (List.length appointments), appointments)).

(** [status: status] in a filter: the stored status is that string. *)
Definition status_is (q : string) (a : Appointment) : bool :=
  match castStatus q with
  | Some s => Status_eqb (status a) s
  | None => false
  end.

(** [if (status) { query.status = status; }] *)
Definition status_filter (q : string) (a : Appointment) : bool :=
  if truthy q then status_is q a else true.

(** A sort of the store's answer: ascending for [before], documents that
    [before] ranks equal kept in store order. *)
Fixpoint insert_by (before : Appointment -> Appointment -> bool)
  (a : Appointment) (l : list Appointment) : list Appointment :=
  match l with
  | [] => [a]
  | b :: l' =>
      if before a b then a :: b :: l' else b :: insert_by before a l'
  end.

Definition sort_by (before : Appointment -> Appointment -> bool)
  (l : list Appointment) : list Appointment :=
  fold_right (insert_by before) [] l.

(** [.sort({ appointmentDate: -1, appointmentTime: -1 })] *)
Definition latest_first (a b : Appointment) : bool :=
  (appointmentDate b <? appointmentDate a)
  || ((appointmentDate a =? appointmentDate b)
      && String.leb (appointmentTime b) (appointmentTime a)).

(** [.sort({ appointmentDate: 1, appointmentTime: 1, queuePosition: 1 })] *)
Definition earliest_first (a b : Appointment) : bool :=
  (appointmentDate a <? appointmentDate b)
  || ((appointmentDate a =? appointmentDate b)
      && (String.ltb (appointmentTime a) (appointmentTime b)
          || (String.eqb (appointmentTime a) (appointmentTime b)
              && (queuePosition a <=? queuePosition b)))).

(** [Appointment.find(filter).populate(...).sort(...)]: the query, then the
    lookup of the referenced documents when there is something to
    populate. *)
Definition Appointment_find_populated (q : Appointment -> bool)
  (before : Appointment -> Appointment -> bool) : M (list Appointment) :=
  found <- (store_access ;;;
            fun w => (Ok (sort_by before (filter q (appointments w))), w)) ;;
  match found with
  | [] => ret found
  | _ => populate ;;; ret found
  end.

(** The filter of [getUserAppointments]. *)
Definition ofUser (user : ObjectId) (statusQuery : string)
  (a : Appointment) : bool :=
  Nat.eqb (userId a) user && status_filter statusQuery a.

(** [getUserAppointments]; [user] is [req.user.id], [statusQuery] is
    [req.query.status]. *)
Definition getUserAppointments (user : ObjectId) (statusQuery : string)
  : M (Reply (Z * list Appointment)) :=
  try_catch
    (appointments <-
       Appointment_find_populated (ofUser user statusQuery) latest_first ;;
     ret (listing appointments))
    (fun _ => ret (refuse 500 "Server error")).

(** The filter of [getOrganizationAppointments]; [range] is the day asked
    for, when one is. *)
Definition ofOrganization (o : ObjectId) (statusQuery : string)
  (range : option (Z * Z)) (a : Appointment) : bool :=
  Nat.eqb (organizationId a) o
  && status_filter statusQuery a
  && match range with
     | Some (lo, hi) => (lo <=? appointmentDate a) && (appointmentDate a <=? hi)
     | None => true
     end.

(** [getOrganizationAppointments]; [orgId] is [req.params.orgId],
    [statusQuery] and [date] are [req.query.status] and [req.query.date]. *)
Definition getOrganizationAppointments (user : ObjectId) (orgId : ReqId)
  (statusQuery : string) (date : ReqDate)
  : M (Reply (Z * list Appointment)) :=
  try_catch
    (organization <- Organization_findById orgId ;;
     match organization with
     | None => ret (refuse 404 "Organization not found")
     | Some organization =>
         if negb (Nat.eqb (org_userId organization) user)
         then ret (refuse 403 "Not authorized to view these appointments")
         else
           range <-
             (if truthy_date date
              then
                r <- cast_range (setHours_midnight (newDate date))
                       (setHours_lastMs (newDate date)) ;;
                ret (Some r)
              else ret None) ;;
           appointments <-
             Appointment_find_populated
               (ofOrganization (org_id organization) statusQuery range)
               earliest_first ;;
           ret (listing appointments)
     end)
    (fun _ => ret (refuse 500 "Server error")).

(** [getAppointmentById]; the two [populate] calls belong to the query and
    run when a document is found.  The user a stored appointment refers to
    exists (no handler deletes one), so [appointment.userId._id] is read. *)
Definition getAppointmentById (user : ObjectId) (id : ReqId)
  : M (Reply Appointment) :=
  try_catch
    (appointment <- Appointment_findById id ;;
     match appointment with
     | None => ret (refuse 404 "Appointment not found")
     | Some appointment =>
         populate ;;;
         populate ;;;
         organization <-
           Organization_findById (GoodId (organizationId appointment)) ;;
         let isOwner := Nat.eqb (userId appointment) user in
         let isOrgOwner :=
           match organization with
           | Some organization => Nat.eqb (org_userId organization) user
           | None => false
           end in
         if negb isOwner && negb isOrgOwner
         then ret (refuse 403 "Not authorized to view this appointment")
         else ret (mkReply 200 true "" (Some appointment))
     end)
    (fun _ => ret (refuse 500 "Server error")).

(* ================================================================== *)
(** ** controllers/organizationController.js: the analytics *)

(** [data.analytics] of [getOrganizationAnalytics]. *)
Record Analytics := mkAnalytics {
  total : Z;
  today_total : Z;
  today_completed : Z;
  today_pending : Z;
  overall_pending : Z;
  overall_inProgress : Z;
  overall_completed : Z;
  overall_cancelled : Z
}.

(** [{ organizationId }], with [appointmentDate: { $gte: today, $lt:
    tomorrow }] and [status] when given. *)
Definition ofOrg (o : ObjectId) (a : Appointment) : bool :=
  Nat.eqb (organizationId a) o.

Definition ofOrgToday (o : ObjectId) (today tomorrow : Z)
  (a : Appointment) : bool :=
  Nat.eqb (organizationId a) o
  && (today <=? appointmentDate a) && (appointmentDate a <? tomorrow).

Definition ofOrgWithStatus (o : ObjectId) (s : Status) (a : Appointment)
  : bool :=
  Nat.eqb (organizationId a) o && Status_eqb (status a) s.

Definition ofOrgTodayWithStatus (o : ObjectId) (today tomorrow : Z)
  (s : Status) (a : Appointment) : bool :=
  Nat.eqb (organizationId a) o
  && (today <=? appointmentDate a) && (appointmentDate a <? tomorrow)
  && Status_eqb (status a) s.

(** [getOrganizationAnalytics]; [tomorrow.setDate(tomorrow.getDate() + 1)]
    is the next local midnight. *)
Definition getOrganizationAnalytics (user : ObjectId) (id : ReqId)
  : M (Reply Analytics) :=
  try_catch
    (organization <- Organization_findById id ;;
     match organization with
     | None => ret (refuse 404 "Organization not found")
     | Some organization =>
         if negb (Nat.eqb (org_userId organization) user)
         then ret (refuse 403
                     "Not authorized to view this organization analytics")
         else
           now <- Date_now ;;
           let today := startOfDay now in
           let tomorrow := today + msPerDay in
           let o := org_id organization in
           totalAppointments <- Appointment_countDocuments (ofOrg o) ;;
           todayAppointments <-
             Appointment_countDocuments (ofOrgToday o today tomorrow) ;;
           pendingAppointments <-
             Appointment_countDocuments (ofOrgWithStatus o pending) ;;
           inProgressAppointments <-
             Appointment_countDocuments (ofOrgWithStatus o in_progress) ;;
           completedAppointments <-
             Appointment_countDocuments (ofOrgWithStatus o completed) ;;
           cancelledAppointments <-
             Appointment_countDocuments (ofOrgWithStatus o cancelled) ;;
           todayCompleted <-
             Appointment_countDocuments
               (ofOrgTodayWithStatus o today tomorrow completed) ;;
           todayPending <-
             Appointment_countDocuments
               (ofOrgTodayWithStatus o today tomorrow pending) ;;
           ret (mkReply 200 true ""
                  (Some (mkAnalytics totalAppointments todayAppointments
                           todayCompleted todayPending pendingAppointments
                           inProgressAppointments completedAppointments
                           cancelledAppointments)))
     end)
    (fun _ => ret (refuse 500 "Server error")).

(* ================================================================== *)
(** ** Sequences of requests *)

Inductive Call :=
| Book (req : BookRequest)
| UpdateStatus (user : ObjectId) (id : ReqId) (newStatus : string)
| Cancel (user : ObjectId) (id : ReqId).

(** A request arrives at some instant and meets some behaviour of the
    store. *)
Record Event := mkEvent {
  ev_clock : Z;
  ev_faults : list bool;
  ev_call : Call
}.

Definition run_call (c : Call) : M Response :=
  match c with
  | Book req => bookAppointment req
  | UpdateStatus user id newStatus => updateAppointmentStatus user id newStatus
  | Cancel user id => cancelAppointment user id
  end.

Definition handle (w : World) (e : Event) : World :=
  snd (run_call (ev_call e)
         (mkWorld (appointments w) (organizations w) (ev_clock e)
            (ev_faults e))).

Definition run_events (w : World) (evs : list Event) : World :=
  fold_left handle evs w.


(* ================================================================== *)
(** ** Notions used to state the properties *)

(** The local calendar day of an instant, as a day number. *)
Definition localDay (t : Z) : Z := (t + utcOffset) / msPerDay.

(** The appointments that count for the queue of organization [o] on the
    local day of [t]. *)
Definition activeOnDay (o : ObjectId) (t : Z) (a : Appointment) : bool :=
  Nat.eqb (organizationId a) o
  && (localDay (appointmentDate a) =? localDay t)
  && status_in_pending_in_progress a.

Definition created_le (a b : Appointment) : Prop := createdAt a <= createdAt b.

(** The code unit of a character. *)
Definition charCode (c : ascii) : Z := Z.of_nat (nat_of_ascii c).

(** A time of the schema's pattern written with two hour digits. *)
Definition padded (s : string) : bool :=
  Nat.eqb (String.length s) 5 && matches_HHMM s.

(** The store after the loop has saved the documents of [l], the first one
    at position [i + 1]. *)
Fixpoint renumber_store (l : list Appointment) (i now : Z)
  (s : list Appointment) : list Appointment :=
  match l with
  | [] => s
  | a :: rest =>
      renumber_store rest (i + 1) now
        (replace_doc (set_updatedAt (set_queuePosition a (i + 1)) now) s)
  end.

(** Index in [l] of the document with identifier [i]. *)
Fixpoint rank_of (i : ObjectId) (l : list Appointment) : option Z :=
  match l with
  | [] => None
  | a :: rest =>
      if Nat.eqb (_id a) i then Some 0
      else match rank_of i rest with
           | Some j => Some (j + 1)
           | None => None
           end
  end.

(** The same store, document by document. *)
Definition renumber_doc (l : list Appointment) (i now : Z) (d : Appointment)
  : Appointment :=
  match rank_of (_id d) l with
  | Some j => set_updatedAt (set_queuePosition d (i + j + 1)) now
  | None => d
  end.

(** [m] keeps the property [I] of the stored appointments, whether it
    returns or throws, and what it returns satisfies [Q]. *)
Definition keeps {A} (I : list Appointment -> Prop) (m : M A)
  (Q : A -> Prop) : Prop :=
  forall w,
    I (appointments w) ->
    I (appointments (snd (m w)))
    /\ (forall a, fst (m w) = Ok a -> Q a).



(** The stored appointments, the organizations and the clock are [l], [o]
    and [c]; the fault schedule is left open. *)
Definition db_is (l : list Appointment) (o : list Organization) (c : Z)
  (w : World) : Prop :=
  appointments w = l /\ organizations w = o /\ clock w = c.

(** From a world in [P], [m] returns [a] in a world in [Q a], or throws in a
    world in [E]. *)
Definition triple {A} (P : World -> Prop) (m : M A)
  (Q : A -> World -> Prop) (E : World -> Prop) : Prop :=
  forall w,
    P w ->
    match m w with
    | (Ok a, w') => Q a w'
    | (Throw _, w') => E w'
    end.

Definition never (_ : World) : Prop := False.

(** An appointment without the three fields the handlers rewrite. *)
Definition core (a : Appointment) : Appointment :=
  set_status (set_updatedAt (set_queuePosition a 0) 0) pending.

(** The new document of a booking. *)
Definition booked (req : BookRequest) (org : Organization) (t : Z) (id : ObjectId)
  (position now : Z) : Appointment :=
  mkAppointment id (req_user req) (org_id org) (trim (req_expertName req))
    (trim (req_serviceName req)) t (req_appointmentTime req) pending position
    (calculateEstimatedWaitTime position (Some (appointmentDuration org)))
    (trim (req_notes req)) now now.

(** The positions of the pending and in-progress appointments of every
    organization on every local day are the numbers from 1 to their
    count. *)
Definition Contiguous (l : list Appointment) : Prop :=
  forall o t,
    Permutation
      (map queuePosition (filter (activeOnDay o t) l))
      (map Z.of_nat (seq 1 (List.length (filter (activeOnDay o t) l)))).

(** No access of the request fails. *)
Definition calm (w : World) : Prop := faults w = [].

(** The store once the appointment [a] has been saved with the status [s]
    and the queue of its day renumbered as far as the [n]-th document
    found. *)
Definition restatused (l : list Appointment) (a : Appointment) (s : Status)
  (c : Z) (n : nat) : list Appointment :=
  let l1 := replace_doc (set_updatedAt (set_status a s) c) l in
  map (renumber_doc
         (firstn n (sort_by_createdAt
                      (filter (activeOnDay (organizationId a)
                                 (appointmentDate a)) l1))) 0 c) l1.

(** What [cancelAppointment] answers and leaves, from the store [l]. *)
Definition cancel_outcome (user : ObjectId) (id : ReqId)
  (l : list Appointment) (o : list Organization) (c : Z)
  (resp : Response) (w' : World) : Prop :=
  organizations w' = o /\ clock w' = c
  /\ ((appointments w' = l /\ success resp = false)
      \/ exists a n,
           id = GoodId (_id a) /\ In a l /\ userId a = user
           /\ status_in_pending_in_progress a = true
           /\ appointments w' = restatused l a cancelled c n
           /\ resp = mkResponse 200 true "Appointment cancelled successfully"
                       (Some (set_updatedAt (set_status a cancelled) c))).

(** What [updateAppointmentStatus] answers and leaves, from the store
    [l]. *)
Definition update_outcome (user : ObjectId) (id : ReqId) (newStatus : string)
  (l : list Appointment) (o : list Organization) (c : Z)
  (resp : Response) (w' : World) : Prop :=
  organizations w' = o /\ clock w' = c
  /\ ((appointments w' = l /\ success resp = false)
      \/ exists a org s,
           id = GoodId (_id a) /\ In a l
           /\ find (fun x => Nat.eqb (org_id x) (organizationId a)) o
              = Some org
           /\ org_userId org = user
           /\ castStatus newStatus = Some s
           /\ ((s = pending \/ s = in_progress)
               /\ appointments w'
                  = replace_doc (set_updatedAt (set_status a s) c) l
               \/ (s = completed \/ s = cancelled)
                  /\ exists n, appointments w' = restatused l a s c n)
           /\ (resp = serverError
               \/ resp = mkResponse 200 true
                           "Appointment status updated successfully"
                           (Some (set_updatedAt (set_status a s) c)))).

(** The checks a booking passes before its document is written. *)
Definition bookable (req : BookRequest) (org : Organization) (t : Z)
  (expert : Expert) (l : list Appointment) (c : Z) : Prop :=
  req_organizationId req = GoodId (org_id org)
  /\ req_appointmentDate req = DateAt t
  /\ truthy (req_expertName req) = true
  /\ truthy (req_serviceName req) = true
  /\ startOfDay c <= t
  /\ isWithinWorkingHours (workingHours org) (ValidDate t)
       (req_appointmentTime req) = true
  /\ find (fun e => String.eqb (name e) (req_expertName req)) (experts org)
     = Some expert
  /\ available expert = true
  /\ find (sameSlotActive (org_id org) (startOfDay t)
             (startOfDay t + 86399999) (req_appointmentTime req)
             (req_expertName req)) l = None
  /\ String.eqb (trim (req_expertName req)) "" = false
  /\ String.eqb (trim (req_serviceName req)) "" = false
  /\ matches_HHMM (req_appointmentTime req) = true.

(** What [bookAppointment] answers and leaves, from the store [l]. *)
Definition book_outcome (req : BookRequest)
  (l : list Appointment) (o : list Organization) (c : Z)
  (resp : Response) (w' : World) : Prop :=
  organizations w' = o /\ clock w' = c
  /\ ((appointments w' = l /\ success resp = false)
      \/ exists org t expert position,
           find (fun x => Nat.eqb (org_id x) (org_id org)) o = Some org
           /\ bookable req org t expert l c
           /\ (position = 1
               \/ position
                  = Z.of_nat (List.length
                                (filter (activeOnDay (org_id org) t) l)) + 1)
           /\ appointments w'
              = (l ++ [booked req org t (fresh_id l) position c])%list
           /\ (resp = serverError
               \/ resp = mkResponse 201 true "Appointment booked successfully"
                           (Some (booked req org t (fresh_id l) position
                                    c)))).

(** Who may have caused the status of the stored appointment [d] to become
    [s] through the call [c]: its user by a cancellation of a pending or
    in-progress appointment, or the user of its organization by a status
    update. *)
Definition authorized (c : Call) (o : list Organization) (d : Appointment)
  (s : Status) : Prop :=
  match c with
  | Book _ => False
  | Cancel user id =>
      id = GoodId (_id d) /\ user = userId d /\ s = cancelled
      /\ status_in_pending_in_progress d = true
  | UpdateStatus user id newStatus =>
      id = GoodId (_id d) /\ castStatus newStatus = Some s
      /\ exists org,
           find (fun x => Nat.eqb (org_id x) (organizationId d)) o = Some org
           /\ org_userId org = user
  end.

(** A status update that takes a completed or cancelled appointment back to
    pending or in-progress. *)
Definition reopens (c : Call) (l : list Appointment) : bool :=
  match c with
  | UpdateStatus _ (GoodId j) newStatus =>
      match castStatus newStatus, find (fun a => Nat.eqb (_id a) j) l with
      | Some (pending | in_progress), Some a =>
          negb (status_in_pending_in_progress a)
      | _, _ => false
      end
  | _ => false
  end.

(** A sequence of requests during which no access to the store fails and no
    appointment is reopened. *)
Fixpoint orderly (w : World) (evs : list Event) : Prop :=
  match evs with
  | [] => True
  | e :: rest =>
      ev_faults e = []
      /\ reopens (ev_call e) (appointments w) = false
      /\ orderly (handle w e) rest
  end.

(** The day asked for by [getOrganizationAppointments], as the range of its
    query. *)
Definition day_range (date : ReqDate) : option (Z * Z) :=
  match date with
  | DateAt t => Some (startOfDay t, startOfDay t + 86399999)
  | _ => None
  end.

(** What a listing asked with the status [q] shows: everything when [q] is
    empty, otherwise the appointments whose status is written [q]. *)
Definition status_asked (q : string) (a : Appointment) : Prop :=
  q = "" \/ castStatus q = Some (status a).

(** The number of stored appointments that pass a filter. *)
Definition count_of (q : Appointment -> bool) (l : list Appointment) : Z :=
  Z.of_nat (List.length (filter q l)).

(** [user] may see [a]: the appointment is their own, or they own its
    organization. *)
Definition may_see (user : ObjectId) (o : list Organization)
  (a : Appointment) : Prop :=
  userId a = user
  \/ exists org,
       find (fun x => Nat.eqb (org_id x) (organizationId a)) o = Some org
       /\ org_userId org = user.

(** A handler that answers and leaves the appointments and the
    organizations as they were. *)
Definition reads_only {A} (m : M A) (w : World) : Prop :=
  (exists r, fst (m w) = Ok r)
  /\ appointments (snd (m w)) = appointments w
  /\ organizations (snd (m w)) = organizations w.

(** The appointments of organization [i] on the local day of [now]. *)
Definition onDayOf (i : ObjectId) (now : Z) (a : Appointment) : bool :=
  Nat.eqb (organizationId a) i
  && (localDay (appointmentDate a) =? localDay now).

(** No slot is held twice: two pending or in-progress appointments of the
    same organization, local day, time string and expert name are the same
    document. *)
Definition NoClash (l : list Appointment) : Prop :=
  forall a b,
    In a l -> In b l ->
    status_in_pending_in_progress a = true ->
    status_in_pending_in_progress b = true ->
    organizationId a = organizationId b ->
    localDay (appointmentDate a) = localDay (appointmentDate b) ->
    appointmentTime a = appointmentTime b ->
    expertName a = expertName b ->
    _id a = _id b.

(** The experts' names are stored trimmed, as the organization schema's
    [trim: true] leaves them. *)
Definition experts_trimmed (o : list Organization) : Prop :=
  forall org e, In org o -> In e (experts org) -> trim (name e) = name e.

(** A sequence of requests in which no completed or cancelled appointment
    is taken back to pending or in-progress. *)
Fixpoint unreopened (w : World) (evs : list Event) : Prop :=
  match evs with
  | [] => True
  | e :: rest =>
      reopens (ev_call e) (appointments w) = false
      /\ unreopened (handle w e) rest
  end.

(* ================================================================== *)
(** ** Facts about local days *)

(** Unfolding of the monad and of the store primitives. *)
Ltac run_monad :=
  cbv beta iota zeta delta
    [try_catch bind ret throw Date_now store_access cast_range populate
     Appointment_countDocuments Appointment_findOne Appointment_find_sorted
     Appointment_findById Organization_findById Appointment_save
     setHours_midnight setHours_lastMs].

Lemma startOfDay_is_midnight (t : Z) :
  (startOfDay t + utcOffset) mod msPerDay = 0
  /\ localDay (startOfDay t) = localDay t
  /\ startOfDay t <= t.
Proof.
  unfold startOfDay, localDay, msPerDay.
  repeat split; Z.div_mod_to_equations; lia.
Qed.

Lemma within_day_iff (t x : Z) :
  startOfDay t <= x <= startOfDay t + 86399999 <-> localDay x = localDay t.
Proof.
  unfold startOfDay, localDay, msPerDay.
  split; intros; Z.div_mod_to_equations; lia.
Qed.

Lemma before_today_iff (t now : Z) :
  t < startOfDay now <-> localDay t < localDay now.
Proof.
  unfold startOfDay, localDay, msPerDay.
  split; intros; Z.div_mod_to_equations; lia.
Qed.

Lemma sameDayActive_activeOnDay (o : ObjectId) (t : Z) (a : Appointment) :
  sameDayActive o (startOfDay t) (startOfDay t + 86399999) a
  = activeOnDay o t a.
Proof.
  unfold sameDayActive, activeOnDay.
  destruct (Nat.eqb (organizationId a) o); simpl; [ | reflexivity ].
  destruct (status_in_pending_in_progress a);
    rewrite ?andb_true_r, ?andb_false_r; [ | reflexivity ].
  pose proof (within_day_iff t (appointmentDate a)) as H.
  destruct (localDay (appointmentDate a) =? localDay t) eqn:E.
  - apply Z.eqb_eq in E. apply H in E.
    apply andb_true_iff; split; apply Z.leb_le; lia.
  - apply Z.eqb_neq in E. apply andb_false_iff.
    destruct (Z.leb_spec (startOfDay t) (appointmentDate a)); [ | now left ].
    destruct (Z.leb_spec (appointmentDate a) (startOfDay t + 86399999));
      [ | now right ].
    exfalso. apply E, H. lia.
Qed.

(** C7.  For every queue position [k >= 1] and duration [d >= 0],
    [calculateEstimatedWaitTime(k, d)] is [max(0, (k - 1) * d)], which is
    [(k - 1) * d]; at position 1 it is 0 for every such [d], also when the
    duration is left to its default. *)
Theorem calculateEstimatedWaitTime_spec (k d : Z) :
  1 <= k -> 0 <= d ->
  calculateEstimatedWaitTime k (Some d) = Z.max 0 ((k - 1) * d)
  /\ calculateEstimatedWaitTime k (Some d) = (k - 1) * d
  /\ calculateEstimatedWaitTime 1 (Some d) = 0
  /\ calculateEstimatedWaitTime 1 None = 0.
Proof.
  intros Hk Hd. unfold calculateEstimatedWaitTime.
  repeat split; try reflexivity.
  apply Z.max_r. nia.
Qed.

(** C4.  [calculateQueuePosition] never throws and never writes.  On a valid
    date, when the count query is answered, it returns one plus the number
    of stored appointments of the organization that fall on the date's local
    day (local midnight through 23:59:59.999) and are pending or
    in-progress; when the query fails (the store rejects it, or the date is
    invalid) it returns 1. *)
Theorem calculateQueuePosition_spec (o : ObjectId) (d : JsDate)
  (time : string) (w : World) :
  appointments (snd (calculateQueuePosition o d time w)) = appointments w
  /\ match d, fst (store_access w) with
     | ValidDate t, Ok _ =>
         fst (calculateQueuePosition o d time w)
         = Ok (Z.of_nat (List.length
                           (filter (activeOnDay o t) (appointments w))) + 1)
     | _, _ => fst (calculateQueuePosition o d time w) = Ok 1
     end.
Proof.
  unfold calculateQueuePosition. run_monad.
  destruct d as [ | t ]; simpl; [ split; reflexivity | ].
  rewrite <- (filter_ext _ _ (sameDayActive_activeOnDay o t)).
  destruct (faults w) as [ | [ | ] fs ]; simpl; split; reflexivity.
Qed.

(** The day boundaries of C4 are those of the local calendar day. *)
Lemma activeOnDay_bounds (o : ObjectId) (t : Z) (a : Appointment) :
  activeOnDay o t a = true <->
  organizationId a = o
  /\ startOfDay t <= appointmentDate a <= startOfDay t + 86399999
  /\ (status a = pending \/ status a = in_progress).
Proof.
  rewrite <- sameDayActive_activeOnDay. unfold sameDayActive.
  rewrite !andb_true_iff, Nat.eqb_eq, !Z.leb_le.
  unfold status_in_pending_in_progress.
  destruct (status a); intuition congruence.
Qed.

(** The filter of [isSlotAvailable], in words. *)
Lemma sameSlotActive_iff (o : ObjectId) (t : Z) (time expert : string)
  (a : Appointment) :
  sameSlotActive o (startOfDay t) (startOfDay t + 86399999) time expert a
  = true <->
  organizationId a = o
  /\ localDay (appointmentDate a) = localDay t
  /\ appointmentTime a = time
  /\ expertName a = expert
  /\ (status a = pending \/ status a = in_progress).
Proof.
  unfold sameSlotActive.
  rewrite !andb_true_iff, Nat.eqb_eq, !Z.leb_le, !String.eqb_eq.
  rewrite <- within_day_iff.
  unfold status_in_pending_in_progress.
  destruct (status a); intuition congruence.
Qed.







Lemma digit_between_spec (lo hi : Z) (c : ascii) :
  0 <= lo -> hi <= 9 -> digit_between lo hi c = true ->
  is_digit c = true
  /\ Ascii.eqb c ":"%char = false
  /\ lo <= Z.of_nat (nat_of_ascii c) - 48 <= hi.
Proof.
  intros Hlo Hhi H. unfold digit_between in H.
  apply andb_true_iff in H. destruct H as [H1 H2].
  apply Z.leb_le in H1, H2. repeat split; try lia.
  - unfold is_digit. apply andb_true_iff. split; apply Z.leb_le; lia.
  - destruct (Ascii.eqb_spec c ":"%char) as [ -> | ]; [ | reflexivity ].
    simpl in H2. lia.
Qed.


(** In a store with distinct identifiers, looking a stored document up by
    its identifier finds that document. *)
Lemma find_by_id (l : list Appointment) (a : Appointment) :
  NoDup (map _id l) -> In a l ->
  find (fun x => Nat.eqb (_id x) (_id a)) l = Some a.
Proof.
  induction l as [ | b l IH ]; simpl; [ contradiction | ].
  intros Hnd [ -> | Hin ].
  - now rewrite Nat.eqb_refl.
  - inversion Hnd as [ | ? ? Hnotin Hnd' ]; subst.
    destruct (Nat.eqb_spec (_id b) (_id a)) as [ E | _ ]; [ | now apply IH ].
    exfalso. apply Hnotin. rewrite E. now apply in_map.
Qed.

(** C3, as the code has it.  When the required fields are present and the
    organization is found, a request whose date lies on a local day before
    today's is refused with the past-date error, whatever the time, the
    expert, the service, the notes and the stored appointments are; nothing
    is written. *)
Theorem bookAppointment_past_date (req : BookRequest) (w : World)
  (oid : ObjectId) (org : Organization) (t : Z) :
  req_organizationId req = GoodId oid ->
  req_expertName req <> "" ->
  req_serviceName req <> "" ->
  req_appointmentTime req <> "" ->
  req_appointmentDate req = DateAt t ->
  fst (Organization_findById (GoodId oid) w) = Ok (Some org) ->
  localDay t < localDay (clock w) ->
  fst (bookAppointment req w)
    = Ok (fail 400 "Cannot book appointment in the past")
  /\ appointments (snd (bookAppointment req w)) = appointments w.
Proof.
  intros Hid He Hs Ht Hd Horg Hpast.
  apply before_today_iff in Hpast. apply Z.ltb_lt in Hpast.
  apply String.eqb_neq in He, Hs, Ht.
  unfold bookAppointment, bookAppointment_try.
  rewrite Hid, Hd. unfold truthy. rewrite He, Hs, Ht. simpl negb. simpl orb.
  cbv iota. revert Horg. run_monad.
  destruct (faults w) as [ | [ | ] fs ]; simpl;
    try discriminate; intros [= ->]; simpl;
    rewrite Hpast; split; reflexivity.
Qed.

(** C8.  Cancelling a stored appointment that is completed, or cancelled,
    on behalf of its owner always fails and writes nothing; when the store
    answers the lookup, the failure is the 400 response that names the
    reason ('cannot cancel completed' / 'already cancelled'). *)
Theorem cancelAppointment_finished (w : World) (a : Appointment) :
  NoDup (map _id (appointments w)) ->
  In a (appointments w) ->
  status a = completed \/ status a = cancelled ->
  appointments (snd (cancelAppointment (userId a) (GoodId (_id a)) w))
    = appointments w
  /\ organizations (snd (cancelAppointment (userId a) (GoodId (_id a)) w))
    = organizations w
  /\ (exists resp,
        fst (cancelAppointment (userId a) (GoodId (_id a)) w) = Ok resp
        /\ success resp = false)
  /\ (fst (store_access w) = Ok tt ->
      fst (cancelAppointment (userId a) (GoodId (_id a)) w)
        = Ok (fail 400
                (match status a with
                 | completed => "Cannot cancel completed appointment"
                 | _ => "Appointment is already cancelled"
                 end))).
Proof.
  intros Hnd Hin Hst.
  pose proof (find_by_id _ _ Hnd Hin) as Hfind.
  unfold cancelAppointment, cancelAppointment_try. run_monad.
  destruct (faults w) as [ | [ | ] fs ]; simpl; rewrite ?Hfind;
    rewrite ?Nat.eqb_refl; simpl;
    destruct Hst as [ -> | -> ]; simpl;
    repeat split; eauto; discriminate.
Qed.

(* ------------------------------------------------------------------ *)
(** *** Times written with two hour digits

    On such times the string comparison of [isCurrentlyOpen] and the
    comparison in minutes of [isWithinWorkingHours] agree. *)

Lemma Ascii_compare_code (a b : ascii) :
  Ascii.compare a b = (charCode a ?= charCode b).
Proof.
  unfold Ascii.compare, charCode, nat_of_ascii.
  rewrite !N_nat_Z. symmetry. apply N2Z.inj_compare.
Qed.

Lemma is_digit_code (c : ascii) :
  is_digit c = true ->
  0 <= charCode c - 48 <= 9 /\ Ascii.eqb c ":"%char = false.
Proof.
  unfold is_digit, charCode. intro H. apply andb_true_iff in H.
  destruct H as [H1 H2]. apply Z.leb_le in H1, H2. split; [ lia | ].
  destruct (Ascii.eqb_spec c ":"%char) as [ -> | ]; [ | reflexivity ].
  simpl in H2. lia.
Qed.

Lemma timeToMinutes_chars (c1 c2 c4 c5 : ascii) :
  is_digit c1 = true -> is_digit c2 = true ->
  is_digit c4 = true -> is_digit c5 = true ->
  timeToMinutes
    (String c1 (String c2 (String ":" (String c4 (String c5 EmptyString)))))
  = Num ((10 * (charCode c1 - 48) + (charCode c2 - 48)) * 60
         + (10 * (charCode c4 - 48) + (charCode c5 - 48))).
Proof.
  intros D1 D2 D4 D5.
  destruct (is_digit_code _ D1) as [_ N1], (is_digit_code _ D2) as [_ N2],
    (is_digit_code _ D4) as [_ N4], (is_digit_code _ D5) as [_ N5].
  unfold timeToMinutes. simpl. rewrite N1, N2, N4, N5. simpl.
  unfold Number. simpl. rewrite D1, D2, D4, D5. simpl.
  unfold charCode. f_equal; lia.
Qed.

Lemma padded_chars (s : string) :
  padded s = true ->
  exists c1 c2 c4 c5,
    s = String c1 (String c2 (String ":" (String c4 (String c5 EmptyString))))
    /\ is_digit c1 = true /\ is_digit c2 = true
    /\ is_digit c4 = true /\ is_digit c5 = true
    /\ charCode c4 - 48 <= 5.
Proof.
  unfold padded. intro H. apply andb_true_iff in H. destruct H as [Hlen H].
  destruct s as [ | c1 [ | c2 [ | c3 [ | c4 [ | c5 [ | c6 s ] ] ] ] ] ];
    try discriminate Hlen.
  simpl in H. rewrite !andb_true_iff in H.
  destruct H as [[[H12 Hc] H4] H5].
  apply Ascii.eqb_eq in Hc. subst c3.
  apply digit_between_spec in H4, H5; try lia.
  destruct H4 as (D4 & _ & R4), H5 as (D5 & _ & _).
  exists c1, c2, c4, c5. split; [ reflexivity | ].
  assert (D12 : is_digit c1 = true /\ is_digit c2 = true).
  { apply orb_true_iff in H12. destruct H12 as [ H | H ];
      apply andb_true_iff in H; destruct H as [Ha Hb].
    - apply digit_between_spec in Ha, Hb; try lia. tauto.
    - apply Ascii.eqb_eq in Ha. subst c1.
      apply digit_between_spec in Hb; try lia. split; [ reflexivity | tauto ]. }
  unfold charCode. repeat split; try tauto; lia.
Qed.

(** On two-digit-hour times, [<=] on the strings is [<=] on the minutes. *)
Lemma padded_leb (s1 s2 : string) :
  padded s1 = true -> padded s2 = true ->
  String.leb s1 s2 = num_le (timeToMinutes s1) (timeToMinutes s2).
Proof.
  intros H1 H2.
  destruct (padded_chars _ H1) as (a1 & a2 & a4 & a5 & -> & A1 & A2 & A4 & A5 & RA).
  destruct (padded_chars _ H2) as (b1 & b2 & b4 & b5 & -> & B1 & B2 & B4 & B5 & RB).
  rewrite !timeToMinutes_chars by assumption.
  apply is_digit_code in A1, A2, A4, A5, B1, B2, B4, B5.
  unfold String.leb. cbn [String.compare].
  rewrite !Ascii_compare_code.
  change (charCode ":" ?= charCode ":") with Eq. cbn [num_le].
  destruct (Z.compare_spec (charCode a1) (charCode b1));
    [ destruct (Z.compare_spec (charCode a2) (charCode b2));
      [ destruct (Z.compare_spec (charCode a4) (charCode b4));
        [ destruct (Z.compare_spec (charCode a5) (charCode b5)) | | ] | | ] | | ];
    symmetry; first [ apply Z.leb_le; lia | apply Z.leb_gt; lia ].
Qed.

Lemma digit_char_digit (d : Z) :
  0 <= d <= 9 -> is_digit (digit_char d) = true /\ charCode (digit_char d) = 48 + d.
Proof.
  intro H. assert (E : charCode (digit_char d) = 48 + d).
  { unfold charCode, digit_char. rewrite nat_ascii_embedding; lia. }
  split; [ | exact E ].
  unfold is_digit. fold (charCode (digit_char d)). rewrite E.
  apply andb_true_iff. split; apply Z.leb_le; lia.
Qed.

Lemma currentTime_padded (now : Z) : padded (currentTime now) = true.
Proof.
  assert (Hh : 0 <= getHours now <= 23).
  { unfold getHours, msPerDay. Z.div_mod_to_equations. lia. }
  assert (Hm : 0 <= getMinutes now <= 59).
  { unfold getMinutes. Z.div_mod_to_equations. lia. }
  assert (D : forall n lo hi, 0 <= lo -> hi <= 9 -> lo <= n <= hi ->
                digit_between lo hi (digit_char n) = true).
  { intros n lo hi Hlo Hhi Hn. unfold digit_between.
    fold (charCode (digit_char n)).
    destruct (digit_char_digit n) as [_ E]; [ lia | ]. rewrite E.
    apply andb_true_iff. split; apply Z.leb_le; lia. }
  unfold padded, currentTime, padStart2. cbn [append String.length].
  cbn [Nat.eqb andb matches_HHMM].
  rewrite (D (getMinutes now / 10) 0 5), (D (getMinutes now mod 10) 0 9);
    try lia; try (Z.div_mod_to_equations; lia).
  change (Ascii.eqb ":"%char ":"%char) with true.
  rewrite !andb_true_r. apply orb_true_iff.
  destruct (Z.ltb_spec (getHours now) 20) as [ Hlt | Hge ].
  - left. rewrite (D (getHours now / 10) 0 1), (D (getHours now mod 10) 0 9);
      try lia; try (Z.div_mod_to_equations; lia).
  - right. assert (E : getHours now / 10 = 2)
      by (Z.div_mod_to_equations; lia).
    rewrite E. rewrite (D (getHours now mod 10) 0 3);
      try lia; try (Z.div_mod_to_equations; lia).
    reflexivity.
Qed.

(** X23.  When every entry writes its two times with two hour digits, the
    virtual [isCurrentlyOpen] is [isWithinWorkingHours] at the current
    instant. *)
Lemma isCurrentlyOpen_padded (now : Z) (whs : list WorkingHours) :
  (forall wh, In wh whs ->
              padded (startTime wh) = true /\ padded (endTime wh) = true) ->
  isCurrentlyOpen now whs
  = isWithinWorkingHours whs (ValidDate now) (currentTime now).
Proof.
  intro Hp. unfold isCurrentlyOpen, isWithinWorkingHours.
  fold (currentTime now).
  destruct (find _ whs) as [ sch | ] eqn:E; [ | reflexivity ].
  apply find_some in E. destruct E as [Hin _].
  destruct (Hp sch Hin) as [Hs He].
  unfold num_ge.
  rewrite !padded_leb by (assumption || apply currentTime_padded).
  reflexivity.
Qed.

(* ------------------------------------------------------------------ *)
(** *** Sorting by creation time *)

Lemma insert_by_createdAt_perm (a : Appointment) (l : list Appointment) :
  Permutation (insert_by_createdAt a l) (a :: l).
Proof.
  induction l as [ | b l IH ]; simpl; [ reflexivity | ].
  destruct (createdAt a <=? createdAt b); [ reflexivity | ].
  rewrite IH. apply perm_swap.
Qed.

Lemma sort_by_createdAt_perm (l : list Appointment) :
  Permutation (sort_by_createdAt l) l.
Proof.
  induction l as [ | a l IH ]; simpl; [ reflexivity | ].
  rewrite insert_by_createdAt_perm. now constructor.
Qed.

Lemma insert_by_createdAt_sorted (a : Appointment) (l : list Appointment) :
  StronglySorted created_le l ->
  StronglySorted created_le (insert_by_createdAt a l).
Proof.
  induction 1 as [ | b l Hs IH Hall ]; simpl.
  - repeat constructor.
  - destruct (Z.leb_spec (createdAt a) (createdAt b)) as [ Hle | Hgt ].
    + constructor; [ now constructor | ].
      constructor; [ exact Hle | ].
      eapply Forall_impl; [ | exact Hall ].
      unfold created_le. intros; lia.
    + constructor; [ exact IH | ].
      eapply Permutation_Forall.
      * symmetry. apply insert_by_createdAt_perm.
      * constructor; [ unfold created_le; lia | exact Hall ].
Qed.

Lemma sort_by_createdAt_sorted (l : list Appointment) :
  StronglySorted created_le (sort_by_createdAt l).
Proof.
  induction l as [ | a l IH ]; simpl; [ constructor | ].
  now apply insert_by_createdAt_sorted.
Qed.

(** Sorting commutes with a change of the documents that keeps their
    creation times. *)
Lemma sort_by_createdAt_map (g : Appointment -> Appointment)
  (l : list Appointment) :
  (forall d, createdAt (g d) = createdAt d) ->
  sort_by_createdAt (map g l) = map g (sort_by_createdAt l).
Proof.
  intro Hg.
  assert (Hins : forall a l', insert_by_createdAt (g a) (map g l')
                              = map g (insert_by_createdAt a l')).
  { intros a l'. induction l' as [ | b l' IH ]; simpl; [ reflexivity | ].
    rewrite !Hg. destruct (createdAt a <=? createdAt b); simpl;
      [ reflexivity | now rewrite IH ]. }
  induction l as [ | a l IH ]; simpl; [ reflexivity | ].
  now rewrite IH, Hins.
Qed.

Lemma filter_map_commute {A} (q : A -> bool) (g : A -> A) (l : list A) :
  (forall d, q (g d) = q d) -> filter q (map g l) = map g (filter q l).
Proof.
  intro Hg. induction l as [ | a l IH ]; simpl; [ reflexivity | ].
  rewrite Hg. destruct (q a); simpl; now rewrite IH.
Qed.

(* ------------------------------------------------------------------ *)
(** *** What the renumbering loop writes *)

Lemma rank_of_None (i : ObjectId) (l : list Appointment) :
  rank_of i l = None <-> ~ In i (map _id l).
Proof.
  induction l as [ | a l IH ]; simpl; [ tauto | ].
  destruct (Nat.eqb_spec (_id a) i) as [ E | N ].
  - split; [ discriminate | tauto ].
  - destruct (rank_of i l) as [ j | ].
    + split; [ discriminate | ].
      intro H. exfalso.
      assert (Hn : ~ In i (map _id l)) by tauto.
      apply IH in Hn. discriminate.
    + split; [ | reflexivity ].
      intros _ [ E | Hin ]; [ contradiction | ].
      destruct IH as [IH _]. now apply IH.
Qed.

(** The loop, as far as it gets: it has saved a prefix of [l], and all of
    [l] when it ends without a throw. *)
Lemma renumber_effect (l : list Appointment) (i : Z) (w : World) :
  organizations (snd (renumber l i w)) = organizations w
  /\ clock (snd (renumber l i w)) = clock w
  /\ (exists n,
        appointments (snd (renumber l i w))
        = renumber_store (firstn n l) i (clock w) (appointments w))
  /\ (fst (renumber l i w) = Ok tt ->
      appointments (snd (renumber l i w))
      = renumber_store l i (clock w) (appointments w)).
Proof.
  revert i w. induction l as [ | a l IH ]; intros i w; simpl.
  - split; [ reflexivity | ]. split; [ reflexivity | ].
    split; [ exists O; reflexivity | reflexivity ].
  - run_monad.
    destruct (faults w) as [ | [ | ] fs ]; simpl.
    + destruct (IH (i + 1)
                  (set_appointments w
                     (replace_doc
                        (set_updatedAt (set_queuePosition a (i + 1)) (clock w))
                        (appointments w))))
        as (Ho & Hc & (n & Hn) & Hok).
      simpl in *.
      split; [ exact Ho | ]. split; [ exact Hc | ].
      split; [ exists (S n); exact Hn | exact Hok ].
    + split; [ reflexivity | ]. split; [ reflexivity | ].
      split; [ exists O; reflexivity | discriminate ].
    + destruct (IH (i + 1)
                  (set_appointments (set_faults w fs)
                     (replace_doc
                        (set_updatedAt (set_queuePosition a (i + 1)) (clock w))
                        (appointments w))))
        as (Ho & Hc & (n & Hn) & Hok).
      simpl in *.
      split; [ exact Ho | ]. split; [ exact Hc | ].
      split; [ exists (S n); exact Hn | exact Hok ].
Qed.

Lemma NoDup_map_filter {A B} (f : A -> B) (q : A -> bool) (l : list A) :
  NoDup (map f l) -> NoDup (map f (filter q l)).
Proof.
  induction l as [ | a l IH ]; simpl; [ trivial | ].
  intro H. inversion H as [ | ? ? Hnotin Hnd ]; subst.
  destruct (q a); simpl; [ | now apply IH ].
  constructor; [ | now apply IH ].
  intro Hin. apply Hnotin. apply in_map_iff in Hin.
  destruct Hin as (x & Hx & Hin). apply filter_In in Hin.
  apply in_map_iff. exists x. tauto.
Qed.

Lemma NoDup_map_inj {A B} (f : A -> B) (l : list A) (x y : A) :
  NoDup (map f l) -> In x l -> In y l -> f y = f x -> y = x.
Proof.
  induction l as [ | a l IH ]; simpl; [ contradiction | ].
  intro H. inversion H as [ | ? ? Hnotin Hnd ]; subst.
  intros [ -> | Hx ] [ -> | Hy ] E; auto.
  - exfalso. apply Hnotin. rewrite <- E. now apply in_map.
  - exfalso. apply Hnotin. rewrite E. now apply in_map.
Qed.

Lemma NoDup_firstn {A} (n : nat) (l : list A) : NoDup l -> NoDup (firstn n l).
Proof.
  intro H. rewrite <- (firstn_skipn n l) in H.
  now apply NoDup_app_remove_r in H.
Qed.

Lemma In_firstn {A} (n : nat) (l : list A) (x : A) :
  In x (firstn n l) -> In x l.
Proof.
  intro H. rewrite <- (firstn_skipn n l). apply in_or_app. now left.
Qed.

(** Saving the documents of [l] one after the other rewrites each stored
    document that [l] names, and no other. *)
Lemma renumber_store_map (l : list Appointment) :
  forall (k now : Z) (s : list Appointment),
    NoDup (map _id l) ->
    (forall x d, In x l -> In d s -> _id d = _id x -> d = x) ->
    renumber_store l k now s = map (renumber_doc l k now) s.
Proof.
  induction l as [ | a l IH ]; intros k now s Hnd Hsame.
  - simpl. symmetry. apply map_id.
  - simpl renumber_store.
    inversion Hnd as [ | ? ? Hnotin Hnd' ]; subst.
    rewrite IH; [ | exact Hnd' | ].
    + unfold replace_doc. rewrite map_map. apply map_ext_in.
      intros d Hd. simpl _id.
      unfold renumber_doc at 2. simpl rank_of.
      destruct (Nat.eqb_spec (_id d) (_id a)) as [ E | N ].
      * assert (d = a) by (apply Hsame; simpl; auto). subst d.
        rewrite Nat.eqb_refl. unfold renumber_doc. simpl _id.
        apply rank_of_None in Hnotin. rewrite Hnotin.
        now rewrite Z.add_0_r.
      * destruct (Nat.eqb_spec (_id a) (_id d)) as [ E | _ ];
          [ now symmetry in E | ].
        unfold renumber_doc. destruct (rank_of (_id d) l) as [ j | ];
          [ | reflexivity ].
        do 2 f_equal. lia.
    + intros x d Hx Hd E. unfold replace_doc in Hd.
      apply in_map_iff in Hd. destruct Hd as (d0 & Hd0 & Hin0).
      simpl _id in Hd0.
      destruct (Nat.eqb_spec (_id d0) (_id a)) as [ E0 | N0 ].
      * exfalso. apply Hnotin. subst d. simpl in E. rewrite E.
        now apply in_map.
      * subst d0. apply Hsame; simpl; auto.
Qed.

(** The documents of [l], renumbered, hold the positions [k + 1],
    [k + 2], ... in the order of [l]. *)
Lemma renumber_doc_positions (l : list Appointment) :
  forall (k now : Z),
    NoDup (map _id l) ->
    map queuePosition (map (renumber_doc l k now) l)
    = map (fun j => k + Z.of_nat j) (seq 1 (List.length l)).
Proof.
  induction l as [ | a l IH ]; intros k now Hnd; [ reflexivity | ].
  inversion Hnd as [ | ? ? Hnotin Hnd' ]; subst.
  cbn [map List.length seq]. f_equal.
  - unfold renumber_doc. cbn [rank_of]. rewrite Nat.eqb_refl.
    cbn [queuePosition set_updatedAt set_queuePosition]. lia.
  - transitivity (map queuePosition (map (renumber_doc l (k + 1) now) l)).
    + f_equal. apply map_ext_in. intros d Hd.
      unfold renumber_doc. cbn [rank_of].
      destruct (Nat.eqb_spec (_id a) (_id d)) as [ E | _ ].
      * exfalso. apply Hnotin. rewrite E. now apply in_map.
      * destruct (rank_of (_id d) l); [ | reflexivity ].
        do 2 f_equal. lia.
    + rewrite (IH (k + 1) now Hnd').
      rewrite <- (seq_shift (List.length l) 1), map_map.
      apply map_ext. intro j. lia.
Qed.

(** A renumbered document is the stored one with a new position and a new
    [updatedAt], nothing else. *)
Lemma renumber_doc_shape (l : list Appointment) (k now : Z)
  (d : Appointment) :
  renumber_doc l k now d = d
  \/ exists q, renumber_doc l k now d
               = set_updatedAt (set_queuePosition d q) now.
Proof.
  unfold renumber_doc. destruct (rank_of (_id d) l); eauto.
Qed.

Lemma renumber_doc_keeps (l : list Appointment) (k now : Z)
  (d : Appointment) :
  _id (renumber_doc l k now d) = _id d
  /\ createdAt (renumber_doc l k now d) = createdAt d
  /\ status (renumber_doc l k now d) = status d
  /\ estimatedWaitTime (renumber_doc l k now d) = estimatedWaitTime d
  /\ (forall o t, activeOnDay o t (renumber_doc l k now d)
                  = activeOnDay o t d).
Proof.
  destruct (renumber_doc_shape l k now d) as [ -> | (q & ->) ];
    repeat split; reflexivity.
Qed.

(** What [find(...).sort(...)] returns from a store with distinct
    identifiers. *)
Lemma found_documents (q : Appointment -> bool) (s : list Appointment) :
  NoDup (map _id s) ->
  NoDup (map _id (sort_by_createdAt (filter q s)))
  /\ (forall x d, In x (sort_by_createdAt (filter q s)) -> In d s ->
                  _id d = _id x -> d = x)
  /\ (forall d, In d s -> q d = false ->
                ~ In (_id d) (map _id (sort_by_createdAt (filter q s)))).
Proof.
  intro Hnd.
  assert (Hin : forall x, In x (sort_by_createdAt (filter q s)) ->
                          In x s /\ q x = true).
  { intros x Hx. apply filter_In.
    eapply Permutation_in; [ apply sort_by_createdAt_perm | exact Hx ]. }
  repeat split.
  - eapply Permutation_NoDup.
    + apply Permutation_map. symmetry. apply sort_by_createdAt_perm.
    + now apply NoDup_map_filter.
  - intros x d Hx Hd E. apply Hin in Hx.
    eapply NoDup_map_inj; eauto. tauto.
  - intros d Hd Hq Hmem. apply in_map_iff in Hmem.
    destruct Hmem as (x & E & Hx). apply Hin in Hx. destruct Hx as [Hx Hqx].
    assert (x = d) by (eapply NoDup_map_inj; eauto). congruence.
Qed.

Lemma try_catch_unit_snd (m : M unit) (w : World) :
  snd (try_catch m (fun _ => ret tt) w) = snd (m w).
Proof.
  unfold try_catch, ret. destruct (m w) as [ [ [] | e ] w' ]; reflexivity.
Qed.

Lemma renumber_doc_nil (k now : Z) (s : list Appointment) :
  map (renumber_doc [] k now) s = s.
Proof. apply map_id. Qed.

(** The store after [updateQueuePositions]: the documents found, or the
    first few of them when a save fails, are renumbered in place. *)
Lemma updateQueuePositions_effect (o : ObjectId) (t : Z) (w : World) :
  NoDup (map _id (appointments w)) ->
  organizations (snd (updateQueuePositions o (ValidDate t) w))
    = organizations w
  /\ (exists n,
        appointments (snd (updateQueuePositions o (ValidDate t) w))
        = map (renumber_doc
                 (firstn n (sort_by_createdAt
                              (filter (activeOnDay o t) (appointments w))))
                 0 (clock w))
            (appointments w))
  /\ (fst (updateQueuePositions_try o (ValidDate t) w) = Ok tt ->
      appointments (snd (updateQueuePositions o (ValidDate t) w))
      = map (renumber_doc
               (sort_by_createdAt (filter (activeOnDay o t) (appointments w)))
               0 (clock w))
          (appointments w)).
Proof.
  intro Hnd. unfold updateQueuePositions. rewrite try_catch_unit_snd.
  destruct (found_documents (activeOnDay o t) _ Hnd) as (HndL & Hsame & _).
  assert (Hstep : forall w1,
    appointments w1 = appointments w -> organizations w1 = organizations w ->
    clock w1 = clock w ->
    let L := sort_by_createdAt (filter (activeOnDay o t) (appointments w)) in
    organizations (snd (renumber L 0 w1)) = organizations w
    /\ (exists n, appointments (snd (renumber L 0 w1))
                  = map (renumber_doc (firstn n L) 0 (clock w))
                      (appointments w))
    /\ (fst (renumber L 0 w1) = Ok tt ->
        appointments (snd (renumber L 0 w1))
        = map (renumber_doc L 0 (clock w)) (appointments w))).
  { intros w1 Ha Ho Hc L.
    destruct (renumber_effect L 0 w1) as (Ho' & _ & (n & Hn) & Hok).
    rewrite Ha, Hc in *. split; [ congruence | ]. split.
    - exists n. rewrite Hn. apply renumber_store_map.
      + rewrite <- firstn_map. now apply NoDup_firstn.
      + intros x d Hx. apply Hsame. eapply In_firstn, Hx.
    - intro H. rewrite (Hok H). now apply renumber_store_map. }
  unfold updateQueuePositions_try. run_monad.
  destruct (faults w) as [ | [ | ] fs ]; cbn [fst snd].
  - rewrite (filter_ext _ _ (sameDayActive_activeOnDay o t)).
    now apply Hstep.
  - split; [ reflexivity | ]. split; [ | discriminate ].
    exists O. cbn [firstn appointments set_faults].
    now rewrite renumber_doc_nil.
  - cbn [appointments set_faults].
    rewrite (filter_ext _ _ (sameDayActive_activeOnDay o t)).
    now apply Hstep.
Qed.

Lemma Forall2_map_self {A} (P : A -> A -> Prop) (g : A -> A) (l : list A) :
  (forall d, In d l -> P d (g d)) -> Forall2 P l (map g l).
Proof.
  induction l as [ | a l IH ]; simpl; intro H; constructor.
  - apply H. now left.
  - apply IH. intros d Hd. apply H. now right.
Qed.

(** C10.  [updateQueuePositions] leaves the organizations alone and keeps
    the stored appointments in place, document by document: each one is
    unchanged, or differs in [queuePosition] and [updatedAt] only, and the
    ones outside the renumbered day, organization or statuses are unchanged.
    So [estimatedWaitTime] is never rewritten: an appointment whose position
    changes, and whose wait was (position - 1) * duration for a nonzero
    duration, no longer satisfies that equation afterwards. *)
Theorem updateQueuePositions_frame (o : ObjectId) (t : Z) (w : World) :
  NoDup (map _id (appointments w)) ->
  organizations (snd (updateQueuePositions o (ValidDate t) w))
    = organizations w
  /\ Forall2
       (fun d d' =>
          d' = set_updatedAt (set_queuePosition d (queuePosition d'))
                 (updatedAt d')
          /\ estimatedWaitTime d' = estimatedWaitTime d
          /\ (activeOnDay o t d = false -> d' = d)
          /\ (forall duration,
                duration <> 0 ->
                queuePosition d' <> queuePosition d ->
                estimatedWaitTime d = (queuePosition d - 1) * duration ->
                estimatedWaitTime d' <> (queuePosition d' - 1) * duration))
       (appointments w)
       (appointments (snd (updateQueuePositions o (ValidDate t) w))).
Proof.
  intro Hnd.
  destruct (updateQueuePositions_effect o t w Hnd) as (Ho & (n & Hn) & _).
  split; [ exact Ho | ]. rewrite Hn.
  apply Forall2_map_self. intros d Hd.
  set (L := firstn n _).
  assert (Hshape : renumber_doc L 0 (clock w) d
                   = set_updatedAt
                       (set_queuePosition d
                          (queuePosition (renumber_doc L 0 (clock w) d)))
                       (updatedAt (renumber_doc L 0 (clock w) d))).
  { destruct (renumber_doc_shape L 0 (clock w) d) as [ -> | (q & ->) ];
      [ now destruct d | reflexivity ]. }
  destruct (renumber_doc_keeps L 0 (clock w) d) as (_ & _ & _ & Hw & _).
  split; [ exact Hshape | ]. split; [ exact Hw | ]. split.
  - intro Hq. unfold renumber_doc.
    destruct (found_documents (activeOnDay o t) _ Hnd) as (_ & _ & Hout).
    specialize (Hout d Hd Hq).
    assert (Hnone : rank_of (_id d) L = None).
    { apply rank_of_None. intro Hin. apply Hout.
      unfold L in Hin. rewrite <- firstn_map in Hin. eapply In_firstn, Hin. }
    now rewrite Hnone.
  - intros duration Hdur Hpos Hwait. rewrite Hw, Hwait. nia.
Qed.

Lemma seq_positions (n : nat) (p : Z) :
  In p (map Z.of_nat (seq 1 n)) <-> 1 <= p <= Z.of_nat n.
Proof.
  rewrite in_map_iff. split.
  - intros (j & <- & Hj). apply in_seq in Hj. lia.
  - intro H. exists (Z.to_nat p). split; [ lia | ]. apply in_seq. lia.
Qed.

(** Along a list sorted by creation time whose positions increase one by
    one, a document created strictly earlier holds a smaller position. *)
Lemma sorted_positions_ordered (l : list Appointment) :
  forall k,
    StronglySorted created_le l ->
    map queuePosition l = map (fun j => k + Z.of_nat j) (seq 1 (List.length l)) ->
    forall a b, In a l -> In b l -> createdAt a < createdAt b ->
                queuePosition a < queuePosition b.
Proof.
  induction l as [ | x l IH ]; intros k Hs Hq a b Ha Hb Hlt;
    [ contradiction | ].
  inversion Hs as [ | ? ? Hs' Hall ]; subst.
  cbn [map List.length seq] in Hq. injection Hq as Hx Hq.
  rewrite <- (seq_shift (List.length l) 1), map_map in Hq.
  assert (Hq' : map queuePosition l
                = map (fun j => (k + 1) + Z.of_nat j) (seq 1 (List.length l))).
  { rewrite Hq. apply map_ext. intro j. lia. }
  assert (Hlater : forall y, In y l -> k + 1 < queuePosition y).
  { intros y Hy. apply (in_map queuePosition) in Hy. rewrite Hq in Hy.
    apply in_map_iff in Hy. destruct Hy as (j & <- & Hj).
    apply in_seq in Hj. lia. }
  rewrite Forall_forall in Hall.
  destruct Ha as [ <- | Ha ], Hb as [ <- | Hb ].
  - lia.
  - rewrite Hx. now apply Hlater.
  - specialize (Hall a Ha). unfold created_le in Hall. lia.
  - now apply (IH (k + 1) Hs' Hq').
Qed.

(** C1.  When the try block of [updateQueuePositions] ends without a throw,
    the pending and in-progress appointments of the organization on that
    local day, taken in ascending order of creation time, hold the positions
    1, 2, ..., N, where N is their number; so their positions are exactly the
    set {1..N}, each held once, and an appointment created strictly earlier
    holds a smaller one. *)
Theorem updateQueuePositions_contiguous (o : ObjectId) (t : Z) (w : World) :
  NoDup (map _id (appointments w)) ->
  fst (updateQueuePositions_try o (ValidDate t) w) = Ok tt ->
  let active :=
    filter (activeOnDay o t)
      (appointments (snd (updateQueuePositions o (ValidDate t) w))) in
  let N := List.length active in
  map queuePosition (sort_by_createdAt active) = map Z.of_nat (seq 1 N)
  /\ (forall p, In p (map queuePosition active) <-> 1 <= p <= Z.of_nat N)
  /\ NoDup (map queuePosition active)
  /\ (forall a b, In a active -> In b active ->
                  createdAt a < createdAt b ->
                  queuePosition a < queuePosition b)
  /\ N = List.length (filter (activeOnDay o t) (appointments w)).
Proof.
  intros Hnd Hok active N.
  destruct (updateQueuePositions_effect o t w Hnd) as (_ & _ & Hs).
  specialize (Hs Hok).
  set (L := sort_by_createdAt (filter (activeOnDay o t) (appointments w)))
    in *.
  set (g := renumber_doc L 0 (clock w)) in *.
  assert (Hactive : active = map g (filter (activeOnDay o t) (appointments w))).
  { unfold active. rewrite Hs. apply filter_map_commute.
    intro d. apply renumber_doc_keeps. }
  assert (Hsorted : sort_by_createdAt active = map g L).
  { rewrite Hactive. apply sort_by_createdAt_map.
    intro d. apply renumber_doc_keeps. }
  assert (HN : N = List.length L).
  { unfold N. rewrite Hactive, length_map. unfold L.
    symmetry. apply Permutation_length, sort_by_createdAt_perm. }
  destruct (found_documents (activeOnDay o t) _ Hnd) as (HndL & _ & _).
  fold L in HndL.
  assert (Hpos : map queuePosition (sort_by_createdAt active)
                 = map Z.of_nat (seq 1 N)).
  { rewrite Hsorted, HN. unfold g. rewrite renumber_doc_positions by exact HndL.
    apply map_ext. intro j. lia. }
  assert (Hperm : Permutation (map queuePosition active)
                    (map Z.of_nat (seq 1 N))).
  { rewrite <- Hpos. apply Permutation_map. symmetry.
    apply sort_by_createdAt_perm. }
  split; [ exact Hpos | ]. split; [ | split; [ | split ] ].
  - intro p. rewrite <- seq_positions. split; apply Permutation_in;
      [ exact Hperm | symmetry; exact Hperm ].
  - eapply Permutation_NoDup; [ symmetry; exact Hperm | ].
    apply Finite.Injective_map_NoDup; [ | apply seq_NoDup ].
    intros x y H. lia.
  - intros a b Ha Hb Hlt.
    apply (sorted_positions_ordered (sort_by_createdAt active) 0).
    + apply sort_by_createdAt_sorted.
    + rewrite Hpos.
      rewrite (Permutation_length (sort_by_createdAt_perm active)).
      reflexivity.
    + eapply Permutation_in; [ symmetry; apply sort_by_createdAt_perm | ].
      exact Ha.
    + eapply Permutation_in; [ symmetry; apply sort_by_createdAt_perm | ].
      exact Hb.
    + exact Hlt.
  - rewrite HN. unfold L.
    apply Permutation_length, sort_by_createdAt_perm.
Qed.

(* ------------------------------------------------------------------ *)
(** *** Invariants of the store across a handler *)

Section Keeps.

Variable I : list Appointment -> Prop.





Lemma keeps_weaken {A} (m : M A) (Q Q' : A -> Prop) :
  (forall a, Q a -> Q' a) -> keeps I m Q -> keeps I m Q'.
Proof.
  intros HQ Hm w Hw. destruct (Hm w Hw) as [Hi Hq]. split; auto.
Qed.








End Keeps.

Section KeepsFrozen.

Variable i : ObjectId.
Variable s : Status.



Lemma fresh_id_above (l : list Appointment) (j : ObjectId) :
  In j (map _id l) -> (j < fresh_id l)%nat.
Proof.
  unfold fresh_id. induction l as [ | a l IH ]; simpl; [ contradiction | ].
  intros [ <- | H ]; [ lia | ]. specialize (IH H). lia.
Qed.






End KeepsFrozen.






(* ------------------------------------------------------------------ *)
(** *** Rules for the handlers' monad *)

Section Triples.

Context {A : Type}.

Lemma triple_ret (P : World -> Prop) (a : A) (Q : A -> World -> Prop)
  (E : World -> Prop) :
  (forall w, P w -> Q a w) -> triple P (ret a) Q E.
Proof. intros H w Hw. simpl. auto. Qed.

Lemma triple_throw (P : World -> Prop) (e : Error) (Q : A -> World -> Prop)
  (E : World -> Prop) :
  (forall w, P w -> E w) -> triple P (@throw A e) Q E.
Proof. intros H w Hw. simpl. auto. Qed.

Lemma triple_bind {B} (P : World -> Prop) (m : M B) (k : B -> M A)
  (Q : B -> World -> Prop) (R : A -> World -> Prop) (E : World -> Prop) :
  triple P m Q E -> (forall b, triple (Q b) (k b) R E) ->
  triple P (bind m k) R E.
Proof.
  intros Hm Hk w Hw. unfold bind. specialize (Hm w Hw).
  destruct (m w) as [ [ b | e ] w' ]; [ | exact Hm ].
  apply (Hk b w' Hm).
Qed.

Lemma triple_try_catch (P : World -> Prop) (m : M A) (h : Error -> M A)
  (Q : A -> World -> Prop) (E1 E : World -> Prop) :
  triple P m Q E1 -> (forall e, triple E1 (h e) Q E) ->
  triple P (try_catch m h) Q E.
Proof.
  intros Hm Hh w Hw. unfold try_catch. specialize (Hm w Hw).
  destruct (m w) as [ [ a | e ] w' ]; [ exact Hm | ].
  apply (Hh e w' Hm).
Qed.

Lemma triple_conseq (P P' : World -> Prop) (m : M A)
  (Q Q' : A -> World -> Prop) (E E' : World -> Prop) :
  triple P m Q E ->
  (forall w, P' w -> P w) ->
  (forall a w, Q a w -> Q' a w) ->
  (forall w, E w -> E' w) ->
  triple P' m Q' E'.
Proof.
  intros Hm HP HQ HE w Hw. specialize (Hm w (HP w Hw)).
  destruct (m w) as [ [ a | e ] w' ]; auto.
Qed.

(** A fact that does not depend on the world can be taken out of the
    precondition. *)
Lemma triple_assume (F : Prop) (P : World -> Prop) (m : M A)
  (Q : A -> World -> Prop) (E : World -> Prop) :
  (F -> triple P m Q E) -> triple (fun w => F /\ P w) m Q E.
Proof. intros H w [HF Hw]. now apply H. Qed.

End Triples.

Section StoreRules.

Variable l : list Appointment.
Variable o : list Organization.
Variable c : Z.

Lemma db_is_set_faults (w : World) (fs : list bool) :
  db_is l o c w -> db_is l o c (set_faults w fs).
Proof. intro H. exact H. Qed.

Lemma triple_store_access :
  triple (db_is l o c) store_access (fun _ => db_is l o c) (db_is l o c).
Proof.
  intros w Hw. unfold store_access.
  destruct (faults w) as [ | [ | ] fs ]; exact Hw.
Qed.

Lemma triple_read {A} (f : World -> A) (F : A) :
  (forall w, db_is l o c w -> f w = F) ->
  triple (db_is l o c) (store_access ;;; fun w => (Ok (f w), w))
    (fun r w => r = F /\ db_is l o c w) (db_is l o c).
Proof.
  intro HF. eapply triple_bind; [ apply triple_store_access | ].
  intros _ w Hw. simpl. split; [ now apply HF | exact Hw ].
Qed.

Lemma triple_Date_now :
  triple (db_is l o c) Date_now (fun t w => t = c /\ db_is l o c w)
    (db_is l o c).
Proof. intros w Hw. simpl. split; [ apply Hw | exact Hw ]. Qed.

Lemma triple_cast_range (lo hi : JsDate) :
  triple (db_is l o c) (cast_range lo hi)
    (fun r w => lo = ValidDate (fst r) /\ hi = ValidDate (snd r)
                /\ db_is l o c w)
    (db_is l o c).
Proof.
  intros w Hw. unfold cast_range. destruct lo, hi; simpl; auto.
Qed.

Lemma triple_countDocuments (q : Appointment -> bool) :
  triple (db_is l o c) (Appointment_countDocuments q)
    (fun r w => r = Z.of_nat (List.length (filter q l)) /\ db_is l o c w)
    (db_is l o c).
Proof.
  apply triple_read. intros w (-> & _). reflexivity.
Qed.

Lemma triple_findOne (q : Appointment -> bool) :
  triple (db_is l o c) (Appointment_findOne q)
    (fun r w => r = find q l /\ db_is l o c w) (db_is l o c).
Proof.
  apply triple_read. intros w (-> & _). reflexivity.
Qed.

Lemma triple_find_sorted (q : Appointment -> bool) :
  triple (db_is l o c) (Appointment_find_sorted q)
    (fun r w => r = sort_by_createdAt (filter q l) /\ db_is l o c w)
    (db_is l o c).
Proof.
  apply triple_read. intros w (-> & _). reflexivity.
Qed.

Lemma triple_Appointment_findById (id : ReqId) :
  triple (db_is l o c) (Appointment_findById id)
    (fun r w =>
       r = match id with
           | GoodId n => find (fun a => Nat.eqb (_id a) n) l
           | _ => None
           end
       /\ db_is l o c w)
    (db_is l o c).
Proof.
  destruct id as [ | | n ]; simpl.
  - apply triple_ret. auto.
  - apply triple_throw. auto.
  - apply triple_read. intros w (-> & _). reflexivity.
Qed.

Lemma triple_Organization_findById (id : ReqId) :
  triple (db_is l o c) (Organization_findById id)
    (fun r w =>
       r = match id with
           | GoodId n => find (fun x => Nat.eqb (org_id x) n) o
           | _ => None
           end
       /\ db_is l o c w)
    (db_is l o c).
Proof.
  destruct id as [ | | n ]; simpl.
  - apply triple_ret. auto.
  - apply triple_throw. auto.
  - apply triple_read. intros w (_ & -> & _). reflexivity.
Qed.

Lemma triple_Appointment_save (a : Appointment) :
  triple (db_is l o c) (Appointment_save a)
    (fun a' w =>
       a' = set_updatedAt a c
       /\ db_is (replace_doc (set_updatedAt a c) l) o c w)
    (db_is l o c).
Proof.
  intros w (Hl & Ho & Hc). unfold Appointment_save. run_monad.
  destruct (faults w) as [ | [ | ] fs ]; simpl; rewrite ?Hl, ?Hc;
    repeat split; auto.
Qed.

Lemma triple_Appointment_create (user org : ObjectId)
  (expert service : string) (date : ReqDate) (time : string)
  (position wait : Z) (note : string) :
  triple (db_is l o c)
    (Appointment_create user org expert service date time position wait note)
    (fun a w =>
       (exists t,
          date = DateAt t
          /\ a = mkAppointment (fresh_id l) user org (trim expert)
                   (trim service) t time pending position wait (trim note)
                   c c)
       /\ (String.eqb (trim expert) "" = false
           /\ String.eqb (trim service) "" = false
           /\ matches_HHMM time = true)
       /\ db_is (l ++ [a])%list o c w)
    (db_is l o c).
Proof.
  unfold Appointment_create.
  destruct date as [ | | t ]; try (apply triple_throw; auto).
  destruct (_ || _) eqn:Hv; [ apply triple_throw; auto | ].
  apply orb_false_iff in Hv. destruct Hv as [Hv Hm].
  apply orb_false_iff in Hv. destruct Hv as [He Hs].
  apply negb_false_iff in Hm.
  intros w (Hl & Ho & Hc). run_monad.
  destruct (faults w) as [ | [ | ] fs ]; simpl; rewrite ?Hl, ?Hc;
    repeat split; eauto.
Qed.

End StoreRules.

Lemma updateQueuePositions_returns (o' : ObjectId) (d : JsDate) (w : World) :
  fst (updateQueuePositions o' d w) = Ok tt.
Proof.
  unfold updateQueuePositions, try_catch, ret.
  destruct (updateQueuePositions_try o' d w) as [ [ [] | e ] w' ];
    reflexivity.
Qed.

Lemma updateQueuePositions_clock (o' : ObjectId) (t : Z) (w : World) :
  clock (snd (updateQueuePositions o' (ValidDate t) w)) = clock w.
Proof.
  unfold updateQueuePositions. rewrite try_catch_unit_snd.
  unfold updateQueuePositions_try. run_monad.
  destruct (faults w) as [ | [ | ] fs ]; cbn [fst snd];
    try reflexivity;
    match goal with |- context [renumber ?L 0 ?w1] =>
      destruct (renumber_effect L 0 w1) as (_ & Hc & _) end;
    rewrite Hc; reflexivity.
Qed.

Section MoreStoreRules.

Variable l : list Appointment.
Variable o : list Organization.
Variable c : Z.

(** [updateQueuePositions] never throws; it renumbers the documents it
    found, or the first few of them. *)
Lemma triple_updateQueuePositions (o' : ObjectId) (t : Z) :
  NoDup (map _id l) ->
  triple (db_is l o c) (updateQueuePositions o' (ValidDate t))
    (fun _ w =>
       exists n,
         db_is
           (map (renumber_doc
                   (firstn n (sort_by_createdAt
                                (filter (activeOnDay o' t) l))) 0 c) l)
           o c w)
    never.
Proof.
  intros Hnd w (Hl & Ho & Hc).
  pose proof (updateQueuePositions_returns o' (ValidDate t) w) as Hr.
  pose proof (updateQueuePositions_clock o' t w) as Hk.
  rewrite <- Hl in Hnd.
  destruct (updateQueuePositions_effect o' t w Hnd) as (Horg & (n & Hn) & _).
  destruct (updateQueuePositions o' (ValidDate t) w) as [ [ [] | e ] w' ];
    simpl in *; [ | discriminate ].
  exists n. unfold db_is. rewrite Hn, Horg, Hk, Hl, Ho, Hc. auto.
Qed.

(** [isSlotAvailable] never throws and never writes; a true answer means
    that the date is valid and no stored appointment matches the filter. *)
Lemma triple_isSlotAvailable (o' : ObjectId) (d : JsDate)
  (time expert : string) :
  triple (db_is l o c) (isSlotAvailable o' d time expert)
    (fun r w =>
       (r = true ->
        exists t,
          d = ValidDate t
          /\ find (sameSlotActive o' (startOfDay t) (startOfDay t + 86399999)
                     time expert) l = None)
       /\ db_is l o c w)
    never.
Proof.
  unfold isSlotAvailable.
  eapply triple_try_catch with (E1 := db_is l o c).
  - eapply triple_bind; [ apply triple_cast_range | ].
    intros [lo hi]. cbn [fst snd].
    intros w (Hlo & Hhi & Hw). revert w Hw.
    change (triple (db_is l o c)
              (existingAppointment <-
                 Appointment_findOne (sameSlotActive o' lo hi time expert) ;;
               ret (negb (isSome existingAppointment)))
              (fun r w =>
                 (r = true ->
                  exists t,
                    d = ValidDate t
                    /\ find (sameSlotActive o' (startOfDay t)
                               (startOfDay t + 86399999) time expert) l
                       = None)
                 /\ db_is l o c w)
              (db_is l o c)).
    eapply triple_bind; [ apply triple_findOne | ].
    intros r. apply triple_assume. intros ->. apply triple_ret.
    intros w Hw. split; [ | exact Hw ].
    destruct d as [ | t ]; simpl in Hlo, Hhi; [ discriminate | ].
    injection Hlo as <-. injection Hhi as <-.
    intro H. exists t. split; [ reflexivity | ].
    destruct (find _ l); [ discriminate | reflexivity ].
  - intros e. apply triple_ret. intros w Hw. split; [ discriminate | exact Hw ].
Qed.

(** [calculateQueuePosition] never throws and never writes; it answers the
    count plus one, or 1 when its query failed. *)
Lemma triple_calculateQueuePosition (o' : ObjectId) (d : JsDate)
  (time : string) :
  triple (db_is l o c) (calculateQueuePosition o' d time)
    (fun r w =>
       (r = 1
        \/ exists t,
             d = ValidDate t
             /\ r = Z.of_nat (List.length (filter (activeOnDay o' t) l)) + 1)
       /\ db_is l o c w)
    never.
Proof.
  unfold calculateQueuePosition.
  eapply triple_try_catch with (E1 := db_is l o c).
  - eapply triple_bind; [ apply triple_cast_range | ].
    intros [lo hi]. cbn [fst snd].
    intros w (Hlo & Hhi & Hw). revert w Hw.
    change (triple (db_is l o c)
              (count <- Appointment_countDocuments (sameDayActive o' lo hi) ;;
               ret (count + 1))
              (fun r w =>
                 (r = 1
                  \/ exists t,
                       d = ValidDate t
                       /\ r = Z.of_nat
                                (List.length (filter (activeOnDay o' t) l))
                              + 1)
                 /\ db_is l o c w)
              (db_is l o c)).
    eapply triple_bind; [ apply triple_countDocuments | ].
    intros r. apply triple_assume. intros ->. apply triple_ret.
    intros w Hw. split; [ | exact Hw ].
    destruct d as [ | t ]; simpl in Hlo, Hhi; [ discriminate | ].
    injection Hlo as <-. injection Hhi as <-.
    right. exists t. split; [ reflexivity | ].
    now rewrite (filter_ext _ _ (sameDayActive_activeOnDay o' t)).
  - intros e. apply triple_ret. intros w Hw. split; [ now left | exact Hw ].
Qed.

End MoreStoreRules.

(* ------------------------------------------------------------------ *)
(** *** What the three writing handlers answer and leave *)

Lemma replace_doc_ids (a : Appointment) (l : list Appointment) :
  map _id (replace_doc a l) = map _id l.
Proof.
  unfold replace_doc. rewrite map_map. apply map_ext. intro d.
  destruct (Nat.eqb_spec (_id d) (_id a)); congruence.
Qed.

Lemma find_id_some (l : list Appointment) (n : ObjectId) (a : Appointment) :
  find (fun x => Nat.eqb (_id x) n) l = Some a -> In a l /\ n = _id a.
Proof.
  intro H. apply find_some in H. destruct H as [Hin E].
  apply Nat.eqb_eq in E. auto.
Qed.

Lemma cancelAppointment_outcome (user : ObjectId) (id : ReqId)
  (l : list Appointment) (o : list Organization) (c : Z) :
  NoDup (map _id l) ->
  triple (db_is l o c) (cancelAppointment user id)
    (cancel_outcome user id l o c) never.
Proof.
  intro Hnd.
  assert (Hfail : forall resp w,
            success resp = false -> db_is l o c w ->
            cancel_outcome user id l o c resp w).
  { intros resp w Hs (Hl & Ho & Hc). unfold cancel_outcome. auto. }
  unfold cancelAppointment.
  eapply triple_try_catch with (E1 := db_is l o c);
    [ | intro e; apply triple_ret; intros; now apply Hfail ].
  unfold cancelAppointment_try.
  eapply triple_bind; [ apply triple_Appointment_findById | ].
  intros r. apply triple_assume. intros ->.
  destruct id as [ | | n ];
    try (apply triple_ret; intros; now apply Hfail).
  destruct (find _ l) as [ a | ] eqn:Hfind;
    [ | apply triple_ret; intros; now apply Hfail ].
  apply find_id_some in Hfind. destruct Hfind as [Hin ->].
  destruct (Nat.eqb_spec (userId a) user) as [ Hu | Hu ]; simpl negb;
    cbv iota; [ | apply triple_ret; intros; now apply Hfail ].
  destruct (Status_eqb (status a) completed) eqn:E1;
    [ apply triple_ret; intros; now apply Hfail | ].
  destruct (Status_eqb (status a) cancelled) eqn:E2;
    [ apply triple_ret; intros; now apply Hfail | ].
  assert (Hact : status_in_pending_in_progress a = true).
  { unfold status_in_pending_in_progress.
    destruct (status a); simpl in *; congruence. }
  eapply triple_bind; [ apply triple_Appointment_save | ].
  intros a'. apply triple_assume. intros ->.
  eapply triple_bind.
  - eapply triple_conseq;
      [ apply (triple_updateQueuePositions
                 (replace_doc (set_updatedAt (set_status a cancelled) c) l)
                 o c (organizationId a) (appointmentDate a));
        now rewrite replace_doc_ids
      | auto | intros ? ? H; exact H | intros ? [] ].
  - intros []. apply triple_ret. intros w (n & Hl & Ho & Hc).
    unfold cancel_outcome. split; [ exact Ho | ]. split; [ exact Hc | ].
    right. exists a, n. repeat split; auto.
Qed.

Lemma updateAppointmentStatus_outcome (user : ObjectId) (id : ReqId)
  (newStatus : string) (l : list Appointment) (o : list Organization)
  (c : Z) :
  NoDup (map _id l) ->
  triple (db_is l o c) (updateAppointmentStatus user id newStatus)
    (update_outcome user id newStatus l o c) never.
Proof.
  intro Hnd.
  assert (Hfail : forall resp w,
            success resp = false -> db_is l o c w ->
            update_outcome user id newStatus l o c resp w).
  { intros resp w Hs (Hl & Ho & Hc). unfold update_outcome. auto. }
  unfold updateAppointmentStatus.
  eapply triple_try_catch
    with (E1 := update_outcome user id newStatus l o c serverError);
    [ | intro e; apply triple_ret; auto ].
  unfold updateAppointmentStatus_try.
  destruct (negb (truthy newStatus));
    [ apply triple_ret; intros; now apply Hfail | ].
  eapply triple_bind.
  { eapply triple_conseq;
      [ apply (triple_Appointment_findById l o c) | auto | intros ? ? H; exact H
      | intros; now apply Hfail ]. }
  intros r. apply triple_assume. intros ->.
  destruct id as [ | | n ];
    try (apply triple_ret; intros; now apply Hfail).
  destruct (find _ l) as [ a | ] eqn:Hfind;
    [ | apply triple_ret; intros; now apply Hfail ].
  apply find_id_some in Hfind. destruct Hfind as [Hin ->].
  eapply triple_bind.
  { eapply triple_conseq;
      [ apply (triple_Organization_findById l o c) | auto | intros ? ? H; exact H
      | intros; now apply Hfail ]. }
  intros r. apply triple_assume. intros ->.
  destruct (find _ o) as [ org | ] eqn:Horg;
    [ | apply triple_throw; intros; now apply Hfail ].
  destruct (Nat.eqb_spec (org_userId org) user) as [ Hu | Hu ]; simpl negb;
    cbv iota; [ | apply triple_ret; intros; now apply Hfail ].
  destruct (castStatus newStatus) as [ s | ] eqn:Hcast;
    [ | apply triple_throw; intros; now apply Hfail ].
  eapply triple_bind.
  { eapply triple_conseq;
      [ apply (triple_Appointment_save l o c) | auto | intros ? ? H; exact H
      | intros; now apply Hfail ]. }
  intros a'. apply triple_assume. intros ->.
  set (a' := set_updatedAt (set_status a s) c).
  assert (Hrenumber : String.eqb newStatus "completed"
                      || String.eqb newStatus "cancelled"
                      = match s with
                        | completed | cancelled => true
                        | _ => false
                        end).
  { unfold castStatus in Hcast.
    destruct (String.eqb newStatus "pending") eqn:Ep.
    { apply String.eqb_eq in Ep. subst newStatus. now injection Hcast as <-. }
    destruct (String.eqb newStatus "in-progress") eqn:Ei.
    { apply String.eqb_eq in Ei. subst newStatus. now injection Hcast as <-. }
    destruct (String.eqb newStatus "completed") eqn:Ec.
    { now injection Hcast as <-. }
    destruct (String.eqb newStatus "cancelled") eqn:Ex;
      [ now injection Hcast as <- | discriminate ]. }
  rewrite Hrenumber.
  (* the store once the status is saved, renumbered or not *)
  set (after := fun w : World =>
         organizations w = o /\ clock w = c
         /\ ((s = pending \/ s = in_progress)
             /\ appointments w = replace_doc a' l
             \/ (s = completed \/ s = cancelled)
                /\ exists n, appointments w = restatused l a s c n)).
  assert (Hout : forall resp w,
            resp = serverError
            \/ resp = mkResponse 200 true
                        "Appointment status updated successfully" (Some a') ->
            after w -> update_outcome user (GoodId (_id a)) newStatus l o c
                         resp w).
  { intros resp w Hresp (Ho & Hc & Hst). unfold update_outcome.
    split; [ exact Ho | ]. split; [ exact Hc | ].
    right. exists a, org, s. repeat split; auto. }
  assert (Hafter : forall w fs, after w -> after (set_faults w fs)).
  { intros w fs H. exact H. }
  assert (Haccess : triple after store_access (fun _ => after) after).
  { intros w Hw. unfold store_access.
    destruct (faults w) as [ | [ | ] fs ]; auto. }
  eapply triple_bind with (Q := fun _ => after).
  - destruct s.
    + apply triple_ret. intros w (Hl & Ho & Hc). unfold after.
      split; [ exact Ho | ]. split; [ exact Hc | ]. left. auto.
    + apply triple_ret. intros w (Hl & Ho & Hc). unfold after.
      split; [ exact Ho | ]. split; [ exact Hc | ]. left. auto.
    + eapply triple_conseq;
        [ apply (triple_updateQueuePositions (replace_doc a' l) o c
                   (organizationId a) (appointmentDate a));
          now rewrite replace_doc_ids
        | auto
        | intros [] w (n & Hl & Ho & Hc); unfold after;
          split; [ exact Ho | ]; split; [ exact Hc | ];
          right; split; [ now left | exists n; exact Hl ]
        | intros ? [] ].
    + eapply triple_conseq;
        [ apply (triple_updateQueuePositions (replace_doc a' l) o c
                   (organizationId a) (appointmentDate a));
          now rewrite replace_doc_ids
        | auto
        | intros [] w (n & Hl & Ho & Hc); unfold after;
          split; [ exact Ho | ]; split; [ exact Hc | ];
          right; split; [ now right | exists n; exact Hl ]
        | intros ? [] ].
  - intros [].
    eapply triple_bind with (Q := fun _ => after).
    { eapply triple_conseq; [ apply Haccess | auto | auto | ].
      intros w Hw. apply Hout; auto. }
    intros [].
    eapply triple_bind with (Q := fun _ => after).
    { eapply triple_conseq; [ apply Haccess | auto | auto | ].
      intros w Hw. apply Hout; auto. }
    intros []. apply triple_ret. intros w Hw. apply Hout; auto.
Qed.

Lemma bookAppointment_outcome (req : BookRequest)
  (l : list Appointment) (o : list Organization) (c : Z) :
  triple (db_is l o c) (bookAppointment req) (book_outcome req l o c) never.
Proof.
  assert (Hfail : forall resp w,
            success resp = false -> db_is l o c w ->
            book_outcome req l o c resp w).
  { intros resp w Hs (Hl & Ho & Hc). unfold book_outcome. auto. }
  assert (Hthrow : forall w, db_is l o c w ->
                             book_outcome req l o c serverError w).
  { intros w Hw. now apply Hfail. }
  unfold bookAppointment.
  eapply triple_try_catch with (E1 := book_outcome req l o c serverError);
    [ | intro e; apply triple_ret; auto ].
  unfold bookAppointment_try. cbv zeta.
  destruct (_ || _) eqn:Hreq; [ apply triple_ret; intros; now apply Hfail | ].
  repeat (apply orb_false_iff in Hreq; destruct Hreq as [Hreq ?]).
  repeat match goal with
         | H : negb _ = false |- _ => apply negb_false_iff in H
         end.
  eapply triple_bind.
  { eapply triple_conseq;
      [ apply (triple_Organization_findById l o c) | auto
      | intros ? ? HQ; exact HQ | exact Hthrow ]. }
  intros r. apply triple_assume. intros ->.
  destruct (req_organizationId req) as [ | | n ] eqn:Hid;
    try (apply triple_ret; intros; now apply Hfail).
  destruct (find _ o) as [ org | ] eqn:Horg;
    [ | apply triple_ret; intros; now apply Hfail ].
  assert (Hn : n = org_id org).
  { apply find_some in Horg. destruct Horg as [_ E].
    apply Nat.eqb_eq in E. auto. }
  subst n.
  eapply triple_bind.
  { eapply triple_conseq;
      [ apply (triple_Date_now l o c) | auto | intros ? ? HQ; exact HQ
      | exact Hthrow ]. }
  intros today. apply triple_assume. intros ->.
  destruct (date_lt _ _) eqn:Hpast;
    [ apply triple_ret; intros; now apply Hfail | ].
  destruct (isWithinWorkingHours _ _ _) eqn:Hhours; simpl negb; cbv iota;
    [ | apply triple_ret; intros; now apply Hfail ].
  destruct (find _ (experts org)) as [ expert | ] eqn:Hexpert;
    [ | apply triple_ret; intros; now apply Hfail ].
  destruct (available expert) eqn:Havail; simpl negb; cbv iota;
    [ | apply triple_ret; intros; now apply Hfail ].
  eapply triple_bind.
  { eapply triple_conseq;
      [ apply (triple_isSlotAvailable l o c) | auto | intros ? ? HQ; exact HQ
      | intros ? [] ]. }
  intros slotAvailable. apply triple_assume. intros Hslot.
  destruct slotAvailable; simpl negb; cbv iota;
    [ | apply triple_ret; intros; now apply Hfail ].
  specialize (Hslot eq_refl).
  eapply triple_bind.
  { eapply triple_conseq;
      [ apply (triple_calculateQueuePosition l o c) | auto
      | intros ? ? HQ; exact HQ | intros ? [] ]. }
  intros position. apply triple_assume. intros Hposition.
  eapply triple_bind.
  { eapply triple_conseq;
      [ apply (triple_Appointment_create l o c) | auto
      | intros ? ? HQ; exact HQ | exact Hthrow ]. }
  intros a. apply triple_assume. intros (t & Hdate & Ha).
  apply triple_assume. intros (Hexp & Hserv & Htime).
  rewrite Hdate in Hpast, Hhours, Hslot, Hposition. simpl in Hpast, Hhours.
  apply Z.ltb_ge in Hpast.
  destruct Hslot as (t1 & [= <-] & Hslot).
  assert (Hpos : position = 1
                 \/ position
                    = Z.of_nat (List.length
                                  (filter (activeOnDay (org_id org) t) l))
                      + 1).
  { destruct Hposition as [ Hp | (t2 & [= <-] & Hp) ]; auto. }
  assert (Hbooked : a = booked req org t (fresh_id l) position c)
    by exact Ha.
  clear Ha Hposition. subst a.
  set (a := booked req org t (fresh_id l) position c).
  assert (Hout : forall resp w,
            resp = serverError
            \/ resp = mkResponse 201 true "Appointment booked successfully"
                        (Some a) ->
            db_is (l ++ [a])%list o c w -> book_outcome req l o c resp w).
  { intros resp w Hresp (Hl & Ho & Hc). unfold book_outcome.
    split; [ exact Ho | ]. split; [ exact Hc | ].
    right. exists org, t, expert, position.
    split; [ exact Horg | ]. split; [ | auto ].
    unfold bookable. repeat split; auto; lia. }
  eapply triple_bind.
  { eapply triple_conseq;
      [ apply (triple_store_access (l ++ [a])%list o c) | auto
      | intros ? ? HQ; exact HQ | intros; apply Hout; auto ]. }
  intros [].
  eapply triple_bind.
  { eapply triple_conseq;
      [ apply (triple_store_access (l ++ [a])%list o c) | auto
      | intros ? ? HQ; exact HQ | intros; apply Hout; auto ]. }
  intros []. apply triple_ret. intros w Hw. apply Hout; auto.
Qed.

(* ------------------------------------------------------------------ *)
(** *** Requests during which no access fails *)

Lemma renumber_calm (L : list Appointment) :
  forall (i : Z) (s : list Appointment) (o : list Organization) (c : Z),
    renumber L i (mkWorld s o c [])
    = (Ok tt, mkWorld (renumber_store L i c s) o c []).
Proof.
  induction L as [ | a L IH ]; intros i s o c; [ reflexivity | ].
  cbn [renumber renumber_store]. unfold bind at 1.
  unfold Appointment_save, bind, Date_now, store_access. cbn.
  apply IH.
Qed.

Lemma firstn_found (q : Appointment -> bool) (l l1 : list Appointment) :
  List.length l1 = List.length l ->
  firstn (List.length l) (sort_by_createdAt (filter q l1))
  = sort_by_createdAt (filter q l1).
Proof.
  intro Hlen. apply firstn_all2.
  rewrite (Permutation_length (sort_by_createdAt_perm _)), <- Hlen.
  apply filter_length_le.
Qed.

Lemma updateQueuePositions_calm (l : list Appointment)
  (o : list Organization) (c : Z) (o' : ObjectId) (t : Z) :
  NoDup (map _id l) ->
  updateQueuePositions o' (ValidDate t) (mkWorld l o c [])
  = (Ok tt,
     mkWorld
       (map (renumber_doc (sort_by_createdAt (filter (activeOnDay o' t) l))
               0 c) l) o c []).
Proof.
  intro Hnd.
  destruct (found_documents (activeOnDay o' t) l Hnd) as (HndL & Hsame & _).
  unfold updateQueuePositions, updateQueuePositions_try, try_catch.
  run_monad. cbn [faults fst snd appointments].
  rewrite (filter_ext _ _ (sameDayActive_activeOnDay o' t)).
  rewrite renumber_calm. rewrite renumber_store_map by assumption.
  reflexivity.
Qed.

Lemma cancelAppointment_calm (l : list Appointment) (o : list Organization)
  (c : Z) (a : Appointment) :
  NoDup (map _id l) -> In a l ->
  status_in_pending_in_progress a = true ->
  cancelAppointment (userId a) (GoodId (_id a)) (mkWorld l o c [])
  = (Ok (mkResponse 200 true "Appointment cancelled successfully"
           (Some (set_updatedAt (set_status a cancelled) c))),
     mkWorld (restatused l a cancelled c (List.length l)) o c []).
Proof.
  intros Hnd Hin Hact.
  pose proof (find_by_id l a Hnd Hin) as Hfind.
  unfold cancelAppointment, cancelAppointment_try, try_catch.
  run_monad. cbn [faults appointments]. rewrite Hfind, Nat.eqb_refl.
  cbn [negb].
  assert (Hs : Status_eqb (status a) completed = false
               /\ Status_eqb (status a) cancelled = false).
  { unfold status_in_pending_in_progress in Hact.
    destruct (status a); simpl; auto; discriminate. }
  destruct Hs as [-> ->].
  unfold set_appointments. cbn [clock appointments organizations faults].
  change (organizationId (set_updatedAt (set_status a cancelled) c))
    with (organizationId a).
  change (appointmentDate (set_updatedAt (set_status a cancelled) c))
    with (appointmentDate a).
  rewrite updateQueuePositions_calm by now rewrite replace_doc_ids.
  unfold restatused. cbv zeta.
  rewrite firstn_found; [ reflexivity | ].
  unfold replace_doc. apply length_map.
Qed.

Lemma isSlotAvailable_calm (l : list Appointment) (o : list Organization)
  (c : Z) (o' : ObjectId) (t : Z) (time expert : string) :
  isSlotAvailable o' (ValidDate t) time expert (mkWorld l o c [])
  = (Ok (negb (isSome (find (sameSlotActive o' (startOfDay t)
                               (startOfDay t + 86399999) time expert) l))),
     mkWorld l o c []).
Proof. reflexivity. Qed.

Lemma calculateQueuePosition_calm (l : list Appointment)
  (o : list Organization) (c : Z) (o' : ObjectId) (t : Z) (time : string) :
  calculateQueuePosition o' (ValidDate t) time (mkWorld l o c [])
  = (Ok (Z.of_nat (List.length (filter (activeOnDay o' t) l)) + 1),
     mkWorld l o c []).
Proof.
  rewrite <- (filter_ext _ _ (sameDayActive_activeOnDay o' t)). reflexivity.
Qed.

(** In a request during which no access fails, a booking that passes the
    checks is written with the position count + 1 and answered 201. *)
Lemma bookAppointment_calm (req : BookRequest) (l : list Appointment)
  (o : list Organization) (c : Z) (org : Organization) (t : Z)
  (expert : Expert) :
  find (fun x => Nat.eqb (org_id x) (org_id org)) o = Some org ->
  bookable req org t expert l c ->
  let a :=
    booked req org t (fresh_id l)
      (Z.of_nat (List.length (filter (activeOnDay (org_id org) t) l)) + 1)
      c in
  bookAppointment req (mkWorld l o c [])
  = (Ok (mkResponse 201 true "Appointment booked successfully" (Some a)),
     mkWorld (l ++ [a])%list o c []).
Proof.
  intros Horg (Hid & Hdate & He & Hs & Hpast & Hhours & Hexpert & Havail
               & Hslot & Hte & Hts & Htime) a.
  assert (Ht : truthy (req_appointmentTime req) = true).
  { unfold truthy. destruct (String.eqb_spec (req_appointmentTime req) "")
      as [ E | ]; [ | reflexivity ].
    rewrite E in Htime. discriminate. }
  unfold bookAppointment, bookAppointment_try, try_catch. cbv zeta.
  rewrite Hid, Hdate, He, Hs, Ht. cbn [truthy_id truthy_date negb orb].
  unfold bind at 1. cbn [Organization_findById].
  unfold bind at 1, store_access at 1. cbn [faults organizations].
  rewrite Horg. unfold bind at 1, Date_now at 1. cbn [clock newDate].
  cbn [setHours_midnight date_lt].
  apply Z.ltb_ge in Hpast. rewrite Hpast, Hhours, Hexpert, Havail.
  cbn [negb].
  unfold bind at 1. rewrite isSlotAvailable_calm, Hslot. cbn [isSome negb].
  unfold bind at 1. rewrite calculateQueuePosition_calm.
  unfold bind at 1, Appointment_create. rewrite Hte, Hts, Htime.
  cbn [negb orb]. run_monad. cbn [faults appointments clock].
  reflexivity.
Qed.

(** In a request during which no access fails, the owner of the
    organization sets the status asked for; the queue of the day is
    renumbered when that status is completed or cancelled. *)
Lemma updateAppointmentStatus_calm (l : list Appointment)
  (o : list Organization) (c : Z) (a : Appointment) (org : Organization)
  (newStatus : string) (s : Status) :
  NoDup (map _id l) -> In a l ->
  find (fun x => Nat.eqb (org_id x) (organizationId a)) o = Some org ->
  castStatus newStatus = Some s ->
  updateAppointmentStatus (org_userId org) (GoodId (_id a)) newStatus
    (mkWorld l o c [])
  = (Ok (mkResponse 200 true "Appointment status updated successfully"
           (Some (set_updatedAt (set_status a s) c))),
     mkWorld
       (match s with
        | completed | cancelled => restatused l a s c (List.length l)
        | _ => replace_doc (set_updatedAt (set_status a s) c) l
        end) o c []).
Proof.
  intros Hnd Hin Horg Hcast.
  pose proof (find_by_id l a Hnd Hin) as Hfind.
  assert (Hstr : newStatus = match s with
                             | pending => "pending"
                             | in_progress => "in-progress"
                             | completed => "completed"
                             | cancelled => "cancelled"
                             end).
  { unfold castStatus in Hcast.
    repeat match type of Hcast with
           | (if String.eqb ?x ?y then _ else _) = _ =>
               destruct (String.eqb_spec x y)
           end; try discriminate; injection Hcast as <-; assumption. }
  subst newStatus.
  unfold updateAppointmentStatus, updateAppointmentStatus_try, try_catch.
  assert (Htruthy : forall s', truthy match s' with
                                      | pending => "pending"
                                      | in_progress => "in-progress"
                                      | completed => "completed"
                                      | cancelled => "cancelled"
                                      end = true) by (intros []; reflexivity).
  rewrite Htruthy, Hcast. cbn [negb].
  run_monad. cbn [faults appointments organizations]. rewrite Hfind.
  cbn [faults appointments organizations]. rewrite Horg.
  cbn [faults appointments organizations].
  rewrite Nat.eqb_refl. cbn [negb faults appointments organizations clock].
  unfold set_appointments. cbn [clock appointments organizations faults].
  change (organizationId (set_updatedAt (set_status a s) c))
    with (organizationId a).
  change (appointmentDate (set_updatedAt (set_status a s) c))
    with (appointmentDate a).
  destruct s; cbn [String.eqb Ascii.eqb Bool.eqb orb andb];
    try reflexivity;
    rewrite updateQueuePositions_calm by (now rewrite replace_doc_ids);
    unfold restatused; cbv zeta;
    (rewrite firstn_found; [ reflexivity | ]);
    unfold replace_doc; apply length_map.
Qed.

(* ------------------------------------------------------------------ *)
(** *** Bookings *)

(** A handler that never throws returns, in a world of its
    postcondition. *)
Lemma triple_run {A} (P : World -> Prop) (m : M A) (Q : A -> World -> Prop)
  (w : World) :
  triple P m Q never -> P w ->
  exists a, fst (m w) = Ok a /\ Q a (snd (m w)).
Proof.
  intros H Hw. specialize (H w Hw).
  destruct (m w) as [ [ a | e ] w' ]; simpl; [ eauto | destruct H ].
Qed.

Lemma db_is_here (w : World) :
  db_is (appointments w) (organizations w) (clock w) w.
Proof. repeat split. Qed.

Lemma fresh_id_unused (l : list Appointment) :
  ~ In (fresh_id l) (map _id l).
Proof. intro H. apply fresh_id_above in H. lia. Qed.

(** X1.  [bookAppointment] always answers, leaves the organizations alone
    and never touches a stored appointment: the store afterwards is the
    store before, followed when the booking was written by one pending
    appointment of the caller, created now under an identifier no stored
    appointment has. *)
Theorem bookAppointment_appends (req : BookRequest) (w : World) :
  (exists resp, fst (bookAppointment req w) = Ok resp)
  /\ organizations (snd (bookAppointment req w)) = organizations w
  /\ (appointments (snd (bookAppointment req w)) = appointments w
      \/ exists a,
           appointments (snd (bookAppointment req w))
           = (appointments w ++ [a])%list
           /\ status a = pending
           /\ userId a = req_user req
           /\ createdAt a = clock w
           /\ ~ In (_id a) (map _id (appointments w))).
Proof.
  destruct (triple_run _ _ _ w (bookAppointment_outcome req _ _ _)
              (db_is_here w))
    as (resp & Hresp & Horgs & _ & Hout).
  split; [ eauto | ]. split; [ exact Horgs | ].
  destruct Hout as [ [Hl _] | (org & t & e & p & _ & _ & _ & Hl & _) ];
    [ now left | right ].
  eexists. split; [ exact Hl | ].
  repeat split. apply fresh_id_unused.
Qed.


(** X3.  A slot that a pending or in-progress appointment occupies is never
    booked again: whatever the store's failures, a request for the same
    organization, local day, time string and expert name is answered with a
    failure and nothing is written. *)
Theorem occupied_slot_is_refused (req : BookRequest) (w : World)
  (a : Appointment) (t : Z) :
  In a (appointments w) ->
  status_in_pending_in_progress a = true ->
  req_organizationId req = GoodId (organizationId a) ->
  req_appointmentDate req = DateAt t ->
  localDay t = localDay (appointmentDate a) ->
  req_appointmentTime req = appointmentTime a ->
  req_expertName req = expertName a ->
  exists resp,
    fst (bookAppointment req w) = Ok resp
    /\ success resp = false
    /\ appointments (snd (bookAppointment req w)) = appointments w.
Proof.
  intros Hin Hact Hid Hdate Hday Htime Hexp.
  destruct (triple_run _ _ _ w (bookAppointment_outcome req _ _ _)
              (db_is_here w))
    as (resp & Hresp & _ & _ & Hout).
  exists resp. split; [ exact Hresp | ].
  destruct Hout as [ [Hl Hf] | (org & t' & e & p & _ & Hb & _) ];
    [ auto | exfalso ].
  destruct Hb as (Hid' & Hdate' & _ & _ & _ & _ & _ & _ & Hslot & _).
  rewrite Hid in Hid'. injection Hid' as Hid'.
  rewrite Hdate in Hdate'. injection Hdate' as <-.
  apply (find_none _ _ Hslot) in Hin.
  assert (Hq : sameSlotActive (org_id org) (startOfDay t)
                 (startOfDay t + 86399999) (req_appointmentTime req)
                 (req_expertName req) a = true).
  { apply sameSlotActive_iff. repeat split; auto.
    unfold status_in_pending_in_progress in Hact.
    destruct (status a); auto; discriminate. }
  congruence.
Qed.

(* ------------------------------------------------------------------ *)
(** *** What a request can change *)

Lemma core_renumber_doc (L : list Appointment) (k now : Z) (d : Appointment) :
  core (renumber_doc L k now d) = core d.
Proof.
  destruct (renumber_doc_shape L k now d) as [ -> | (q & ->) ]; reflexivity.
Qed.

(** A status change with or without renumbering rewrites the store document
    by document: identifiers and the fields outside status, position and
    [updatedAt] stay, and only the saved document changes its status. *)
Lemma restatused_shape (l : list Appointment) (a : Appointment) (s : Status)
  (c : Z) (n : nat) :
  NoDup (map _id l) -> In a l ->
  exists g,
    restatused l a s c n = map g l
    /\ forall d, In d l ->
         _id (g d) = _id d /\ core (g d) = core d
         /\ (status (g d) <> status d -> d = a /\ status (g d) = s).
Proof.
  intros Hnd Hin. unfold restatused. cbv zeta.
  set (a' := set_updatedAt (set_status a s) c).
  set (L := firstn n _).
  exists (fun d => renumber_doc L 0 c
                     (if Nat.eqb (_id d) (_id a') then a' else d)).
  split; [ unfold replace_doc; now rewrite map_map | ].
  intros d Hd.
  destruct (renumber_doc_keeps L 0 c (if Nat.eqb (_id d) (_id a') then a' else d))
    as (Hid & _ & Hst & _).
  rewrite Hid, Hst, core_renumber_doc.
  change (_id a') with (_id a).
  destruct (Nat.eqb_spec (_id d) (_id a)) as [ E | N ].
  - assert (d = a) by (eapply NoDup_map_inj; eauto). subst d.
    repeat split; auto.
  - repeat split; auto; try congruence; try (intro; congruence).
Qed.

Lemma replaced_shape (l : list Appointment) (a : Appointment) (s : Status)
  (c : Z) :
  NoDup (map _id l) -> In a l ->
  exists g,
    replace_doc (set_updatedAt (set_status a s) c) l = map g l
    /\ forall d, In d l ->
         _id (g d) = _id d /\ core (g d) = core d
         /\ (status (g d) <> status d -> d = a /\ status (g d) = s).
Proof.
  intros Hnd Hin.
  set (a' := set_updatedAt (set_status a s) c).
  exists (fun d => if Nat.eqb (_id d) (_id a') then a' else d).
  split; [ reflexivity | ].
  intros d Hd. change (_id a') with (_id a).
  destruct (Nat.eqb_spec (_id d) (_id a)) as [ E | N ].
  - assert (d = a) by (eapply NoDup_map_inj; eauto). subst d.
    repeat split; auto.
  - repeat split; auto; try congruence; try (intro; congruence).
Qed.

Lemma map_id_shape (l : list Appointment) :
  l = map (fun d => d) l
  /\ forall d, In d l ->
       _id d = _id d /\ core d = core d
       /\ (status d <> status d -> False).
Proof. split; [ now rewrite map_id | intros; repeat split; auto ]. Qed.

(** Every request answers, leaves the organizations alone and rewrites the
    stored appointments in place, a booking adding at most one at the
    end. *)
Lemma run_call_shape (c : Call) (w : World) :
  NoDup (map _id (appointments w)) ->
  exists resp g extra,
    fst (run_call c w) = Ok resp
    /\ organizations (snd (run_call c w)) = organizations w
    /\ appointments (snd (run_call c w))
       = (map g (appointments w) ++ extra)%list
    /\ (forall d, In d (appointments w) ->
          _id (g d) = _id d /\ core (g d) = core d
          /\ (status (g d) <> status d ->
              authorized c (organizations w) d (status (g d))))
    /\ (extra = []
        \/ exists a, extra = [a] /\ _id a = fresh_id (appointments w)).
Proof.
  intro Hnd. destruct c as [ req | user id newStatus | user id ]; simpl.
  - destruct (triple_run _ _ _ w (bookAppointment_outcome req _ _ _)
                (db_is_here w))
      as (resp & Hresp & Horgs & _ & Hout).
    exists resp, (fun d => d).
    destruct Hout as [ [Hl _] | (org & t & e & p & _ & _ & _ & Hl & _) ].
    + exists []. rewrite app_nil_r, map_id.
      repeat split; auto; try congruence; try (intro; congruence).
    + eexists. rewrite map_id.
      split; [ exact Hresp | ]. split; [ exact Horgs | ].
      split; [ exact Hl | ].
      split; [ | right; eexists; split; reflexivity ].
      intros d _. repeat split; try congruence; try (intro; congruence).
  - destruct (triple_run _ _ _ w
                (updateAppointmentStatus_outcome user id newStatus _ _ _ Hnd)
                (db_is_here w))
      as (resp & Hresp & Horgs & _ & Hout).
    exists resp.
    destruct Hout as [ [Hl _]
                     | (a & org & s & -> & Hin & Horg & Hu & Hcast & Hst & _) ].
    + exists (fun d => d), []. rewrite app_nil_r, map_id.
      repeat split; auto; try congruence; try (intro; congruence).
    + assert (Hg : exists g,
                appointments (snd (updateAppointmentStatus user
                                     (GoodId (_id a)) newStatus w))
                = map g (appointments w)
                /\ forall d, In d (appointments w) ->
                     _id (g d) = _id d /\ core (g d) = core d
                     /\ (status (g d) <> status d ->
                         d = a /\ status (g d) = s)).
      { destruct Hst as [ [_ ->] | [_ (n & ->)] ];
          [ now apply replaced_shape | now apply restatused_shape ]. }
      destruct Hg as (g & Hl & Hg).
      exists g, []. rewrite app_nil_r.
      split; [ exact Hresp | ]. split; [ exact Horgs | ].
      split; [ exact Hl | ]. split; [ | now left ].
      intros d Hd. destruct (Hg d Hd) as (Hi & Hc & Hs).
      repeat split; auto.
      * now destruct (Hs H) as [-> _].
      * destruct (Hs H) as [_ ->]. exact Hcast.
      * destruct (Hs H) as [-> _]. eauto.
  - destruct (triple_run _ _ _ w
                (cancelAppointment_outcome user id _ _ _ Hnd) (db_is_here w))
      as (resp & Hresp & Horgs & _ & Hout).
    exists resp.
    destruct Hout as [ [Hl _] | (a & n & -> & Hin & Hu & Hact & Hl & _) ].
    + exists (fun d => d), []. rewrite app_nil_r, map_id.
      repeat split; auto; try congruence; try (intro; congruence).
    + destruct (restatused_shape (appointments w) a cancelled (clock w) n
                  Hnd Hin) as (g & Hg & Hshape).
      exists g, []. rewrite app_nil_r.
      split; [ exact Hresp | ]. split; [ exact Horgs | ].
      split; [ now rewrite Hl | ]. split; [ | now left ].
      intros d Hd. destruct (Hshape d Hd) as (Hi & Hc & Hs).
      repeat split; auto.
      * now destruct (Hs H) as [-> _].
      * now destruct (Hs H) as [-> _].
      * now destruct (Hs H) as [_ ->].
      * now destruct (Hs H) as [-> _].
Qed.

(** X4.  A refusal writes nothing: when [bookAppointment],
    [updateAppointmentStatus] or [cancelAppointment] answers a failure other
    than the 500 'Server error' (so one of the 400, 403 and 404 responses),
    the appointments and the organizations are as before. *)
Theorem refusal_writes_nothing (c : Call) (w : World) (resp : Response) :
  NoDup (map _id (appointments w)) ->
  fst (run_call c w) = Ok resp ->
  success resp = false ->
  code resp <> 500 ->
  appointments (snd (run_call c w)) = appointments w
  /\ organizations (snd (run_call c w)) = organizations w.
Proof.
  intros Hnd Hresp Hfail Hcode.
  destruct c as [ req | user id newStatus | user id ]; simpl in *.
  - destruct (triple_run _ _ _ w (bookAppointment_outcome req _ _ _)
                (db_is_here w))
      as (resp' & Hresp' & Horgs & _ & Hout).
    rewrite Hresp in Hresp'. injection Hresp' as <-.
    split; [ | exact Horgs ].
    destruct Hout
      as [ [Hl _] | (org & t & e & p & _ & _ & _ & _ & [ -> | -> ]) ];
      [ exact Hl | now contradiction Hcode | discriminate ].
  - destruct (triple_run _ _ _ w
                (updateAppointmentStatus_outcome user id newStatus _ _ _ Hnd)
                (db_is_here w))
      as (resp' & Hresp' & Horgs & _ & Hout).
    rewrite Hresp in Hresp'. injection Hresp' as <-.
    split; [ | exact Horgs ].
    destruct Hout
      as [ [Hl _]
         | (a & org & s & _ & _ & _ & _ & _ & _ & [ -> | -> ]) ];
      [ exact Hl | now contradiction Hcode | discriminate ].
  - destruct (triple_run _ _ _ w
                (cancelAppointment_outcome user id _ _ _ Hnd) (db_is_here w))
      as (resp' & Hresp' & Horgs & _ & Hout).
    rewrite Hresp in Hresp'. injection Hresp' as <-.
    split; [ | exact Horgs ].
    destruct Hout as [ [Hl _] | (a & n & _ & _ & _ & _ & _ & ->) ];
      [ exact Hl | discriminate ].
Qed.

(** X5.  Who can change a status: if a request leaves a stored appointment
    with another status, the request is a cancellation by the appointment's
    own user of a pending or in-progress appointment (new status
    cancelled), or a status update by the user who owns the appointment's
    organization (new status the one asked for).  A booking changes none. *)
Theorem status_change_is_authorized (c : Call) (w : World)
  (a a' : Appointment) :
  NoDup (map _id (appointments w)) ->
  In a (appointments w) ->
  In a' (appointments (snd (run_call c w))) ->
  _id a' = _id a ->
  status a' <> status a ->
  authorized c (organizations w) a (status a').
Proof.
  intros Hnd Hin Hin' Hid Hst.
  destruct (run_call_shape c w Hnd)
    as (resp & g & extra & _ & _ & Hl & Hg & Hextra).
  rewrite Hl in Hin'. apply in_app_or in Hin'.
  destruct Hin' as [ Hin' | Hin' ].
  - apply in_map_iff in Hin'. destruct Hin' as (d & <- & Hd).
    destruct (Hg d Hd) as (Hi & _ & Hs).
    assert (d = a) by (eapply NoDup_map_inj; eauto; congruence).
    subst d. now apply Hs.
  - exfalso. destruct Hextra as [ -> | (b & -> & Hb) ]; [ destruct Hin' | ].
    destruct Hin' as [ <- | [] ].
    apply (fresh_id_unused (appointments w)).
    rewrite <- Hb, Hid. now apply in_map.
Qed.

Lemma handle_shape (w : World) (e : Event) :
  NoDup (map _id (appointments w)) ->
  organizations (handle w e) = organizations w
  /\ NoDup (map _id (appointments (handle w e)))
  /\ exists extra,
       map core (appointments (handle w e))
       = (map core (appointments w) ++ extra)%list.
Proof.
  intro Hnd. unfold handle.
  set (w1 := mkWorld (appointments w) (organizations w) (ev_clock e)
               (ev_faults e)).
  destruct (run_call_shape (ev_call e) w1 Hnd)
    as (resp & g & extra & _ & Horgs & Hl & Hg & Hextra).
  cbn [appointments organizations w1] in *.
  split; [ exact Horgs | ].
  assert (Hids : map _id (map g (appointments w)) = map _id (appointments w)).
  { rewrite map_map. apply map_ext_in. intros d Hd. apply (Hg d Hd). }
  assert (Hcore : map core (map g (appointments w))
                  = map core (appointments w)).
  { rewrite map_map. apply map_ext_in. intros d Hd. apply (Hg d Hd). }
  rewrite Hl, !map_app, Hids, Hcore. split; [ | eauto ].
  destruct Hextra as [ -> | (a & -> & Ha) ]; simpl.
  - now rewrite app_nil_r.
  - apply NoDup_app; [ exact Hnd | repeat constructor; simpl; tauto | ].
    intros j Hj [ <- | [] ]. rewrite Ha in Hj.
    now apply fresh_id_unused in Hj.
Qed.

(** X6.  Through every sequence of bookings, status updates and
    cancellations, whatever fails: no appointment is removed or reordered,
    every stored appointment keeps its identifier, user, organization,
    expert, service, date, time, wait, notes and creation time (status,
    position and [updatedAt] are the only fields rewritten), new
    appointments come at the end, identifiers stay distinct and the
    organizations are untouched. *)
Theorem appointments_persist (w : World) (evs : list Event) :
  NoDup (map _id (appointments w)) ->
  organizations (run_events w evs) = organizations w
  /\ NoDup (map _id (appointments (run_events w evs)))
  /\ exists extra,
       map core (appointments (run_events w evs))
       = (map core (appointments w) ++ extra)%list.
Proof.
  revert w. induction evs as [ | e evs IH ]; intros w Hnd; simpl.
  - split; [ reflexivity | ]. split; [ exact Hnd | ].
    exists []. now rewrite app_nil_r.
  - destruct (handle_shape w e Hnd) as (Ho & Hnd1 & (x1 & Hx1)).
    destruct (IH (handle w e) Hnd1) as (Ho' & Hnd' & (x2 & Hx2)).
    split; [ congruence | ]. split; [ exact Hnd' | ].
    exists (x1 ++ x2)%list. rewrite Hx2, Hx1. now rewrite app_assoc.
Qed.

(* ------------------------------------------------------------------ *)
(** *** The queue of a day *)

(** After a complete renumbering of the day of [o'] and [t], its pending
    and in-progress appointments hold 1, 2, ... in creation order. *)
Lemma renumbered_positions (l : list Appointment) (o' : ObjectId) (t c : Z) :
  NoDup (map _id l) ->
  let s' :=
    map (renumber_doc (sort_by_createdAt (filter (activeOnDay o' t) l)) 0 c)
      l in
  map queuePosition (sort_by_createdAt (filter (activeOnDay o' t) s'))
  = map Z.of_nat (seq 1 (List.length (filter (activeOnDay o' t) s')))
  /\ List.length (filter (activeOnDay o' t) s')
     = List.length (filter (activeOnDay o' t) l).
Proof.
  intros Hnd s'.
  set (L := sort_by_createdAt (filter (activeOnDay o' t) l)) in *.
  set (g := renumber_doc L 0 c) in *.
  assert (Hactive : filter (activeOnDay o' t) s'
                    = map g (filter (activeOnDay o' t) l)).
  { apply filter_map_commute. intro d. apply renumber_doc_keeps. }
  assert (Hlen : List.length (filter (activeOnDay o' t) s')
                 = List.length L).
  { rewrite Hactive, length_map. unfold L. symmetry.
    apply Permutation_length, sort_by_createdAt_perm. }
  split.
  - rewrite Hlen, Hactive, sort_by_createdAt_map
      by (intro d; apply renumber_doc_keeps).
    fold L. unfold g.
    destruct (found_documents (activeOnDay o' t) l Hnd) as (HndL & _).
    rewrite renumber_doc_positions by exact HndL.
    apply map_ext. intro j. lia.
  - rewrite Hlen. unfold L.
    apply Permutation_length, sort_by_createdAt_perm.
Qed.

(** Two days of two organizations are the same queue or share no
    appointment. *)
Lemma same_queue_or_apart (o1 o2 : ObjectId) (t1 t2 : Z) :
  (forall d, activeOnDay o1 t1 d = activeOnDay o2 t2 d)
  \/ (forall d, organizationId d = o2 ->
                localDay (appointmentDate d) = localDay t2 ->
                activeOnDay o1 t1 d = false).
Proof.
  destruct (Nat.eqb_spec o1 o2) as [ -> | No ].
  - destruct (Z.eqb_spec (localDay t1) (localDay t2)) as [ E | Nt ].
    + left. intro d. unfold activeOnDay. now rewrite E.
    + right. intros d _ Hd. unfold activeOnDay.
      destruct (Z.eqb_spec (localDay (appointmentDate d)) (localDay t1));
        [ congruence | ].
      now rewrite andb_false_r.
  - right. intros d Hd _. unfold activeOnDay.
    destruct (Nat.eqb_spec (organizationId d) o1); [ congruence | ].
    reflexivity.
Qed.

Lemma activeOnDay_own (d : Appointment) :
  activeOnDay (organizationId d) (appointmentDate d) d
  = status_in_pending_in_progress d.
Proof.
  unfold activeOnDay. now rewrite Nat.eqb_refl, Z.eqb_refl.
Qed.

Lemma activeOnDay_true (o' : ObjectId) (t : Z) (d : Appointment) :
  activeOnDay o' t d = true ->
  organizationId d = o' /\ localDay (appointmentDate d) = localDay t
  /\ status_in_pending_in_progress d = true.
Proof.
  unfold activeOnDay. rewrite !andb_true_iff, Nat.eqb_eq, Z.eqb_eq. tauto.
Qed.

(** Replacing a document by one that the filter and the field read treat
    alike does not show in the filtered field. *)
Lemma map_filter_replace_doc {B} (f : Appointment -> B)
  (q : Appointment -> bool) (a' : Appointment) (l : list Appointment) :
  (forall d, In d l -> _id d = _id a' ->
             q a' = q d /\ (q d = true -> f a' = f d)) ->
  map f (filter q (replace_doc a' l)) = map f (filter q l).
Proof.
  induction l as [ | d l IH ]; intro H; [ reflexivity | ].
  cbn [replace_doc map filter].
  assert (IH' : map f (filter q (replace_doc a' l)) = map f (filter q l)).
  { apply IH. intros x Hx. apply H. now right. }
  unfold replace_doc in IH'.
  destruct (Nat.eqb_spec (_id d) (_id a')) as [ E | N ].
  - destruct (H d (or_introl eq_refl) E) as [Hq Hf].
    rewrite Hq. destruct (q d); cbn [map]; [ | exact IH' ].
    rewrite (Hf eq_refl). now f_equal.
  - destruct (q d); cbn [map]; [ now f_equal | exact IH' ].
Qed.

Lemma contiguous_append (l : list Appointment) (a : Appointment) :
  Contiguous l ->
  status a = pending ->
  queuePosition a
  = Z.of_nat (List.length
                (filter (activeOnDay (organizationId a) (appointmentDate a))
                   l)) + 1 ->
  Contiguous (l ++ [a])%list.
Proof.
  intros Hc Hst Hq o' t. rewrite filter_app. cbn [filter].
  destruct (activeOnDay o' t a) eqn:Ha.
  - apply activeOnDay_true in Ha. destruct Ha as (Ho & Hd & _).
    assert (Hsame : forall d, activeOnDay o' t d
                              = activeOnDay (organizationId a)
                                  (appointmentDate a) d).
    { intro d. unfold activeOnDay. now rewrite Ho, Hd. }
    rewrite <- (filter_ext _ _ Hsame) in Hq.
    rewrite map_app, length_app. cbn [map List.length].
    rewrite Nat.add_1_r, seq_S, map_app. cbn [map].
    apply Permutation_app; [ apply Hc | ].
    rewrite Hq. replace (Z.of_nat (1 + List.length (filter (activeOnDay o' t) l)))
      with (Z.of_nat (List.length (filter (activeOnDay o' t) l)) + 1) by lia.
    reflexivity.
  - rewrite app_nil_r. apply Hc.
Qed.

Lemma contiguous_replace_active (l : list Appointment) (a : Appointment)
  (s : Status) (c : Z) :
  NoDup (map _id l) -> In a l -> Contiguous l ->
  status_in_pending_in_progress a = true ->
  s = pending \/ s = in_progress ->
  Contiguous (replace_doc (set_updatedAt (set_status a s) c) l).
Proof.
  intros Hnd Hin Hc Ha Hs o' t.
  set (a' := set_updatedAt (set_status a s) c).
  assert (Hkeep : forall d, In d l -> _id d = _id a' ->
            activeOnDay o' t a' = activeOnDay o' t d
            /\ (activeOnDay o' t d = true ->
                queuePosition a' = queuePosition d)).
  { intros d Hd E. assert (d = a) by (eapply NoDup_map_inj; eauto). subst d.
    split; [ | reflexivity ].
    unfold activeOnDay, status_in_pending_in_progress in *. cbn [a'].
    destruct (status a); try discriminate;
      destruct Hs as [ -> | -> ]; reflexivity. }
  rewrite (map_filter_replace_doc queuePosition _ a' l Hkeep).
  assert (Hlen : List.length (filter (activeOnDay o' t) (replace_doc a' l))
                 = List.length (filter (activeOnDay o' t) l)).
  { rewrite <- (length_map (fun _ => tt)),
      (map_filter_replace_doc (fun _ => tt) _ a' l), length_map;
      [ reflexivity | ].
    intros d Hd E. split; [ now apply Hkeep | reflexivity ]. }
  rewrite Hlen. apply Hc.
Qed.

Lemma contiguous_restatused (l : list Appointment) (a : Appointment)
  (s : Status) (c : Z) :
  NoDup (map _id l) -> In a l -> Contiguous l ->
  Contiguous (restatused l a s c (List.length l)).
Proof.
  intros Hnd Hin Hc o' t. unfold restatused. cbv zeta.
  set (a' := set_updatedAt (set_status a s) c).
  set (l1 := replace_doc a' l).
  assert (Hnd1 : NoDup (map _id l1))
    by (unfold l1; now rewrite replace_doc_ids).
  rewrite firstn_found by (unfold l1, replace_doc; apply length_map).
  set (grp := activeOnDay (organizationId a) (appointmentDate a)).
  set (L := sort_by_createdAt (filter grp l1)).
  destruct (same_queue_or_apart o' (organizationId a) t (appointmentDate a))
    as [ Hsame | Hapart ].
  - (* the renumbered queue *)
    rewrite (filter_ext _ _ Hsame). fold grp.
    destruct (renumbered_positions l1 (organizationId a) (appointmentDate a)
                c Hnd1) as [Hpos _].
    fold grp L in Hpos. rewrite <- Hpos.
    apply Permutation_map. symmetry. apply sort_by_createdAt_perm.
  - (* another queue: nothing of it is touched *)
    assert (Hfilter : filter (activeOnDay o' t) (map (renumber_doc L 0 c) l1)
                      = filter (activeOnDay o' t) l1).
    { rewrite filter_map_commute by (intro d; apply renumber_doc_keeps).
      rewrite <- (map_id (filter (activeOnDay o' t) l1)) at 2.
      apply map_ext_in. intros d Hd. apply filter_In in Hd.
      destruct Hd as [Hd Hq]. unfold renumber_doc.
      destruct (found_documents grp l1 Hnd1) as (_ & _ & Hout).
      assert (Hg : grp d = false).
      { destruct (grp d) eqn:Hg; [ | reflexivity ].
        apply activeOnDay_true in Hg. destruct Hg as (Ho & Hday & _).
        rewrite (Hapart d Ho Hday) in Hq. discriminate. }
      specialize (Hout d Hd Hg). apply rank_of_None in Hout.
      fold L in Hout. now rewrite Hout. }
    rewrite Hfilter.
    assert (Hkeep : forall d, In d l -> _id d = _id a' ->
              activeOnDay o' t a' = activeOnDay o' t d
              /\ (activeOnDay o' t d = true ->
                  queuePosition a' = queuePosition d)).
    { intros d Hd E.
      assert (d = a) by exact (NoDup_map_inj _id l a d Hnd Hin Hd E).
      subst d. rewrite (Hapart a eq_refl eq_refl).
      rewrite (Hapart a' eq_refl eq_refl). split; [ reflexivity | ].
      discriminate. }
    unfold l1. rewrite (map_filter_replace_doc queuePosition _ a' l Hkeep).
    assert (Hlen : List.length (filter (activeOnDay o' t) (replace_doc a' l))
                   = List.length (filter (activeOnDay o' t) l)).
    { rewrite <- (length_map (fun _ => tt)),
        (map_filter_replace_doc (fun _ => tt) _ a' l), length_map;
        [ reflexivity | ].
      intros d Hd E. split; [ now apply Hkeep | reflexivity ]. }
    rewrite Hlen. apply Hc.
Qed.

Lemma contiguous_step (c : Call) (l : list Appointment)
  (o : list Organization) (now : Z) :
  NoDup (map _id l) -> Contiguous l -> reopens c l = false ->
  Contiguous (appointments (snd (run_call c (mkWorld l o now [])))).
Proof.
  intros Hnd Hc Hre.
  set (w1 := mkWorld l o now []).
  destruct c as [ req | user id newStatus | user id ]; cbn [run_call].
  - destruct (triple_run _ _ _ w1 (bookAppointment_outcome req _ _ _)
                (db_is_here w1))
      as (resp & _ & _ & _ & Hout).
    cbn [appointments organizations clock w1] in Hout.
    destruct Hout as [ [-> _] | (org & t & e & p & Horg & Hb & _) ];
      [ exact Hc | ].
    unfold w1. rewrite (bookAppointment_calm req l o now org t e Horg Hb).
    cbn [snd appointments].
    apply contiguous_append; [ exact Hc | reflexivity | reflexivity ].
  - destruct (triple_run _ _ _ w1
                (updateAppointmentStatus_outcome user id newStatus _ _ _ Hnd)
                (db_is_here w1))
      as (resp & _ & _ & _ & Hout).
    cbn [appointments organizations clock w1] in Hout.
    destruct Hout
      as [ [-> _] | (a & org & s & -> & Hin & Horg & <- & Hcast & _) ];
      [ exact Hc | ].
    unfold w1.
    rewrite (updateAppointmentStatus_calm l o now a org newStatus s
               Hnd Hin Horg Hcast).
    cbn [snd appointments].
    cbn [reopens] in Hre.
    rewrite Hcast, (find_by_id l a Hnd Hin) in Hre.
    destruct s.
    + apply negb_false_iff in Hre.
      apply contiguous_replace_active; auto.
    + apply negb_false_iff in Hre.
      apply contiguous_replace_active; auto.
    + now apply contiguous_restatused.
    + now apply contiguous_restatused.
  - destruct (triple_run _ _ _ w1
                (cancelAppointment_outcome user id _ _ _ Hnd) (db_is_here w1))
      as (resp & _ & _ & _ & Hout).
    cbn [appointments organizations clock w1] in Hout.
    destruct Hout as [ [-> _] | (a & n & -> & Hin & <- & Hact & _) ];
      [ exact Hc | ].
    unfold w1. rewrite (cancelAppointment_calm l o now a Hnd Hin Hact).
    cbn [snd appointments]. now apply contiguous_restatused.
Qed.

(** X7.  The queue invariant is kept by requests that meet no failure: if
    the pending and in-progress appointments of every organization and
    local day hold exactly the positions 1..N, they still do after every
    sequence of bookings, cancellations and status updates during which no
    access to the store fails and no completed or cancelled appointment is
    taken back to pending or in-progress. *)
Theorem queue_stays_contiguous (w : World) (evs : list Event) :
  NoDup (map _id (appointments w)) ->
  Contiguous (appointments w) ->
  orderly w evs ->
  Contiguous (appointments (run_events w evs)).
Proof.
  revert w. induction evs as [ | e evs IH ]; intros w Hnd Hc Hord;
    [ exact Hc | ].
  destruct Hord as (Hcalm & Hre & Hrest). cbn [run_events fold_left].
  apply IH; [ now apply handle_shape | | exact Hrest ].
  unfold handle. rewrite Hcalm. now apply contiguous_step.
Qed.


(* ------------------------------------------------------------------ *)
(** *** Leaving the queue *)

Lemma filter_replace_doc_out (q : Appointment -> bool) (a' : Appointment)
  (l : list Appointment) :
  q a' = false ->
  filter q (replace_doc a' l)
  = filter (fun d => negb (Nat.eqb (_id d) (_id a'))) (filter q l).
Proof.
  intro Hout. induction l as [ | d l IH ]; [ reflexivity | ].
  unfold replace_doc in *. cbn [map filter].
  destruct (Nat.eqb (_id d) (_id a')) eqn:E.
  - rewrite Hout, IH. destruct (q d); [ | reflexivity ].
    cbn [filter]. now rewrite E.
  - rewrite IH. destruct (q d); [ | reflexivity ].
    cbn [filter]. now rewrite E.
Qed.

Lemma length_without (l : list Appointment) (a : Appointment) :
  NoDup (map _id l) -> In a l ->
  List.length l
  = S (List.length (filter (fun d => negb (Nat.eqb (_id d) (_id a))) l)).
Proof.
  induction l as [ | d l IH ]; intros Hnd Hin; [ destruct Hin | ].
  cbn [map] in Hnd. inversion Hnd as [ | ? ? Hfresh Hnd' ]; subst.
  cbn [filter List.length]. destruct Hin as [ -> | Hin ].
  - rewrite Nat.eqb_refl. cbn [negb]. f_equal.
    rewrite forallb_filter_id; [ reflexivity | ].
    apply forallb_forall. intros x Hx.
    destruct (Nat.eqb_spec (_id x) (_id a)) as [ E | ]; [ | reflexivity ].
    exfalso. apply Hfresh. rewrite <- E. now apply in_map.
  - destruct (Nat.eqb_spec (_id d) (_id a)) as [ E | ].
    + exfalso. apply Hfresh. rewrite E. now apply in_map.
    + cbn [negb List.length]. f_equal. now apply IH.
Qed.

(** What a status change to completed or cancelled followed by a complete
    renumbering makes of the queue the appointment was waiting in. *)
Lemma restatused_queue (l : list Appointment) (a : Appointment) (s : Status)
  (c : Z) :
  NoDup (map _id l) -> In a l ->
  status_in_pending_in_progress a = true ->
  s = completed \/ s = cancelled ->
  let q := activeOnDay (organizationId a) (appointmentDate a) in
  let l' := restatused l a s c (List.length l) in
  map queuePosition (sort_by_createdAt (filter q l'))
  = map Z.of_nat (seq 1 (List.length (filter q l) - 1))
  /\ map _id (filter q l')
     = map _id (filter (fun d => negb (Nat.eqb (_id d) (_id a))) (filter q l))
  /\ (forall d, In d l' -> _id d = _id a -> status d = s).
Proof.
  intros Hnd Hin Hact Hs q l'. unfold l', restatused. cbv zeta.
  set (a' := set_updatedAt (set_status a s) c).
  set (l1 := replace_doc a' l).
  assert (Hnd1 : NoDup (map _id l1))
    by (unfold l1; now rewrite replace_doc_ids).
  rewrite firstn_found by (unfold l1, replace_doc; apply length_map).
  fold q.
  assert (Hout : q a' = false).
  { unfold q, activeOnDay, status_in_pending_in_progress. cbn [a'].
    destruct Hs as [ -> | -> ]; cbn; now rewrite andb_false_r. }
  assert (Hl1 : filter q l1
                = filter (fun d => negb (Nat.eqb (_id d) (_id a)))
                    (filter q l))
    by (unfold l1; now rewrite filter_replace_doc_out).
  assert (Hqa : In a (filter q l)).
  { apply filter_In. split; [ exact Hin | ].
    unfold q. now rewrite activeOnDay_own. }
  pose proof (length_without (filter q l) a
                (NoDup_map_filter _id q l Hnd) Hqa) as Hlen.
  destruct (renumbered_positions l1 (organizationId a) (appointmentDate a) c
              Hnd1) as [Hpos Hcount].
  fold q in Hpos, Hcount.
  split; [ | split ].
  - rewrite Hpos, Hcount, Hl1. do 2 f_equal. lia.
  - rewrite filter_map_commute by (intro d; apply renumber_doc_keeps).
    rewrite map_map, Hl1. apply map_ext. intro d. apply renumber_doc_keeps.
  - intros d Hd Hid. apply in_map_iff in Hd. destruct Hd as (x & <- & Hx).
    destruct (renumber_doc_keeps
                (sort_by_createdAt (filter q l1)) 0 c x) as (Hi & _ & Hst & _).
    rewrite Hst. rewrite Hi in Hid.
    unfold l1, replace_doc in Hx. apply in_map_iff in Hx.
    destruct Hx as (y & <- & Hy). change (_id a') with (_id a) in *.
    destruct (Nat.eqb_spec (_id y) (_id a)) as [ E | N ];
      [ reflexivity | contradiction ].
Qed.

(** X8.  A cancellation during which no access fails: the user who owns a
    pending or in-progress appointment gets the 200 response, the stored
    appointment is cancelled, and the queue it was waiting in (the pending
    and in-progress appointments of its organization on its local day) is
    the queue before without it, numbered 1..N-1 in creation order, whatever
    the positions were before. *)
Theorem cancelAppointment_closes_gap (l : list Appointment)
  (o : list Organization) (c : Z) (a : Appointment) :
  NoDup (map _id l) -> In a l ->
  status_in_pending_in_progress a = true ->
  let r := cancelAppointment (userId a) (GoodId (_id a)) (mkWorld l o c []) in
  let q := activeOnDay (organizationId a) (appointmentDate a) in
  fst r = Ok (mkResponse 200 true "Appointment cancelled successfully"
                (Some (set_updatedAt (set_status a cancelled) c)))
  /\ map queuePosition (sort_by_createdAt (filter q (appointments (snd r))))
     = map Z.of_nat (seq 1 (List.length (filter q l) - 1))
  /\ map _id (filter q (appointments (snd r)))
     = map _id (filter (fun d => negb (Nat.eqb (_id d) (_id a))) (filter q l))
  /\ (forall d, In d (appointments (snd r)) -> _id d = _id a ->
                status d = cancelled).
Proof.
  intros Hnd Hin Hact r q. unfold r.
  rewrite (cancelAppointment_calm l o c a Hnd Hin Hact).
  cbn [fst snd appointments]. split; [ reflexivity | ].
  apply restatused_queue; auto.
Qed.




(* ------------------------------------------------------------------ *)
(** *** The orders of the listings *)


Lemma String_lt_trans (a b c : string) :
  String.compare a b = Lt -> String.compare b c = Lt ->
  String.compare a c = Lt.
Proof.
  exact (@RelationClasses.StrictOrder_Transitive _ _
           OrdersEx.String_as_OT.lt_strorder a b c).
Qed.


Lemma String_ltb_lt (a b : string) :
  String.ltb a b = true <-> String.compare a b = Lt.
Proof.
  unfold String.ltb. destruct (String.compare a b); split; congruence.
Qed.



Lemma earliest_first_total (a b : Appointment) :
  earliest_first a b = false -> earliest_first b a = true.
Proof.
  unfold earliest_first. intro H.
  apply orb_false_iff in H. destruct H as [Hlt H].
  apply Z.ltb_ge in Hlt. apply orb_true_iff.
  destruct (Z.eqb_spec (appointmentDate a) (appointmentDate b)) as [ E | N ];
    [ right | left; apply Z.ltb_lt; lia ].
  simpl in H. rewrite E, Z.eqb_refl. simpl.
  apply orb_false_iff in H. destruct H as [Ht H].
  destruct (String.eqb_spec (appointmentTime a) (appointmentTime b))
    as [ Et | Nt ].
  - simpl in H. apply Z.leb_gt in H. rewrite Et, String.eqb_refl.
    apply orb_true_iff. right. apply Z.leb_le. lia.
  - apply orb_true_iff. left. apply String_ltb_lt.
    pose proof (String.compare_antisym (appointmentTime a)
                  (appointmentTime b)) as Hanti.
    unfold String.ltb in Ht.
    destruct (String.compare (appointmentTime a) (appointmentTime b)) eqn:Hc;
      try discriminate.
    + now apply String.compare_eq_iff in Hc.
    + destruct (String.compare (appointmentTime b) (appointmentTime a));
        simpl in Hanti; congruence.
Qed.

Lemma earliest_first_trans (a b c : Appointment) :
  earliest_first a b = true -> earliest_first b c = true ->
  earliest_first a c = true.
Proof.
  unfold earliest_first.
  rewrite !orb_true_iff, !andb_true_iff, !orb_true_iff, !andb_true_iff,
    !Z.ltb_lt, !Z.eqb_eq, !String_ltb_lt, !String.eqb_eq, !Z.leb_le.
  intros [ H1 | [E1 T1] ] [ H2 | [E2 T2] ];
    [ left; lia | left; lia | left; lia | right ].
  split; [ lia | ].
  destruct T1 as [ T1 | [T1 Q1] ], T2 as [ T2 | [T2 Q2] ].
  - left. eapply String_lt_trans; eauto.
  - left. now rewrite <- T2.
  - left. now rewrite T1.
  - right. split; [ congruence | lia ].
Qed.

Section SortBy.

Variable before : Appointment -> Appointment -> bool.

Lemma insert_by_perm (a : Appointment) (l : list Appointment) :
  Permutation (insert_by before a l) (a :: l).
Proof.
  induction l as [ | b l IH ]; simpl; [ reflexivity | ].
  destruct (before a b); [ reflexivity | ].
  rewrite IH. apply perm_swap.
Qed.

Lemma sort_by_perm (l : list Appointment) : Permutation (sort_by before l) l.
Proof.
  induction l as [ | a l IH ]; simpl; [ reflexivity | ].
  rewrite insert_by_perm. now constructor.
Qed.

Hypothesis before_total :
  forall a b, before a b = false -> before b a = true.
Hypothesis before_trans :
  forall a b c, before a b = true -> before b c = true -> before a c = true.

Lemma insert_by_sorted (a : Appointment) (l : list Appointment) :
  StronglySorted (fun x y => before x y = true) l ->
  StronglySorted (fun x y => before x y = true) (insert_by before a l).
Proof.
  induction 1 as [ | b l Hs IH Hall ]; simpl.
  - repeat constructor.
  - destruct (before a b) eqn:E.
    + constructor; [ now constructor | ].
      constructor; [ exact E | ].
      eapply Forall_impl; [ | exact Hall ].
      intros x Hx. eapply before_trans; eauto.
    + constructor; [ exact IH | ].
      eapply Permutation_Forall.
      * symmetry. apply insert_by_perm.
      * constructor; [ now apply before_total | exact Hall ].
Qed.

Lemma sort_by_sorted (l : list Appointment) :
  StronglySorted (fun x y => before x y = true) (sort_by before l).
Proof.
  induction l as [ | a l IH ]; simpl; [ constructor | ].
  now apply insert_by_sorted.
Qed.

End SortBy.

Lemma status_filter_iff (q : string) (a : Appointment) :
  status_filter q a = true <-> status_asked q a.
Proof.
  unfold status_filter, status_asked, truthy, status_is.
  destruct (String.eqb_spec q "") as [ E | N ]; simpl.
  - split; auto.
  - destruct (castStatus q) as [ s | ].
    + split.
      * intro H. right. destruct (status a), s; simpl in H;
          congruence.
      * intros [ H | H ]; [ contradiction | ].
        injection H as ->. now destruct (status a).
    + split; [ discriminate | intros [ H | H ]; [ contradiction | discriminate ] ].
Qed.

(* ------------------------------------------------------------------ *)
(** *** What the reading handlers answer *)

Section ReadRules.

Variable l : list Appointment.
Variable o : list Organization.
Variable c : Z.

Lemma triple_find_populated (q : Appointment -> bool)
  (before : Appointment -> Appointment -> bool) :
  triple (db_is l o c) (Appointment_find_populated q before)
    (fun r w => r = sort_by before (filter q l) /\ db_is l o c w)
    (db_is l o c).
Proof.
  unfold Appointment_find_populated.
  eapply triple_bind.
  - apply (triple_read l o c
             (fun w => sort_by before (filter q (appointments w)))
             (sort_by before (filter q l))).
    intros w (-> & _). reflexivity.
  - intros r. apply triple_assume. intros ->.
    destruct (sort_by before (filter q l)); [ now apply triple_ret | ].
    eapply triple_bind; [ apply triple_store_access | ].
    intros []. now apply triple_ret.
Qed.

Lemma getUserAppointments_outcome (user : ObjectId) (statusQuery : string) :
  triple (db_is l o c) (getUserAppointments user statusQuery)
    (fun r w =>
       db_is l o c w
       /\ (r = refuse 500 "Server error"
           \/ r = listing (sort_by latest_first
                             (filter (ofUser user statusQuery) l))))
    never.
Proof.
  unfold getUserAppointments.
  eapply triple_try_catch with (E1 := db_is l o c).
  - eapply triple_bind; [ apply triple_find_populated | ].
    intros r. apply triple_assume. intros ->. apply triple_ret. auto.
  - intros e. apply triple_ret. auto.
Qed.

Lemma getOrganizationAppointments_outcome (user : ObjectId) (orgId : ReqId)
  (statusQuery : string) (date : ReqDate) :
  triple (db_is l o c)
    (getOrganizationAppointments user orgId statusQuery date)
    (fun r w =>
       db_is l o c w
       /\ ((reply_success r = false /\ reply_data r = None)
           \/ exists org,
                orgId = GoodId (org_id org)
                /\ find (fun x => Nat.eqb (org_id x) (org_id org)) o
                   = Some org
                /\ org_userId org = user
                /\ date <> BadDate
                /\ r = listing
                         (sort_by earliest_first
                            (filter (ofOrganization (org_id org) statusQuery
                                       (day_range date)) l))))
    never.
Proof.
  unfold getOrganizationAppointments.
  eapply triple_try_catch with (E1 := db_is l o c);
    [ | intros e; apply triple_ret; auto ].
  eapply triple_bind; [ apply triple_Organization_findById | ].
  intros r. apply triple_assume. intros ->.
  destruct orgId as [ | | n ]; try (apply triple_ret; auto).
  destruct (find _ o) as [ org | ] eqn:Hfind; [ | apply triple_ret; auto ].
  assert (Hn : n = org_id org).
  { apply find_some in Hfind. destruct Hfind as [_ E].
    apply Nat.eqb_eq in E. auto. }
  subst n.
  destruct (Nat.eqb_spec (org_userId org) user) as [ Hu | Hu ]; simpl negb;
    cbv iota; [ | apply triple_ret; auto ].
  eapply triple_bind
    with (Q := fun range w =>
                 (range = day_range date /\ date <> BadDate)
                 /\ db_is l o c w).
  - intros w Hw. destruct date; simpl; auto.
    + split; [ split; [ reflexivity | discriminate ] | exact Hw ].
    + split; [ split; [ reflexivity | discriminate ] | exact Hw ].
  - intros range. apply triple_assume. intros [-> Hd].
    eapply triple_bind; [ apply triple_find_populated | ].
    intros L. apply triple_assume. intros ->. apply triple_ret.
    intros w Hw. split; [ exact Hw | right ].
    exists org. auto.
Qed.

Lemma getAppointmentById_outcome (user : ObjectId) (id : ReqId) :
  triple (db_is l o c) (getAppointmentById user id)
    (fun r w =>
       db_is l o c w
       /\ ((reply_success r = false /\ reply_data r = None)
           \/ exists a,
                id = GoodId (_id a)
                /\ find (fun x => Nat.eqb (_id x) (_id a)) l = Some a
                /\ may_see user o a
                /\ r = mkReply 200 true "" (Some a)))
    never.
Proof.
  unfold getAppointmentById.
  eapply triple_try_catch with (E1 := db_is l o c);
    [ | intros e; apply triple_ret; auto ].
  eapply triple_bind; [ apply triple_Appointment_findById | ].
  intros r. apply triple_assume. intros ->.
  destruct id as [ | | n ]; try (apply triple_ret; auto).
  destruct (find _ l) as [ a | ] eqn:Hfind; [ | apply triple_ret; auto ].
  assert (Hn : n = _id a) by (now apply find_id_some in Hfind).
  subst n.
  eapply triple_bind; [ apply triple_store_access | ]. intros [].
  eapply triple_bind; [ apply triple_store_access | ]. intros [].
  eapply triple_bind; [ apply triple_Organization_findById | ].
  intros r. apply triple_assume. intros ->. cbv zeta.
  destruct (Nat.eqb_spec (userId a) user) as [ Hu | Hu ]; simpl negb;
    cbv iota.
  - apply triple_ret. intros w Hw. split; [ exact Hw | right ].
    exists a. unfold may_see. auto.
  - destruct (find _ o) as [ org | ] eqn:Horg; simpl;
      [ | apply triple_ret; auto ].
    destruct (Nat.eqb_spec (org_userId org) user) as [ Ho | Ho ]; simpl;
      [ | apply triple_ret; auto ].
    apply triple_ret. intros w Hw. split; [ exact Hw | right ].
    exists a. unfold may_see.
    split; [ reflexivity | ]. split; [ exact Hfind | ].
    split; [ right; exists org; auto | reflexivity ].
Qed.

Lemma getOrganizationAnalytics_outcome (user : ObjectId) (id : ReqId) :
  triple (db_is l o c) (getOrganizationAnalytics user id)
    (fun r w =>
       db_is l o c w
       /\ ((reply_success r = false /\ reply_data r = None)
           \/ exists org,
                id = GoodId (org_id org)
                /\ find (fun x => Nat.eqb (org_id x) (org_id org)) o
                   = Some org
                /\ org_userId org = user
                /\ let today := startOfDay c in
                   let tomorrow := today + msPerDay in
                   let i := org_id org in
                   r = mkReply 200 true ""
                         (Some
                            (mkAnalytics
                               (count_of (ofOrg i) l)
                               (count_of (ofOrgToday i today tomorrow) l)
                               (count_of (ofOrgTodayWithStatus i today
                                            tomorrow completed) l)
                               (count_of (ofOrgTodayWithStatus i today
                                            tomorrow pending) l)
                               (count_of (ofOrgWithStatus i pending) l)
                               (count_of (ofOrgWithStatus i in_progress) l)
                               (count_of (ofOrgWithStatus i completed) l)
                               (count_of (ofOrgWithStatus i cancelled) l)))))
    never.
Proof.
  unfold getOrganizationAnalytics.
  eapply triple_try_catch with (E1 := db_is l o c);
    [ | intros e; apply triple_ret; auto ].
  eapply triple_bind; [ apply triple_Organization_findById | ].
  intros r. apply triple_assume. intros ->.
  destruct id as [ | | n ]; try (apply triple_ret; auto).
  destruct (find _ o) as [ org | ] eqn:Hfind; [ | apply triple_ret; auto ].
  assert (Hn : n = org_id org).
  { apply find_some in Hfind. destruct Hfind as [_ E].
    apply Nat.eqb_eq in E. auto. }
  subst n.
  destruct (Nat.eqb_spec (org_userId org) user) as [ Hu | Hu ]; simpl negb;
    cbv iota; [ | apply triple_ret; auto ].
  eapply triple_bind; [ apply triple_Date_now | ].
  intros now. apply triple_assume. intros ->. cbv zeta.
  repeat (eapply triple_bind;
          [ apply triple_countDocuments
          | intros ?; apply triple_assume; intros -> ]).
  apply triple_ret. intros w Hw. split; [ exact Hw | right ].
  exists org. auto.
Qed.

End ReadRules.







Lemma ofOrganization_iff (i : ObjectId) (q : string) (date : ReqDate)
  (a : Appointment) :
  ofOrganization i q (day_range date) a = true
  <-> organizationId a = i /\ status_asked q a
      /\ forall t, date = DateAt t ->
                   localDay (appointmentDate a) = localDay t.
Proof.
  unfold ofOrganization.
  rewrite !andb_true_iff, Nat.eqb_eq, status_filter_iff.
  destruct date as [ | | t ]; cbn [day_range].
  - split; [ intros [[H1 H2] _] | intros (H1 & H2 & _) ]; repeat split; auto.
    discriminate.
  - split; [ intros [[H1 H2] _] | intros (H1 & H2 & _) ]; repeat split; auto.
    discriminate.
  - rewrite andb_true_iff, !Z.leb_le. split.
    + intros [[H1 H2] H3]. split; [ exact H1 | ]. split; [ exact H2 | ].
      intros t' E. injection E as <-. now apply within_day_iff.
    + intros (H1 & H2 & H3). specialize (H3 t eq_refl).
      apply within_day_iff in H3. tauto.
Qed.

Lemma listed_iff (q : Appointment -> bool) (L l : list Appointment)
  (a : Appointment) :
  Permutation L (filter q l) -> In a L <-> In a l /\ q a = true.
Proof.
  intro HP. rewrite <- filter_In. split; intro H.
  - eapply Permutation_in; eauto.
  - eapply Permutation_in; [ symmetry | ]; eauto.
Qed.

(** X11.  The four reading handlers ([getUserAppointments],
    [getOrganizationAppointments], [getAppointmentById] and
    [getOrganizationAnalytics]) always answer, whatever the store's failures
    and whatever they are asked, and leave every appointment and every
    organization as it was. *)
Theorem read_handlers_write_nothing (user : ObjectId) (statusQuery : string)
  (orgId apptId : ReqId) (date : ReqDate) (w : World) :
  reads_only (getUserAppointments user statusQuery) w
  /\ reads_only (getOrganizationAppointments user orgId statusQuery date) w
  /\ reads_only (getAppointmentById user apptId) w
  /\ reads_only (getOrganizationAnalytics user orgId) w.
Proof.
  unfold reads_only. split; [ | split; [ | split ] ].
  - destruct (triple_run _ _ _ w
                (getUserAppointments_outcome _ _ _ user statusQuery)
                (db_is_here w)) as (r & Hr & (Hl & Ho & _) & _).
    eauto.
  - destruct (triple_run _ _ _ w
                (getOrganizationAppointments_outcome _ _ _ user orgId
                   statusQuery date)
                (db_is_here w)) as (r & Hr & (Hl & Ho & _) & _).
    eauto.
  - destruct (triple_run _ _ _ w
                (getAppointmentById_outcome _ _ _ user apptId)
                (db_is_here w)) as (r & Hr & (Hl & Ho & _) & _).
    eauto.
  - destruct (triple_run _ _ _ w
                (getOrganizationAnalytics_outcome _ _ _ user orgId)
                (db_is_here w)) as (r & Hr & (Hl & Ho & _) & _).
    eauto.
Qed.


(** X13.  [getOrganizationAppointments] lists only for the owner: a 200
    answer means that the organization asked for exists and belongs to the
    caller, and it carries the count and the list of exactly that
    organization's appointments (with the status asked for, and on the local
    day asked for, when they are asked), each once, ordered by date, then
    time string, then queue position. *)
Theorem getOrganizationAppointments_owner_only (user : ObjectId)
  (orgId : ReqId) (statusQuery : string) (date : ReqDate) (w : World)
  (r : Reply (Z * list Appointment)) :
  fst (getOrganizationAppointments user orgId statusQuery date w) = Ok r ->
  reply_success r = true ->
  exists org L,
    orgId = GoodId (org_id org)
    /\ find (fun x => Nat.eqb (org_id x) (org_id org)) (organizations w)
       = Some org
    /\ org_userId org = user
    /\ r = mkReply 200 true "" (Some (Z.of_nat (List.length L), L))
    /\ Permutation L
         (filter (ofOrganization (org_id org) statusQuery (day_range date))
            (appointments w))
    /\ (forall a, In a L <->
                  In a (appointments w) /\ organizationId a = org_id org
                  /\ status_asked statusQuery a
                  /\ forall t, date = DateAt t ->
                               localDay (appointmentDate a) = localDay t)
    /\ StronglySorted (fun a b => earliest_first a b = true) L.
Proof.
  intros Hr Hs.
  destruct (triple_run _ _ _ w
              (getOrganizationAppointments_outcome _ _ _ user orgId
                 statusQuery date)
              (db_is_here w)) as (r' & Hr' & _ & Hout).
  rewrite Hr in Hr'. injection Hr' as <-.
  destruct Hout as [ [Hf _] | (org & Hid & Horg & Hu & Hd & ->) ];
    [ congruence | ].
  exists org. eexists.
  split; [ exact Hid | ]. split; [ exact Horg | ]. split; [ exact Hu | ].
  split; [ reflexivity | ].
  assert (HP : Permutation
                 (sort_by earliest_first
                    (filter (ofOrganization (org_id org) statusQuery
                               (day_range date)) (appointments w)))
                 (filter (ofOrganization (org_id org) statusQuery
                            (day_range date)) (appointments w)))
    by apply sort_by_perm.
  split; [ exact HP | ]. split.
  - intro a. rewrite (listed_iff _ _ _ a HP), ofOrganization_iff.
    reflexivity.
  - apply sort_by_sorted;
      [ exact earliest_first_total | exact earliest_first_trans ].
Qed.



(* ------------------------------------------------------------------ *)
(** *** The counts of the analytics *)

Lemma ofOrgToday_onDayOf (i : ObjectId) (now : Z) (a : Appointment) :
  ofOrgToday i (startOfDay now) (startOfDay now + msPerDay) a
  = onDayOf i now a.
Proof.
  unfold ofOrgToday, onDayOf. rewrite <- andb_assoc. f_equal.
  apply eq_true_iff_eq.
  rewrite andb_true_iff, Z.leb_le, Z.ltb_lt, Z.eqb_eq,
    <- (within_day_iff now (appointmentDate a)).
  unfold msPerDay. lia.
Qed.

Lemma count_of_ext (p q : Appointment -> bool) (l : list Appointment) :
  (forall a, p a = q a) -> count_of p l = count_of q l.
Proof. intro H. unfold count_of. now rewrite (filter_ext _ _ H). Qed.

Lemma count_of_statuses (p : Appointment -> bool) (l : list Appointment) :
  count_of p l
  = count_of (fun a => p a && Status_eqb (status a) pending) l
    + count_of (fun a => p a && Status_eqb (status a) in_progress) l
    + count_of (fun a => p a && Status_eqb (status a) completed) l
    + count_of (fun a => p a && Status_eqb (status a) cancelled) l.
Proof.
  unfold count_of. induction l as [ | a l IH ]; [ reflexivity | ].
  cbn [filter]. destruct (p a); cbn [andb]; [ | exact IH ].
  destruct (status a); cbn [Status_eqb List.length];
    rewrite ?Nat2Z.inj_succ; lia.
Qed.

Lemma count_of_and (p q : Appointment -> bool) (l : list Appointment) :
  0 <= count_of (fun a => p a && q a) l <= count_of p l.
Proof.
  unfold count_of. induction l as [ | a l IH ]; cbn [filter]; [ simpl; lia | ].
  destruct (p a), (q a); cbn [andb List.length];
    rewrite ?Nat2Z.inj_succ; lia.
Qed.

(** X15.  [getOrganizationAnalytics] answers its numbers only to the owner
    of the organization, and the numbers are those of the store: the total
    is the number of the organization's appointments; the four overall
    counts are the numbers per status and add up to the total; today's
    total counts the appointments dated on the local day of the request;
    today's completed and pending are counted among these, so together they
    do not exceed today's total, which does not exceed the total. *)
Theorem getOrganizationAnalytics_counts (user : ObjectId) (id : ReqId)
  (w : World) (r : Reply Analytics) :
  fst (getOrganizationAnalytics user id w) = Ok r ->
  reply_success r = true ->
  exists org an,
    id = GoodId (org_id org)
    /\ find (fun x => Nat.eqb (org_id x) (org_id org)) (organizations w)
       = Some org
    /\ org_userId org = user
    /\ r = mkReply 200 true "" (Some an)
    /\ total an = count_of (ofOrg (org_id org)) (appointments w)
    /\ (forall s,
          match s with
          | pending => overall_pending an
          | in_progress => overall_inProgress an
          | completed => overall_completed an
          | cancelled => overall_cancelled an
          end
          = count_of (fun a => ofOrg (org_id org) a
                               && Status_eqb (status a) s) (appointments w))
    /\ overall_pending an + overall_inProgress an + overall_completed an
       + overall_cancelled an = total an
    /\ today_total an
       = count_of (onDayOf (org_id org) (clock w)) (appointments w)
    /\ today_completed an
       = count_of (fun a => onDayOf (org_id org) (clock w) a
                            && Status_eqb (status a) completed)
           (appointments w)
    /\ today_pending an
       = count_of (fun a => onDayOf (org_id org) (clock w) a
                            && Status_eqb (status a) pending)
           (appointments w)
    /\ 0 <= today_completed an /\ 0 <= today_pending an
    /\ today_completed an + today_pending an <= today_total an
    /\ today_total an <= total an.
Proof.
  intros Hr Hs.
  destruct (triple_run _ _ _ w
              (getOrganizationAnalytics_outcome _ _ _ user id)
              (db_is_here w)) as (r' & Hr' & _ & Hout).
  rewrite Hr in Hr'. injection Hr' as <-.
  destruct Hout as [ [Hf _] | (org & Hid & Horg & Hu & Hrep) ];
    [ congruence | ].
  cbv zeta in Hrep. subst r.
  set (l := appointments w). set (i := org_id org). set (c := clock w).
  exists org. eexists.
  split; [ exact Hid | ]. split; [ exact Horg | ]. split; [ exact Hu | ].
  split; [ reflexivity | ].
  cbn [total today_total today_completed today_pending overall_pending
       overall_inProgress overall_completed overall_cancelled].
  assert (Htoday : count_of (ofOrgToday i (startOfDay c)
                               (startOfDay c + msPerDay)) l
                   = count_of (onDayOf i c) l)
    by (apply count_of_ext; intro a; apply ofOrgToday_onDayOf).
  assert (HtodayS : forall s,
            count_of (ofOrgTodayWithStatus i (startOfDay c)
                        (startOfDay c + msPerDay) s) l
            = count_of (fun a => onDayOf i c a && Status_eqb (status a) s) l).
  { intro s. apply count_of_ext. intro a.
    change (ofOrgTodayWithStatus i (startOfDay c) (startOfDay c + msPerDay)
              s a)
      with (ofOrgToday i (startOfDay c) (startOfDay c + msPerDay) a
            && Status_eqb (status a) s).
    now rewrite ofOrgToday_onDayOf. }
  rewrite Htoday, !HtodayS.
  pose proof (count_of_statuses (ofOrg i) l) as Hsum.
  pose proof (count_of_statuses (onDayOf i c) l) as Hday.
  pose proof (count_of_and (onDayOf i c)
                (fun a => Status_eqb (status a) pending) l) as Hp.
  pose proof (count_of_and (onDayOf i c)
                (fun a => Status_eqb (status a) in_progress) l) as Hi.
  pose proof (count_of_and (onDayOf i c)
                (fun a => Status_eqb (status a) completed) l) as Hc.
  pose proof (count_of_and (onDayOf i c)
                (fun a => Status_eqb (status a) cancelled) l) as Hx.
  pose proof (count_of_and (ofOrg i)
                (fun a => localDay (appointmentDate a) =? localDay c) l)
    as Hle.
  cbv beta in Hp, Hi, Hc, Hx, Hle.
  change (count_of
            (fun a => ofOrg i a
                      && (localDay (appointmentDate a) =? localDay c)) l)
    with (count_of (onDayOf i c) l) in Hle.
  assert (Hst : forall s,
            count_of (ofOrgWithStatus i s) l
            = count_of (fun a => ofOrg i a && Status_eqb (status a) s) l)
    by (intro s; reflexivity).
  rewrite !Hst. clear Hr Hs.
  split; [ reflexivity | ].
  split; [ intros []; reflexivity | ].
  split; [ lia | ].
  split; [ reflexivity | ]. split; [ reflexivity | ].
  split; [ reflexivity | ].
  lia.
Qed.



(* ------------------------------------------------------------------ *)
(** *** No slot is held twice *)

(** A cancellation or a status update that reopens nothing rewrites the
    store document by document and activates none. *)
Lemma status_call_shape (c : Call) (w : World) :
  NoDup (map _id (appointments w)) ->
  (forall req, c <> Book req) ->
  reopens c (appointments w) = false ->
  exists g,
    appointments (snd (run_call c w)) = map g (appointments w)
    /\ forall d, In d (appointments w) ->
         _id (g d) = _id d /\ core (g d) = core d
         /\ (status_in_pending_in_progress (g d) = true ->
             status_in_pending_in_progress d = true).
Proof.
  intros Hnd Hnb Hre.
  assert (Hdec : forall s1 s2 : Status, s1 = s2 \/ s1 <> s2)
    by (intros [] []; (now left) || (right; discriminate)).
  destruct c as [ req | user id newStatus | user id ];
    [ now contradiction (Hnb req) | | ]; cbn [run_call].
  - destruct (triple_run _ _ _ w
                (updateAppointmentStatus_outcome user id newStatus _ _ _ Hnd)
                (db_is_here w))
      as (resp & _ & _ & _ & Hout).
    destruct Hout
      as [ [Hl _] | (a & org & s & -> & Hin & _ & _ & Hcast & Hst & _) ].
    + exists (fun d => d). rewrite map_id. split; [ exact Hl | ].
      intros d _. auto.
    + cbn [reopens] in Hre. rewrite Hcast, (find_by_id _ a Hnd Hin) in Hre.
      assert (Hg : exists g,
                appointments (snd (updateAppointmentStatus user
                                     (GoodId (_id a)) newStatus w))
                = map g (appointments w)
                /\ forall d, In d (appointments w) ->
                     _id (g d) = _id d /\ core (g d) = core d
                     /\ (status (g d) <> status d ->
                         d = a /\ status (g d) = s)).
      { destruct Hst as [ [_ ->] | [_ (n & ->)] ];
          [ now apply replaced_shape | now apply restatused_shape ]. }
      destruct Hg as (g & Hl & Hg). exists g. split; [ exact Hl | ].
      intros d Hd. destruct (Hg d Hd) as (Hi & Hc & Hs).
      split; [ exact Hi | ]. split; [ exact Hc | ].
      unfold status_in_pending_in_progress in *.
      destruct (Hdec (status (g d)) (status d)) as [ -> | N ]; [ auto | ].
      destruct (Hs N) as [-> ->].
      destruct s; try discriminate; intros _;
        now apply negb_false_iff in Hre.
  - destruct (triple_run _ _ _ w
                (cancelAppointment_outcome user id _ _ _ Hnd) (db_is_here w))
      as (resp & _ & _ & _ & Hout).
    destruct Hout as [ [Hl _] | (a & n & -> & Hin & _ & _ & Hl & _) ].
    + exists (fun d => d). rewrite map_id. split; [ exact Hl | ].
      intros d _. auto.
    + destruct (restatused_shape (appointments w) a cancelled (clock w) n
                  Hnd Hin) as (g & Hg & Hshape).
      exists g. split; [ now rewrite Hl | ].
      intros d Hd. destruct (Hshape d Hd) as (Hi & Hc & Hs).
      split; [ exact Hi | ]. split; [ exact Hc | ].
      unfold status_in_pending_in_progress.
      destruct (Hdec (status (g d)) (status d)) as [ -> | N ]; [ auto | ].
      destruct (Hs N) as [_ ->]. discriminate.
Qed.

Lemma core_slot (d d' : Appointment) :
  core d' = core d ->
  organizationId d' = organizationId d
  /\ appointmentDate d' = appointmentDate d
  /\ appointmentTime d' = appointmentTime d
  /\ expertName d' = expertName d.
Proof.
  intro H.
  change (organizationId (core d') = organizationId (core d)
          /\ appointmentDate (core d') = appointmentDate (core d)
          /\ appointmentTime (core d') = appointmentTime (core d)
          /\ expertName (core d') = expertName (core d)).
  now rewrite H.
Qed.

Lemma noclash_step (c : Call) (l : list Appointment) (o : list Organization)
  (now : Z) (fs : list bool) :
  NoDup (map _id l) -> NoClash l -> experts_trimmed o ->
  reopens c l = false ->
  NoClash (appointments (snd (run_call c (mkWorld l o now fs)))).
Proof.
  intros Hnd Hno Htrim Hre.
  set (w1 := mkWorld l o now fs).
  destruct c as [ req | user id newStatus | user id ].
  - cbn [run_call].
    destruct (triple_run _ _ _ w1 (bookAppointment_outcome req _ _ _)
                (db_is_here w1))
      as (resp & _ & _ & _ & Hout).
    cbn [appointments organizations clock w1] in Hout.
    destruct Hout as [ [-> _] | (org & t & e & p & Horg & Hb & _ & -> & _) ];
      [ exact Hno | ].
    destruct Hb as (_ & _ & _ & _ & _ & _ & He & _ & Hslot & _).
    apply find_some in Horg. destruct Horg as [Horg _].
    apply find_some in He. destruct He as [He Hname].
    apply String.eqb_eq in Hname.
    assert (Htr : trim (req_expertName req) = req_expertName req)
      by (rewrite <- Hname; now apply (Htrim org e)).
    set (a := booked req org t (fresh_id l) p now).
    assert (Hfree : forall x,
              In x l -> status_in_pending_in_progress x = true ->
              organizationId x = organizationId a ->
              localDay (appointmentDate x) = localDay (appointmentDate a) ->
              appointmentTime x = appointmentTime a ->
              expertName x = expertName a -> False).
    { intros x Hx Hact Ho Hd Ht Hn.
      apply (find_none _ _ Hslot) in Hx.
      assert (Hq : sameSlotActive (org_id org) (startOfDay t)
                     (startOfDay t + 86399999) (req_appointmentTime req)
                     (req_expertName req) x = true).
      { apply sameSlotActive_iff. cbn [a booked organizationId
          appointmentDate appointmentTime expertName] in Ho, Hd, Ht, Hn.
        rewrite Htr in Hn. repeat split; auto.
        unfold status_in_pending_in_progress in Hact.
        destruct (status x); auto; discriminate. }
      congruence. }
    intros x y Hx Hy Hax Hay Ho Hd Ht Hn.
    apply in_app_or in Hx, Hy.
    destruct Hx as [ Hx | [ <- | [] ] ], Hy as [ Hy | [ <- | [] ] ].
    + now apply Hno.
    + exfalso. now apply (Hfree x).
    + exfalso. apply (Hfree y); auto.
    + reflexivity.
  - destruct (status_call_shape (UpdateStatus user id newStatus) w1 Hnd)
      as (g & -> & Hg); [ discriminate | exact Hre | ].
    cbn [appointments w1] in *.
    intros x' y' Hx Hy Hax Hay Ho Hd Ht Hn.
    apply in_map_iff in Hx, Hy.
    destruct Hx as (x & <- & Hx), Hy as (y & <- & Hy).
    destruct (Hg x Hx) as (Hix & Hcx & Hsx), (Hg y Hy) as (Hiy & Hcy & Hsy).
    apply core_slot in Hcx, Hcy.
    destruct Hcx as (X1 & X2 & X3 & X4), Hcy as (Y1 & Y2 & Y3 & Y4).
    rewrite Hix, Hiy. apply Hno; auto; congruence.
  - destruct (status_call_shape (Cancel user id) w1 Hnd)
      as (g & -> & Hg); [ discriminate | exact Hre | ].
    cbn [appointments w1] in *.
    intros x' y' Hx Hy Hax Hay Ho Hd Ht Hn.
    apply in_map_iff in Hx, Hy.
    destruct Hx as (x & <- & Hx), Hy as (y & <- & Hy).
    destruct (Hg x Hx) as (Hix & Hcx & Hsx), (Hg y Hy) as (Hiy & Hcy & Hsy).
    apply core_slot in Hcx, Hcy.
    destruct Hcx as (X1 & X2 & X3 & X4), Hcy as (Y1 & Y2 & Y3 & Y4).
    rewrite Hix, Hiy. apply Hno; auto; congruence.
Qed.

(** X17.  No double booking: when the requests are handled one after the
    other and the organizations store their experts' names trimmed, then
    through every sequence of bookings, cancellations and status updates,
    whatever accesses to the store fail, no two pending or in-progress
    appointments ever hold the same organization, local day, time string
    and expert name, as long as no completed or cancelled appointment is
    taken back to pending or in-progress. *)
Theorem no_double_booking (w : World) (evs : list Event) :
  NoDup (map _id (appointments w)) ->
  experts_trimmed (organizations w) ->
  NoClash (appointments w) ->
  unreopened w evs ->
  NoClash (appointments (run_events w evs)).
Proof.
  revert w. induction evs as [ | e evs IH ]; intros w Hnd Htrim Hno Hun;
    [ exact Hno | ].
  destruct Hun as (Hre & Hrest). cbn [run_events fold_left].
  destruct (handle_shape w e Hnd) as (Ho & Hnd' & _).
  apply IH; [ exact Hnd' | now rewrite Ho | | exact Hrest ].
  unfold handle. now apply noclash_step.
Qed.


(* ------------------------------------------------------------------ *)
(** *** Failures after the save *)

Lemma restatused_status (l : list Appointment) (a : Appointment) (s : Status)
  (c : Z) (n : nat) (d : Appointment) :
  In d (restatused l a s c n) -> _id d = _id a -> status d = s.
Proof.
  unfold restatused. cbv zeta. intros Hd Hid.
  apply in_map_iff in Hd. destruct Hd as (x & <- & Hx).
  match goal with |- status (renumber_doc ?L 0 c x) = _ =>
    destruct (renumber_doc_keeps L 0 c x) as (Hi & _ & Hst & _) end.
  rewrite Hst. rewrite Hi in Hid.
  unfold replace_doc in Hx. apply in_map_iff in Hx.
  destruct Hx as (y & <- & Hy). cbn [_id set_updatedAt set_status] in *.
  destruct (Nat.eqb_spec (_id y) (_id a)) as [ E | N ];
    [ reflexivity | contradiction ].
Qed.

(** X18.  A cancellation is confirmed once the appointment is saved: when
    the lookup and the save of [cancelAppointment] are answered by the
    store, the user who owns a pending or in-progress appointment gets the
    200 response and the stored appointment is cancelled, whatever fails
    afterwards; a failure during the renumbering is swallowed and leaves the
    day's queue renumbered only up to some appointment [n] of its creation
    order. *)
Theorem cancelAppointment_confirmed_once_saved (l : list Appointment)
  (o : list Organization) (c : Z) (fs : list bool) (a : Appointment) :
  NoDup (map _id l) -> In a l ->
  status_in_pending_in_progress a = true ->
  nth 0 fs false = false -> nth 1 fs false = false ->
  let r := cancelAppointment (userId a) (GoodId (_id a)) (mkWorld l o c fs) in
  fst r = Ok (mkResponse 200 true "Appointment cancelled successfully"
                (Some (set_updatedAt (set_status a cancelled) c)))
  /\ (exists n, appointments (snd r) = restatused l a cancelled c n)
  /\ (forall d, In d (appointments (snd r)) -> _id d = _id a ->
                status d = cancelled)
  /\ organizations (snd r) = o.
Proof.
  intros Hnd Hin Hact H0 H1 r.
  pose proof (find_by_id l a Hnd Hin) as Hfind.
  assert (Hs : Status_eqb (status a) completed = false
               /\ Status_eqb (status a) cancelled = false).
  { unfold status_in_pending_in_progress in Hact.
    destruct (status a); simpl; auto; discriminate. }
  destruct Hs as [Hs1 Hs2].
  set (a' := set_updatedAt (set_status a cancelled) c).
  assert (Hnd' : NoDup (map _id (replace_doc a' l)))
    by now rewrite replace_doc_ids.
  assert (Hrest : forall fs',
            cancelAppointment (userId a) (GoodId (_id a)) (mkWorld l o c fs)
            = (let u := updateQueuePositions (organizationId a)
                          (ValidDate (appointmentDate a))
                          (mkWorld (replace_doc a' l) o c fs') in
               (Ok (mkResponse 200 true "Appointment cancelled successfully"
                      (Some a')), snd u)) ->
            fst r = Ok (mkResponse 200 true
                          "Appointment cancelled successfully" (Some a'))
            /\ (exists n, appointments (snd r) = restatused l a cancelled c n)
            /\ organizations (snd r) = o).
  { intros fs' E. unfold r. rewrite E. cbv zeta. cbn [fst snd].
    split; [ reflexivity | ].
    pose proof (triple_updateQueuePositions (replace_doc a' l) o c
                  (organizationId a) (appointmentDate a) Hnd'
                  (mkWorld (replace_doc a' l) o c fs')
                  (db_is_here (mkWorld (replace_doc a' l) o c fs'))) as Ht.
    destruct (updateQueuePositions _ _ _) as [ [ [] | e ] w' ];
      [ | destruct Ht ].
    destruct Ht as (n & Hl & Ho & _). cbn [snd].
    split; [ exists n; exact Hl | exact Ho ]. }
  assert (Hgoal : fst r = Ok (mkResponse 200 true
                                "Appointment cancelled successfully"
                                (Some a'))
                  /\ (exists n, appointments (snd r)
                                = restatused l a cancelled c n)
                  /\ organizations (snd r) = o).
  { destruct fs as [ | [ | ] [ | [ | ] fs ] ]; simpl in H0, H1;
      try discriminate.
    - apply (Hrest []).
      unfold cancelAppointment, cancelAppointment_try, try_catch.
      run_monad. cbn [faults appointments]. rewrite Hfind, Nat.eqb_refl.
      cbn [negb]. rewrite Hs1, Hs2.
      unfold set_appointments. cbn [clock appointments organizations faults].
      fold a'.
      change (organizationId a') with (organizationId a).
      change (appointmentDate a') with (appointmentDate a).
      destruct (updateQueuePositions _ _ _) as [ [ [] | e ] w' ] eqn:E;
        [ reflexivity | ].
      pose proof (updateQueuePositions_returns (organizationId a)
                    (ValidDate (appointmentDate a))
                    (mkWorld (replace_doc a' l) o c [])) as Hr.
      rewrite E in Hr. discriminate.
    - apply (Hrest []).
      unfold cancelAppointment, cancelAppointment_try, try_catch.
      run_monad. cbn [faults appointments set_faults]. rewrite Hfind, Nat.eqb_refl.
      cbn [negb]. rewrite Hs1, Hs2.
      unfold set_appointments, set_faults.
      cbn [clock appointments organizations faults].
      fold a'.
      change (organizationId a') with (organizationId a).
      change (appointmentDate a') with (appointmentDate a).
      destruct (updateQueuePositions _ _ _) as [ [ [] | e ] w' ] eqn:E;
        [ reflexivity | ].
      pose proof (updateQueuePositions_returns (organizationId a)
                    (ValidDate (appointmentDate a))
                    (mkWorld (replace_doc a' l) o c [])) as Hr.
      rewrite E in Hr. discriminate.
    - apply (Hrest fs).
      unfold cancelAppointment, cancelAppointment_try, try_catch.
      run_monad. cbn [faults appointments set_faults]. rewrite Hfind, Nat.eqb_refl.
      cbn [negb]. rewrite Hs1, Hs2.
      unfold set_appointments, set_faults.
      cbn [clock appointments organizations faults].
      fold a'.
      change (organizationId a') with (organizationId a).
      change (appointmentDate a') with (appointmentDate a).
      destruct (updateQueuePositions _ _ _) as [ [ [] | e ] w' ] eqn:E;
        [ reflexivity | ].
      pose proof (updateQueuePositions_returns (organizationId a)
                    (ValidDate (appointmentDate a))
                    (mkWorld (replace_doc a' l) o c fs)) as Hr.
      rewrite E in Hr. discriminate. }
  destruct Hgoal as (Hr & (n & Hn) & Ho).
  split; [ exact Hr | ]. split; [ eauto | ]. split; [ | exact Ho ].
  intros d Hd Hid. rewrite Hn in Hd.
  now apply (restatused_status l a cancelled c n d).
Qed.

(** X19.  A status outside the schema's enum is never stored:
    [updateAppointmentStatus] answers such a request with a failure and
    leaves the appointments and the organizations as they were.  When the
    caller owns the organization of the appointment and no access fails, the
    failure is the 500 'Server error' raised by the validation of the save,
    not a 400. *)
Theorem updateAppointmentStatus_invalid_status (user : ObjectId) (id : ReqId)
  (newStatus : string) (w : World) :
  NoDup (map _id (appointments w)) ->
  castStatus newStatus = None ->
  exists resp,
    fst (updateAppointmentStatus user id newStatus w) = Ok resp
    /\ success resp = false
    /\ appointments (snd (updateAppointmentStatus user id newStatus w))
       = appointments w
    /\ organizations (snd (updateAppointmentStatus user id newStatus w))
       = organizations w
    /\ (forall a org,
          faults w = [] -> newStatus <> "" ->
          id = GoodId (_id a) -> In a (appointments w) ->
          find (fun x => Nat.eqb (org_id x) (organizationId a))
            (organizations w) = Some org ->
          org_userId org = user ->
          resp = serverError).
Proof.
  intros Hnd Hcast.
  destruct (triple_run _ _ _ w
              (updateAppointmentStatus_outcome user id newStatus _ _ _ Hnd)
              (db_is_here w))
    as (resp & Hresp & Horgs & _ & Hout).
  exists resp. split; [ exact Hresp | ].
  destruct Hout as [ [Hl Hf] | (a & org & s & _ & _ & _ & _ & Hs & _) ];
    [ | congruence ].
  split; [ exact Hf | ]. split; [ exact Hl | ]. split; [ exact Horgs | ].
  intros a org Hcalm Hne -> Hin Horg Hu.
  pose proof (find_by_id _ a Hnd Hin) as Hfind.
  destruct w as [l o c fs]. cbn [faults appointments organizations] in *.
  subst fs.
  revert Hresp.
  unfold updateAppointmentStatus, updateAppointmentStatus_try, try_catch.
  assert (Ht : truthy newStatus = true).
  { unfold truthy. destruct (String.eqb_spec newStatus ""); [ contradiction | reflexivity ]. }
  rewrite Ht, Hcast. cbn [negb].
  run_monad. cbn [faults appointments organizations]. rewrite Hfind.
  cbn [faults appointments organizations]. rewrite Horg.
  cbn [faults appointments organizations].
  rewrite (proj2 (Nat.eqb_eq _ _) Hu). cbn [negb fst].
  intro E. now injection E as <-.
Qed.

(** X20.  The estimated wait never decreases along the queue and is never
    negative: for a duration that is not negative (or left to its default of
    30 minutes), a later position gets an equal or longer wait. *)
Theorem calculateEstimatedWaitTime_monotone (k1 k2 : Z) (d : option Z) :
  (forall x, d = Some x -> 0 <= x) ->
  k1 <= k2 ->
  0 <= calculateEstimatedWaitTime k1 d <= calculateEstimatedWaitTime k2 d.
Proof.
  intros Hd Hk. unfold calculateEstimatedWaitTime. cbv zeta.
  assert (H : 0 <= match d with Some x => x | None => 30 end)
    by (destruct d as [ x | ]; [ now apply Hd | lia ]).
  nia.
Qed.


(* ------------------------------------------------------------------ *)
(** *** Renumbering again *)

Lemma rank_of_map (g : Appointment -> Appointment) (L : list Appointment)
  (i : ObjectId) :
  (forall d, _id (g d) = _id d) -> rank_of i (map g L) = rank_of i L.
Proof.
  intro Hg. induction L as [ | a L IH ]; [ reflexivity | ].
  cbn [map rank_of]. now rewrite Hg, IH.
Qed.

(** X21.  Renumbering is idempotent: when no access fails, a second
    [updateQueuePositions] for the same organization and day at the same
    instant leaves the store exactly as the first one left it. *)
Theorem updateQueuePositions_idempotent (l : list Appointment)
  (o : list Organization) (c : Z) (o' : ObjectId) (t : Z) :
  NoDup (map _id l) ->
  let w1 := snd (updateQueuePositions o' (ValidDate t) (mkWorld l o c [])) in
  updateQueuePositions o' (ValidDate t) w1 = (Ok tt, w1).
Proof.
  intros Hnd w1. unfold w1.
  rewrite (updateQueuePositions_calm l o c o' t Hnd). cbn [snd].
  set (L := sort_by_createdAt (filter (activeOnDay o' t) l)).
  set (g := renumber_doc L 0 c).
  assert (Hid : forall d, _id (g d) = _id d)
    by (intro d; apply renumber_doc_keeps).
  rewrite updateQueuePositions_calm
    by (rewrite map_map, (map_ext _ _ Hid); exact Hnd).
  f_equal. f_equal.
  rewrite filter_map_commute by (intro d; apply renumber_doc_keeps).
  rewrite sort_by_createdAt_map by (intro d; apply renumber_doc_keeps).
  fold L. rewrite map_map. apply map_ext. intro d.
  unfold renumber_doc at 1. rewrite Hid, (rank_of_map g L (_id d) Hid).
  unfold g, renumber_doc.
  destruct (rank_of (_id d) L) as [ j | ]; [ | reflexivity ].
  now destruct d.
Qed.

End Host.

(* ================================================================== *)
(** ** The model on concrete requests *)

Ltac distinct_ids :=
  simpl; repeat (apply NoDup_cons; [ simpl; intuition discriminate | ]);
  apply NoDup_nil.

(** The scenario of the specification: the first booking on Monday 09:00
    gets position 1 and no wait, the same slot is then taken, and 08:59 is
    outside the working hours. *)
Example booking_scenario :
  let first := bookAppointment 0 (booking "09:00") emptyWorld in
  (exists a, fst first = Ok (mkResponse 201 true
                               "Appointment booked successfully" (Some a))
             /\ queuePosition a = 1 /\ estimatedWaitTime a = 0
             /\ status a = pending)
  /\ fst (bookAppointment 0 (booking "09:00") (snd first))
     = Ok (fail 400 "Slot is already taken")
  /\ fst (bookAppointment 0 (booking "08:59") emptyWorld)
     = Ok (fail 400
             "Appointment time is outside working hours, on a day off, or organization is temporarily closed").
Proof.
  vm_compute. split; [ | split; reflexivity ].
  eexists. repeat split.
Qed.

(** The scenario of the specification: A, B, C hold 1, 2, 3; after B is
    cancelled A holds 1 and C holds 2, and C keeps the wait of 60 minutes
    computed for position 3. *)
Example cancel_scenario :
  let w3 := run_events 0 emptyWorld
              [mkEvent 1704400000000 [] (Book (booking "09:00"));
               mkEvent 1704400000001 [] (Book (booking "09:30"));
               mkEvent 1704400000002 [] (Book (booking "10:00"))] in
  map queuePosition (appointments w3) = [1; 2; 3]
  /\ map (fun a => (status a, queuePosition a, estimatedWaitTime a))
       (appointments (snd (cancelAppointment 0 7%nat (GoodId 2%nat) w3)))
     = [(pending, 1, 0); (cancelled, 2, 30); (pending, 2, 60)].
Proof. vm_compute. split; reflexivity. Qed.

(** C9.  The getter compares the times as strings.  With the opening hour
    stored as "9:00", which the schema accepts, on a Monday at 10:30 the
    first open Monday entry exists and 10:30 lies between 9:00 and 17:00 in
    minutes, as [isWithinWorkingHours] finds, yet [isCurrentlyOpen] answers
    false. *)
Theorem isCurrentlyOpen_unpadded_hour :
  matches_HHMM "9:00" = true
  /\ find (fun wh => day_is wh (dayName_at (getDay 0 (ValidDate monday1030)))
                     && isOpen wh) unpaddedHours
     = Some (mkWorkingHours "Monday" "9:00" "17:00" true)
  /\ getHours 0 monday1030 = 10 /\ getMinutes 0 monday1030 = 30
  /\ timeToMinutes "9:00" = Num 540
  /\ timeToMinutes "10:30" = Num 630
  /\ timeToMinutes "17:00" = Num 1020
  /\ isWithinWorkingHours 0 unpaddedHours (ValidDate monday1030) "10:30"
     = true
  /\ isCurrentlyOpen 0 monday1030 unpaddedHours = false.
Proof. vm_compute. repeat split; reflexivity. Qed.

(** C3 as stated fails: a request dated before today whose expert name is
    missing is refused for the missing field, not for the date. *)
Lemma bookAppointment_past_date_missing_field :
  ~ (forall (utcOffset : Z) (req : BookRequest) (w : World) (t : Z),
       req_appointmentDate req = DateAt t ->
       localDay utcOffset t < localDay utcOffset (clock w) ->
       fst (bookAppointment utcOffset req w)
       = Ok (fail 400 "Cannot book appointment in the past")).
Proof.
  intro H.
  specialize (H 0
    (mkBookRequest 7%nat (GoodId 1%nat) "" "checkup" (DateAt 0) "09:00" "")
    emptyWorld 0 eq_refl).
  assert (Hpast : localDay 0 0 < localDay 0 (clock emptyWorld))
    by (vm_compute; reflexivity).
  specialize (H Hpast). vm_compute in H. discriminate.
Qed.


(* ================================================================== *)
(** ** The theorems at concrete inputs *)

Lemma calculateEstimatedWaitTime_at_3 :
  1 <= 3 /\ 0 <= 30 /\ calculateEstimatedWaitTime 3 (Some 30) = 60.
Proof.
  assert (Hk : 1 <= 3) by lia.
  assert (Hd : 0 <= 30) by lia.
  split; [ exact Hk | ]. split; [ exact Hd | ].
  exact (proj1 (proj2 (calculateEstimatedWaitTime_spec 3 30 Hk Hd))).
Defined.

Lemma updateQueuePositions_contiguous_at_gap :
  NoDup (map _id (appointments queueWithGap))
  /\ fst (updateQueuePositions_try 0 1%nat (ValidDate monday) queueWithGap)
     = Ok tt
  /\ map queuePosition
       (sort_by_createdAt
          (filter (activeOnDay 0 1%nat monday)
             (appointments
                (snd (updateQueuePositions 0 1%nat (ValidDate monday)
                        queueWithGap)))))
     = [1; 2].
Proof.
  assert (Hnd : NoDup (map _id (appointments queueWithGap)))
    by distinct_ids.
  assert (Hok : fst (updateQueuePositions_try 0 1%nat (ValidDate monday)
                       queueWithGap) = Ok tt) by reflexivity.
  split; [ exact Hnd | ]. split; [ exact Hok | ].
  exact (proj1 (updateQueuePositions_contiguous 0 1%nat monday queueWithGap
                  Hnd Hok)).
Defined.

Lemma updateQueuePositions_frame_at_gap :
  NoDup (map _id (appointments queueWithGap))
  /\ Forall2 (fun d d' => estimatedWaitTime d' = estimatedWaitTime d)
       (appointments queueWithGap)
       (appointments
          (snd (updateQueuePositions 0 1%nat (ValidDate monday)
                  queueWithGap))).
Proof.
  assert (Hnd : NoDup (map _id (appointments queueWithGap)))
    by distinct_ids.
  split; [ exact Hnd | ].
  eapply Forall2_impl;
    [ | exact (proj2 (updateQueuePositions_frame 0 1%nat monday queueWithGap
                        Hnd)) ].
  intros d d' H. exact (proj1 (proj2 H)).
Defined.

Lemma bookAppointment_past_date_at_epoch :
  let req :=
    mkBookRequest 7%nat (GoodId 1%nat) "Dr. A" "checkup" (DateAt 0) "25:99"
      "" in
  localDay 0 0 < localDay 0 (clock emptyWorld)
  /\ fst (bookAppointment 0 req emptyWorld)
     = Ok (fail 400 "Cannot book appointment in the past").
Proof.
  intro req.
  assert (Hpast : localDay 0 0 < localDay 0 (clock emptyWorld))
    by (vm_compute; reflexivity).
  split; [ exact Hpast | ].
  refine (proj1 (bookAppointment_past_date 0 req emptyWorld 1%nat clinic 0
                   eq_refl _ _ _ eq_refl eq_refl Hpast));
    simpl; discriminate.
Defined.

Lemma cancelAppointment_finished_at_completed :
  let a := appt 2%nat "09:30" completed 2 30 200 in
  In a (appointments queueWithCompleted)
  /\ fst (cancelAppointment 0 7%nat (GoodId 2%nat) queueWithCompleted)
     = Ok (fail 400 "Cannot cancel completed appointment")
  /\ appointments
       (snd (cancelAppointment 0 7%nat (GoodId 2%nat) queueWithCompleted))
     = appointments queueWithCompleted.
Proof.
  intro a.
  assert (Hnd : NoDup (map _id (appointments queueWithCompleted)))
    by distinct_ids.
  assert (Hin : In a (appointments queueWithCompleted))
    by (simpl; auto).
  pose proof (cancelAppointment_finished 0 queueWithCompleted a Hnd Hin
                (or_introl eq_refl)) as (Hsame & _ & _ & Hresp).
  split; [ exact Hin | ]. split; [ exact (Hresp eq_refl) | exact Hsame ].
Defined.



Lemma occupied_slot_is_refused_at_0900 :
  let a := appt 1%nat "09:00" pending 1 0 100 in
  In a (appointments queueWithGap)
  /\ status_in_pending_in_progress a = true
  /\ exists resp,
       fst (bookAppointment 0 (booking "09:00") queueWithGap) = Ok resp
       /\ success resp = false
       /\ appointments (snd (bookAppointment 0 (booking "09:00")
                               queueWithGap))
          = appointments queueWithGap.
Proof.
  intro a.
  assert (Hin : In a (appointments queueWithGap)) by (simpl; auto).
  assert (Hact : status_in_pending_in_progress a = true) by reflexivity.
  split; [ exact Hin | ]. split; [ exact Hact | ].
  exact (occupied_slot_is_refused 0 (booking "09:00") queueWithGap a monday
           Hin Hact eq_refl eq_refl eq_refl eq_refl eq_refl).
Defined.

Lemma refusal_writes_nothing_at_stranger :
  let c := Cancel 8%nat (GoodId 1%nat) in
  NoDup (map _id (appointments queueWithGap))
  /\ fst (run_call 0 c queueWithGap)
     = Ok (fail 403 "Not authorized to cancel this appointment")
  /\ appointments (snd (run_call 0 c queueWithGap))
     = appointments queueWithGap
  /\ organizations (snd (run_call 0 c queueWithGap))
     = organizations queueWithGap.
Proof.
  intro c.
  assert (Hnd : NoDup (map _id (appointments queueWithGap)))
    by distinct_ids.
  assert (Hr : fst (run_call 0 c queueWithGap)
               = Ok (fail 403 "Not authorized to cancel this appointment"))
    by reflexivity.
  assert (Hf : success (fail 403 "Not authorized to cancel this appointment")
               = false) by reflexivity.
  assert (Hc : code (fail 403 "Not authorized to cancel this appointment")
               <> 500) by (simpl; lia).
  split; [ exact Hnd | ]. split; [ exact Hr | ].
  exact (refusal_writes_nothing 0 c queueWithGap _ Hnd Hr Hf Hc).
Defined.

Lemma status_change_is_authorized_at_cancel :
  let c := Cancel 7%nat (GoodId 1%nat) in
  let a := appt 1%nat "09:00" pending 1 0 100 in
  let a' := hd a (appointments (snd (run_call 0 c queueWithGap))) in
  In a (appointments queueWithGap)
  /\ In a' (appointments (snd (run_call 0 c queueWithGap)))
  /\ _id a' = _id a
  /\ status a' <> status a
  /\ authorized c (organizations queueWithGap) a (status a').
Proof.
  intros c a a'.
  assert (Hnd : NoDup (map _id (appointments queueWithGap)))
    by distinct_ids.
  assert (Hin : In a (appointments queueWithGap)) by (simpl; auto).
  assert (Hin' : In a' (appointments (snd (run_call 0 c queueWithGap))))
    by (vm_compute; auto).
  assert (Hid : _id a' = _id a) by reflexivity.
  assert (Hst : status a' <> status a) by (vm_compute; discriminate).
  split; [ exact Hin | ]. split; [ exact Hin' | ]. split; [ exact Hid | ].
  split; [ exact Hst | ].
  exact (status_change_is_authorized 0 c queueWithGap a a' Hnd Hin Hin' Hid
           Hst).
Defined.

Lemma appointments_persist_at_failures :
  let evs :=
    [mkEvent 1704400000000 [false; true] (Book (booking "11:00"));
     mkEvent 1704400000001 [false; false; true] (Cancel 7%nat (GoodId 1%nat));
     mkEvent 1704400000002 [] (UpdateStatus 10%nat (GoodId 2%nat) "pending");
     mkEvent 1704400000003 [] (Book (booking "11:30"))] in
  NoDup (map _id (appointments queueWithCompleted))
  /\ NoDup (map _id (appointments (run_events 0 queueWithCompleted evs)))
  /\ exists extra,
       map core (appointments (run_events 0 queueWithCompleted evs))
       = (map core (appointments queueWithCompleted) ++ extra)%list.
Proof.
  intro evs.
  assert (Hnd : NoDup (map _id (appointments queueWithCompleted)))
    by distinct_ids.
  split; [ exact Hnd | ].
  exact (proj2 (appointments_persist 0 queueWithCompleted evs Hnd)).
Defined.

Lemma queue_stays_contiguous_at_three_bookings :
  let evs :=
    [mkEvent 1704400000000 [] (Book (booking "09:00"));
     mkEvent 1704400000001 [] (Book (booking "09:30"));
     mkEvent 1704400000002 [] (Book (booking "10:00"));
     mkEvent 1704400000003 [] (Cancel 7%nat (GoodId 2%nat));
     mkEvent 1704400000004 []
       (UpdateStatus 10%nat (GoodId 1%nat) "in-progress")] in
  NoDup (map _id (appointments emptyWorld))
  /\ Contiguous 0 (appointments emptyWorld)
  /\ orderly 0 emptyWorld evs
  /\ Contiguous 0 (appointments (run_events 0 emptyWorld evs)).
Proof.
  intro evs.
  assert (Hnd : NoDup (map _id (appointments emptyWorld)))
    by (simpl; constructor).
  assert (Hc : Contiguous 0 (appointments emptyWorld))
    by (intros o t; simpl; constructor).
  assert (Hord : orderly 0 emptyWorld evs)
    by (vm_compute; repeat split).
  split; [ exact Hnd | ]. split; [ exact Hc | ]. split; [ exact Hord | ].
  exact (queue_stays_contiguous 0 emptyWorld evs Hnd Hc Hord).
Defined.

Lemma cancelAppointment_closes_gap_at_first :
  let a := appt 1%nat "09:00" pending 1 0 100 in
  let l := appointments queueWithGap in
  let r := cancelAppointment 0 7%nat (GoodId 1%nat)
             (mkWorld l [clinic] 1704400000000 []) in
  NoDup (map _id l) /\ In a l
  /\ map queuePosition
       (sort_by_createdAt
          (filter (activeOnDay 0 1%nat monday) (appointments (snd r))))
     = [1].
Proof.
  intros a l r.
  assert (Hnd : NoDup (map _id l)) by distinct_ids.
  assert (Hin : In a l) by (simpl; auto).
  assert (Hact : status_in_pending_in_progress a = true) by reflexivity.
  split; [ exact Hnd | ]. split; [ exact Hin | ].
  exact (proj1 (proj2 (cancelAppointment_closes_gap 0 l [clinic]
                         1704400000000 a Hnd Hin Hact))).
Defined.



Lemma getOrganizationAppointments_owner_only_at_monday :
  let m := getOrganizationAppointments 0 10%nat (GoodId 1%nat) ""
             (DateAt monday) queueWithGap in
  exists r org L,
    fst m = Ok r /\ reply_success _ r = true
    /\ org_userId org = 10%nat
    /\ r = mkReply _ 200 true "" (Some (Z.of_nat (List.length L), L))
    /\ StronglySorted (fun a b => earliest_first a b = true) L.
Proof.
  intro m.
  set (r := match fst m with Ok x => x | Throw _ => refuse 500 "" end).
  assert (Hr : fst m = Ok r) by (vm_compute; reflexivity).
  assert (Hs : reply_success _ r = true) by (vm_compute; reflexivity).
  destruct (getOrganizationAppointments_owner_only 0 10%nat (GoodId 1%nat) ""
              (DateAt monday) queueWithGap r Hr Hs)
    as (org & L & _ & _ & Hu & HL & _ & _ & Hsorted).
  exists r, org, L. split; [ exact Hr | ]. split; [ exact Hs | ].
  split; [ exact Hu | ]. split; [ exact HL | exact Hsorted ].
Defined.


Lemma getOrganizationAnalytics_counts_at_gap :
  let m := getOrganizationAnalytics 0 10%nat (GoodId 1%nat) queueWithGap in
  exists r an,
    fst m = Ok r /\ reply_success _ r = true
    /\ r = mkReply _ 200 true "" (Some an)
    /\ overall_pending an + overall_inProgress an + overall_completed an
       + overall_cancelled an = total an
    /\ today_total an <= total an.
Proof.
  intro m.
  set (r := match fst m with
            | Ok x => x
            | Throw _ => refuse 500 ""
            end).
  assert (Hr : fst m = Ok r) by (vm_compute; reflexivity).
  assert (Hs : reply_success _ r = true) by (vm_compute; reflexivity).
  destruct (getOrganizationAnalytics_counts 0 10%nat (GoodId 1%nat)
              queueWithGap r Hr Hs)
    as (org & an & _ & _ & _ & Han & _ & _ & Hsum & _ & _ & _ & _ & _ & _
        & Hle).
  exists r, an. split; [ exact Hr | ]. split; [ exact Hs | ].
  split; [ exact Han | ]. split; [ exact Hsum | exact Hle ].
Defined.

Lemma no_double_booking_at_same_slot :
  let evs :=
    [mkEvent 1704400000000 [] (Book (booking "09:00"));
     mkEvent 1704400000001 [false; false; true] (Book (booking "09:00"));
     mkEvent 1704400000002 [false; true] (Cancel 7%nat (GoodId 1%nat));
     mkEvent 1704400000003 [] (Book (booking "09:00"));
     mkEvent 1704400000004 [] (UpdateStatus 10%nat (GoodId 2%nat) "completed")]
  in
  NoDup (map _id (appointments emptyWorld))
  /\ experts_trimmed (organizations emptyWorld)
  /\ NoClash 0 (appointments emptyWorld)
  /\ unreopened 0 emptyWorld evs
  /\ NoClash 0 (appointments (run_events 0 emptyWorld evs)).
Proof.
  intro evs.
  assert (Hnd : NoDup (map _id (appointments emptyWorld)))
    by (simpl; constructor).
  assert (Htrim : experts_trimmed (organizations emptyWorld)).
  { intros org e [ <- | [] ] [ <- | [] ]. reflexivity. }
  assert (Hno : NoClash 0 (appointments emptyWorld))
    by (intros a b []).
  assert (Hun : unreopened 0 emptyWorld evs)
    by (vm_compute; repeat split).
  split; [ exact Hnd | ]. split; [ exact Htrim | ]. split; [ exact Hno | ].
  split; [ exact Hun | ].
  exact (no_double_booking 0 emptyWorld evs Hnd Htrim Hno Hun).
Defined.

Lemma cancelAppointment_confirmed_once_saved_at_failure :
  let a := appt 1%nat "09:00" pending 1 0 100 in
  let l := appointments queueWithGap in
  let r := cancelAppointment 0 7%nat (GoodId 1%nat)
             (mkWorld l [clinic] 1704400000000 [false; false; true]) in
  NoDup (map _id l) /\ In a l
  /\ fst r = Ok (mkResponse 200 true "Appointment cancelled successfully"
                   (Some (set_updatedAt (set_status a cancelled)
                            1704400000000)))
  /\ forall d, In d (appointments (snd r)) -> _id d = 1%nat ->
               status d = cancelled.
Proof.
  intros a l r.
  assert (Hnd : NoDup (map _id l)) by distinct_ids.
  assert (Hin : In a l) by (simpl; auto).
  assert (Hact : status_in_pending_in_progress a = true) by reflexivity.
  assert (H0 : nth 0 [false; false; true] false = false) by reflexivity.
  assert (H1 : nth 1 [false; false; true] false = false) by reflexivity.
  split; [ exact Hnd | ]. split; [ exact Hin | ].
  pose proof (cancelAppointment_confirmed_once_saved 0 l [clinic]
                1704400000000 [false; false; true] a Hnd Hin Hact H0 H1)
    as (Hr & _ & Hst & _).
  split; [ exact Hr | exact Hst ].
Defined.

Lemma updateAppointmentStatus_invalid_status_at_done :
  NoDup (map _id (appointments queueWithGap))
  /\ castStatus "done" = None
  /\ exists resp,
       fst (updateAppointmentStatus 0 10%nat (GoodId 1%nat) "done"
              queueWithGap) = Ok resp
       /\ success resp = false
       /\ appointments
            (snd (updateAppointmentStatus 0 10%nat (GoodId 1%nat) "done"
                    queueWithGap))
          = appointments queueWithGap.
Proof.
  assert (Hnd : NoDup (map _id (appointments queueWithGap)))
    by distinct_ids.
  assert (Hcast : castStatus "done" = None) by reflexivity.
  split; [ exact Hnd | ]. split; [ exact Hcast | ].
  destruct (updateAppointmentStatus_invalid_status 0 10%nat (GoodId 1%nat)
              "done" queueWithGap Hnd Hcast)
    as (resp & Hr & Hf & Hl & _).
  exists resp. split; [ exact Hr | ]. split; [ exact Hf | exact Hl ].
Defined.

Lemma calculateEstimatedWaitTime_monotone_at_2_3 :
  2 <= 3
  /\ 0 <= calculateEstimatedWaitTime 2 (Some 30)
     <= calculateEstimatedWaitTime 3 (Some 30).
Proof.
  assert (Hd : forall x, Some 30 = Some x -> 0 <= x)
    by (intros x H; injection H as <-; lia).
  assert (Hk : 2 <= 3) by lia.
  split; [ exact Hk | ].
  exact (calculateEstimatedWaitTime_monotone 2 3 (Some 30) Hd Hk).
Defined.

Lemma updateQueuePositions_idempotent_at_gap :
  let l := appointments queueWithGap in
  let w1 := snd (updateQueuePositions 0 1%nat (ValidDate monday)
                   (mkWorld l [clinic] 1704400000000 [])) in
  NoDup (map _id l)
  /\ updateQueuePositions 0 1%nat (ValidDate monday) w1 = (Ok tt, w1).
Proof.
  intros l w1.
  assert (Hnd : NoDup (map _id l)) by distinct_ids.
  split; [ exact Hnd | ].
  exact (updateQueuePositions_idempotent 0 l [clinic] 1704400000000 1%nat
           monday Hnd).
Defined.


Lemma isCurrentlyOpen_padded_at_clinic :
  (forall wh, In wh (workingHours clinic) ->
              padded (startTime wh) = true /\ padded (endTime wh) = true)
  /\ isCurrentlyOpen 0 monday1030 (workingHours clinic)
     = isWithinWorkingHours 0 (workingHours clinic) (ValidDate monday1030)
         (currentTime 0 monday1030).
Proof.
  assert (Hp : forall wh, In wh (workingHours clinic) ->
                          padded (startTime wh) = true
                          /\ padded (endTime wh) = true).
  { intros wh [ <- | [] ]. split; reflexivity. }
  split; [ exact Hp | ].
  exact (isCurrentlyOpen_padded 0 monday1030 (workingHours clinic) Hp).
Defined.
